(** * The news pipeline of the newsletter backend

    A shallow embedding of [app/services/news_service.py]: the clean-up of
    model replies, the Category Searcher with its Title Rewriter and Fallback
    Generator, the Deduplicator, the Section Assigner and the Related-News
    Searcher, followed by the properties of the specification that concern
    them.

    Conventions.
    - A Python [str] is a Rocq [string]; a character stands for a code point
      below 256.
    - A value produced by [json.loads] is a [pyval].
    - The two language models are an oracle: the replies still to come are a
      list, consumed one per call ([world]).
    - The prompt of the Section Assigner is kept with its text: its template
      decides whether the call to the model is made at all.
    - A computation that may raise is an [option] (pure code) or an [io]
      (code that calls a model); [None] is a raised exception. *)

From Stdlib Require Import ZArith String Ascii.
From Stdlib Require Import Floats.SpecFloat.
From stdpp Require Import gmap strings list.

Local Open Scope Z_scope.

(** ** Python text *)

Module Text.

Definition chars (s : string) : list ascii := String.list_ascii_of_string s.
Definition text (l : list ascii) : string := String.string_of_list_ascii l.

(** [str.isspace] on one character, which is also what [\s] matches in a
    pattern over [str]: TAB..CR, FS..US, space, NEL and NBSP. *)
Definition isspace (c : ascii) : bool :=
  let n := N_of_ascii c in
  ((9 <=? n) && (n <=? 13) || (28 <=? n) && (n <=? 32)
   || (n =? 133) || (n =? 160))%N.

(** [str.lower] on one character: A..Z and the capital letters of Latin-1
    (0xC0..0xDE but the multiplication sign 0xD7) move up by 32. *)
Definition lower_char (c : ascii) : ascii :=
  let n := N_of_ascii c in
  if ((65 <=? n) && (n <=? 90)
      || (192 <=? n) && (n <=? 222) && negb (n =? 215))%N
  then ascii_of_N (n + 32) else c.

Fixpoint drop_while {A} (p : A -> bool) (l : list A) : list A :=
  match l with
  | [] => []
  | x :: l' => if p x then drop_while p l' else l
  end.

(** [l] without the prefix [p], when it has it. *)
Fixpoint cut_prefix (p l : list ascii) : option (list ascii) :=
  match p, l with
  | [], _ => Some l
  | _ :: _, [] => None
  | a :: p', b :: l' => if bool_decide (a = b) then cut_prefix p' l' else None
  end.

Definition lstrip (l : list ascii) : list ascii := drop_while isspace l.
Definition rstrip (l : list ascii) : list ascii := reverse (drop_while isspace (reverse l)).

(** [s.strip()] *)
Definition strip (s : string) : string := text (rstrip (lstrip (chars s))).

(** [s.lower()] *)
Definition lower (s : string) : string := text (lower_char <$> chars s).

(** [s.startswith(p)] *)
Definition startswith (s p : string) : bool :=
  bool_decide (is_Some (cut_prefix (chars p) (chars s))).

(** [s[:n]] for a literal [n >= 0] *)
Definition prefix_to (n : nat) (s : string) : string := text (take n (chars s)).

(** [l[:n]] for any integer [n]: a negative bound counts from the end. *)
Definition slice_to {A} (n : Z) (l : list A) : list A :=
  take (Z.to_nat (if n <? 0 then Z.of_nat (length l) + n else n)) l.

(** [l[a:b]] for literals [0 <= a <= b]. *)
Definition slice {A} (a b : nat) (l : list A) : list A :=
  take (b - a) (drop a l).

Definition fence : list ascii := chars "```".

(** [re.sub(r'^```(?:json)?\s*', '', s)]: an opening fence at the very start,
    the word json right after it when it is there, and the white space that
    follows; a text that does not start with a fence has no match. *)
Definition sub_fence_open (l : list ascii) : list ascii :=
  match cut_prefix fence l with
  | Some r => lstrip (default r (cut_prefix (chars "json") r))
  | None => l
  end.

(** [re.sub(r'\s*```$', '', s)]: the match is a closing fence that ends the
    text, or stands before a newline that ends it (what [$] accepts), with
    the white space before the fence; the leftmost match starts that white
    space, and nothing after it matches again. *)
Definition sub_fence_close (l : list ascii) : list ascii :=
  let r := reverse l in
  match cut_prefix fence r with
  | Some r' => reverse (drop_while isspace r')
  | None =>
      match cut_prefix ("010"%char :: fence) r with
      | Some r' => reverse ("010"%char :: drop_while isspace r')
      | None => l
      end
  end.

(** The clean-up every component applies to a model reply:
<<
    clean = reply.strip()
    if clean.startswith("```"):
        clean = re.sub(r'^```(?:json)?\s*', '', clean)
        clean = re.sub(r'\s*```$', '', clean)
>> *)
Definition strip_fences (reply : string) : string :=
  let clean := strip reply in
  if startswith clean "```"
  then text (sub_fence_close (sub_fence_open (chars clean)))
  else clean.

Fixpoint find_char (c : ascii) (l : list ascii) : option nat :=
  match l with
  | [] => None
  | x :: l' => if bool_decide (x = c) then Some 0%nat else S <$> find_char c l'
  end.

(** [re.search(r'\{.*\}', s, re.DOTALL)], then [group(0)] when there is a
    match: the leftmost opening brace that has a closing brace after it, up
    to the LAST closing brace of the text ([.*] is greedy and, with DOTALL,
    crosses newlines). The first opening brace is that leftmost one or none
    is. Without a match the text is kept. *)
Definition json_span (l : list ascii) : list ascii :=
  match find_char "{" l with
  | None => l
  | Some i =>
      let r := drop (S i) l in
      match find_char "}" (reverse r) with
      | None => l
      | Some j => "{"%char :: take (length r - j) r
      end
  end.

Definition extract_json (s : string) : string := text (json_span (chars s)).

(** [sub in s] *)
Fixpoint contains_l (sub l : list ascii) : bool :=
  if bool_decide (is_Some (cut_prefix sub l)) then true
  else match l with
       | [] => false
       | _ :: l' => contains_l sub l'
       end.
Definition contains (s sub : string) : bool := contains_l (chars sub) (chars s).

End Text.

(** ** Python values *)

Module Py.

(** What [json.loads] returns: [None], [bool], [int], [float], [str], [list]
    and [dict] with [str] keys (kept in insertion order). *)
#[warnings="-register-all"]
Inductive pyval : Type :=
  | PNone
  | PBool (b : bool)
  | PInt (z : Z)
  | PFloat (f : spec_float)
  | PStr (s : string)
  | PList (l : list pyval)
  | PDict (d : list (string * pyval)).

Definition float_is_zero (f : spec_float) : bool :=
  match f with S754_zero _ => true | _ => false end.

(** [f >= 0] on a float: false for NaN, true for both zeros. *)
Definition float_ge0 (f : spec_float) : bool :=
  match f with
  | S754_zero _ => true
  | S754_infinity s => negb s
  | S754_nan => false
  | S754_finite s _ _ => negb s
  end.

(** [f == i] for a float and an int, which Python decides on exact values:
    the float [(-1)^s * m * 2^e] against the integer [i]. *)
Definition float_eq_int (f : spec_float) (i : Z) : bool :=
  match f with
  | S754_zero _ => i =? 0
  | S754_infinity _ | S754_nan => false
  | S754_finite s m e =>
      let sgn := if s then -1 else 1 in
      if 0 <=? e then sgn * Z.pos m * 2 ^ e =? i
      else (Z.pos m mod 2 ^ (- e) =? 0) && (sgn * (Z.pos m / 2 ^ (- e)) =? i)
  end.

(** Truth value of an object ([if v], [not v], [a if v else b]). *)
Definition truthy (v : pyval) : bool :=
  match v with
  | PNone => false
  | PBool b => b
  | PInt z => negb (z =? 0)
  | PFloat f => negb (float_is_zero f)
  | PStr s => negb (bool_decide (s = ""))
  | PList l => negb (bool_decide (l = []))
  | PDict d => negb (bool_decide (d = []))
  end.

Fixpoint dict_get (k : string) (d : list (string * pyval)) : option pyval :=
  match d with
  | [] => None
  | (k', v) :: d' => if bool_decide (k' = k) then Some v else dict_get k d'
  end.

(** [v.get(k, dflt)]: only a dict has the method (AttributeError otherwise). *)
Definition get (v : pyval) (k : string) (dflt : pyval) : option pyval :=
  match v with
  | PDict d => Some (default dflt (dict_get k d))
  | _ => None
  end.

(** [v.items()]: only a dict has the method. *)
Definition items (v : pyval) : option (list (string * pyval)) :=
  match v with
  | PDict d => Some d
  | _ => None
  end.

(** What [for x in v] (and [enumerate(v)]) runs through: the elements of a
    list, the one-character strings of a str, the keys of a dict; the other
    values are not iterable (TypeError). *)
Definition iter (v : pyval) : option (list pyval) :=
  match v with
  | PList l => Some l
  | PStr s => Some ((fun c => PStr (String c "")) <$> Text.chars s)
  | PDict d => Some ((fun kv => PStr kv.1) <$> d)
  | _ => None
  end.

(** [v[:n]]: lists and strs can be sliced; a dict or a scalar cannot. *)
Definition slice_to (n : Z) (v : pyval) : option pyval :=
  match v with
  | PList l => Some (PList (Text.slice_to n l))
  | PStr s => Some (PStr (Text.text (Text.slice_to n (Text.chars s))))
  | _ => None
  end.

(** The receiver of a str method such as [strip]: among these values only a
    str has it. *)
Definition as_str (v : pyval) : option string :=
  match v with
  | PStr s => Some s
  | _ => None
  end.

(** [isinstance(v, int)], with the integer [v] then is. [bool] is a subclass
    of [int]: [True] is the integer 1 and [False] the integer 0, in
    comparisons, as a list index and as a member of a set of ints alike. *)
Definition as_int (v : pyval) : option Z :=
  match v with
  | PInt z => Some z
  | PBool b => Some (if b then 1 else 0)
  | _ => None
  end.

(** [v >= 0]: defined on numbers, TypeError on the rest. *)
Definition ge0 (v : pyval) : option bool :=
  match v with
  | PInt z => Some (0 <=? z)
  | PBool _ => Some true
  | PFloat f => Some (float_ge0 f)
  | _ => None
  end.

(** [k == i] for a dict key [k] that is a number and an int [i]; equal
    numbers hash alike, so this is when [d.get(i)] finds the entry of [k]. *)
Definition key_eq_int (k : pyval) (i : Z) : bool :=
  match k with
  | PInt z => z =? i
  | PBool b => (if b then 1 else 0) =? i
  | PFloat f => float_eq_int f i
  | _ => false
  end.

(** A dict with number keys, newest assignment first: [d[k] = v] is a cons,
    [d.get(i, dflt)] takes the first entry whose key equals [i]. *)
Fixpoint num_dict_get (d : list (pyval * pyval)) (i : Z) (dflt : pyval) : pyval :=
  match d with
  | [] => dflt
  | (k, v) :: d' => if key_eq_int k i then v else num_dict_get d' i dflt
  end.

(** A dict with str keys in insertion order: [d[k] = v] replaces the value of
    a key that is there, in place, and appends a new key. *)
Fixpoint dict_set {V} (k : string) (v : V) (d : list (string * V))
    : list (string * V) :=
  match d with
  | [] => [(k, v)]
  | (k', v') :: d' =>
      if bool_decide (k' = k) then (k, v) :: d' else (k', v') :: dict_set k v d'
  end.

End Py.

Export Py (pyval(..)).

(** ** Prompt templates *)

Module Template.

(** A character that is no brace. *)
Definition plain (c : ascii) : bool :=
  negb (bool_decide (c = "{"%char)) && negb (bool_decide (c = "}"%char)).

(** Where [string.Formatter().parse] is in a format string: in literal text,
    in the name of a replacement field (outside or inside square brackets),
    after the [!] of a conversion, after the character of the conversion, or
    in a format specification, [depth] braces deep. *)
Inductive state : Type :=
  | Literal
  | Name (acc : list ascii)
  | Index (acc : list ascii)
  | Conversion
  | Converted
  | Spec (depth : nat).

(** The names of the replacement fields of a format string, in order, as
    [string.Formatter().parse] yields them; [None] is its ValueError. In
    literal text a doubled brace is a brace and a single closing brace is an
    error; the name of a field runs to the first [}], [:] or [!] outside
    square brackets and holds no opening brace; a format specification runs
    to the brace that closes the field, over nested pairs of braces. *)
Fixpoint scan (st : state) (l : list ascii) {struct l} : option (list string) :=
  match l with
  | [] => match st with Literal => Some [] | _ => None end
  | c :: l' =>
      match st with
      | Literal =>
          if bool_decide (c = "{"%char) then
            match l' with
            | [] => None
            | c' :: l'' =>
                if bool_decide (c' = "{"%char) then scan Literal l''
                else scan (Name []) l'
            end
          else if bool_decide (c = "}"%char) then
            match l' with
            | [] => None
            | c' :: l'' =>
                if bool_decide (c' = "}"%char) then scan Literal l'' else None
            end
          else scan Literal l'
      | Name acc =>
          if bool_decide (c = "{"%char) then None
          else if bool_decide (c = "["%char) then scan (Index (c :: acc)) l'
          else if bool_decide (c = "}"%char) then
            cons (Text.text (reverse acc)) <$> scan Literal l'
          else if bool_decide (c = ":"%char) then
            cons (Text.text (reverse acc)) <$> scan (Spec 0) l'
          else if bool_decide (c = "!"%char) then
            cons (Text.text (reverse acc)) <$> scan Conversion l'
          else scan (Name (c :: acc)) l'
      | Index acc =>
          if bool_decide (c = "]"%char) then scan (Name (c :: acc)) l'
          else scan (Index (c :: acc)) l'
      | Conversion => scan Converted l'
      | Converted =>
          if bool_decide (c = "}"%char) then scan Literal l'
          else if bool_decide (c = ":"%char) then scan (Spec 0) l'
          else None
      | Spec depth =>
          if bool_decide (c = "{"%char) then scan (Spec (S depth)) l'
          else if bool_decide (c = "}"%char) then
            match depth with
            | O => scan Literal l'
            | S depth' => scan (Spec depth') l'
            end
          else scan (Spec depth) l'
      end
  end.

Definition fields (s : string) : option (list string) :=
  scan Literal (Text.chars s).

(** ["\n".join(l)] *)
Fixpoint lines (l : list string) : string :=
  match l with
  | [] => ""
  | [x] => x
  | x :: rest => x +:+ String "010" (lines rest)
  end.

(** [s] between double quotes. *)
Definition quoted (s : string) : string :=
  String "034" (s +:+ String "034" "").

End Template.

(** ** The data model *)

Record NewsItem : Type := mkNewsItem {
  category : string;
  title : string;
  publisher : string;
  published_date : string;
  url : string;
  summary : string;
  why_it_matters : string;
  tags : list string
}.

(** What the service takes from outside the repository's sources. *)
Class Runtime : Type := {
  (** [json.loads]; [None] is a JSONDecodeError. *)
  json_loads : string -> option pyval;
  (** [hashlib.md5(s.encode()).hexdigest()] *)
  md5_hexdigest : string -> string;
  (** Modelled from the spec: the class NewsItem of app/models/news.py, which
      is not among the sources. Its fields are strings (section 3 of the
      specification); [str_field v] is the string a field holds after the
      class has validated the value [v] given to its constructor, [None]
      when it rejects [v] with an exception. *)
  str_field : pyval -> option string
}.

(** What the Section Assigner takes from the clock and from the prompt
    library (langchain-core), neither of which is among the sources. *)
Class Prompting : Type := {
  (** [now.strftime('%B %d, %Y')] and [str(now.year)] for the [now] of
      [get_current_date_context], and [str(datetime.now().year)] as the
      Section Assigner reads it: the name of a month, digits, a comma and
      spaces, hence no brace. *)
  now_date : string;
  now_year : string;
  current_year : string;
  now_plain :
    forallb Template.plain
      (Text.chars now_date ++ Text.chars now_year ++ Text.chars current_year)
    = true;
  (** Whether [ChatPromptTemplate.from_messages] builds a template from a text
      that [string.Formatter] can parse: the releases of the library differ
      in the replacement fields they accept, and raise ValueError for a text
      they refuse. *)
  template_accepted : string -> bool
}.

(** ** The models and the calls to them *)

(** The replies the models are still to give, one per call and in the order
    of the calls; [None] is a call that raises (network failure, timeout).
    When the list is exhausted the call raises. *)
Definition world : Type := list (option string).

(** A computation that calls the models: the value it returns, or [None] when
    it raises, and the replies left. *)
Definition io (A : Type) : Type := world -> option A * world.

#[global] Instance io_ret : MRet io := fun A (a : A) w => (Some a, w).
#[global] Instance io_bind : MBind io := fun A B (f : A -> io B) (c : io A) w =>
  match c w with
  | (Some a, w') => f a w'
  | (None, w') => (None, w')
  end.

(** A pure step that may raise. *)
Definition lift {A} (o : option A) : io A := fun w => (o, w).

(** [await chain.ainvoke({...})]. The prompt decides what the model is asked,
    not what it answers: the answer is the next reply of the world. *)
Definition ainvoke : io string := fun w =>
  match w with
  | [] => (None, [])
  | r :: w' => (r, w')
  end.

(** [try: body except Exception: handler] *)
Definition try_except {A} (body handler : io A) : io A := fun w =>
  match body w with
  | (Some a, w') => (Some a, w')
  | (None, w') => handler w'
  end.

Section Service.
Context `{Runtime} `{Prompting}.

(** [NewsItem(category=.., title=.., .., tags=..)] *)
Definition NewsItem_new (category : string)
    (title publisher published_date url summary why_it_matters : pyval)
    (tags : list string) : option NewsItem :=
  t ← str_field title;
  p ← str_field publisher;
  d ← str_field published_date;
  u ← str_field url;
  s ← str_field summary;
  w ← str_field why_it_matters;
  Some (mkNewsItem category t p d u s w tags).


(** *** Fallback Generator *)

(** One turn of the loop of [_fetch_ai_generated_news]: the item built from
    [article], or nothing when its title is empty. *)
Definition generated_item (category : string) (article : pyval)
    : option (option NewsItem) :=
  t0 ← Py.get article "title" (PStr "");
  t ← Py.get article "catchy_title" t0;
  p ← Py.get article "publisher" (PStr "Industry Source");
  d ← Py.get article "published_date" (PStr "2026-01-12");
  u ← Py.get article "url" (PStr "");
  s ← Py.get article "summary" (PStr "");
  w ← Py.get article "why_it_matters" (PStr "");
  item ← NewsItem_new category t p d u s w [category; "digital-marketing"];
  Some (if bool_decide (title item = "") then None else Some item).

(** A loop that appends to [items] what each turn yields. *)
Fixpoint collect {A B} (f : A -> option (option B)) (l : list A) : option (list B) :=
  match l with
  | [] => Some []
  | x :: l' =>
      r ← f x;
      items ← collect f l';
      Some (match r with Some item => item :: items | None => items end)
  end.

Definition _fetch_ai_generated_news (category : string) (num_items : Z)
    : io (list NewsItem) :=
  try_except
    (result ← ainvoke;
     data ← lift (json_loads (Text.strip_fences result));
     lift (news ← Py.get data "news" (PList []);
           sl ← Py.slice_to num_items news;
           articles ← Py.iter sl;
           collect (generated_item category) articles))
    (mret []).

(** *** Category Searcher and Title Rewriter *)

(** STEP 2, one turn: the provenance record [original_data[i]] of an article
    and its entry of [titles_only]. *)
Definition split_article (i : nat) (article : pyval) : option (pyval * pyval) :=
  u ← Py.get article "url" (PStr "");
  p ← Py.get article "publisher" (PStr "Industry Source");
  d ← Py.get article "published_date" (PStr "2026-01-12");
  s ← Py.get article "summary" (PStr "");
  w ← Py.get article "why_it_matters" (PStr "");
  t ← Py.get article "title" (PStr "");
  Some (PDict [("url", u); ("publisher", p); ("published_date", d);
               ("summary", s); ("why_it_matters", w)],
        PDict [("index", PInt (Z.of_nat i)); ("title", t)]).

(** STEP 2: [original_data], whose key [i] is the position in the list, and
    [titles_only]. *)
Fixpoint split_articles (i : nat) (articles : list pyval)
    : option (list pyval * list pyval) :=
  match articles with
  | [] => Some ([], [])
  | article :: rest =>
      r ← split_article i article;
      rs ← split_articles (S i) rest;
      Some (r.1 :: rs.1, r.2 :: rs.2)
  end.

(** The loop that fills [catchy_map] from the entries of the rewriter's
    reply; the newest entry is first. *)
Fixpoint build_catchy_map (catchy_map : list (pyval * pyval)) (entries : list pyval)
    : option (list (pyval * pyval)) :=
  match entries with
  | [] => Some catchy_map
  | item :: rest =>
      idx ← Py.get item "index" (PInt (-1));
      keep ← Py.ge0 idx;
      if keep : bool then
        t ← Py.get item "catchy_title" (PStr "");
        build_catchy_map ((idx, t) :: catchy_map) rest
      else build_catchy_map catchy_map rest
  end.

(** STEP 3, one turn: the item of the article at position [i], or nothing
    when its URL does not pass or its title is empty. *)
Definition merged_item (category : string) (original_data : list pyval)
    (catchy_map : list (pyval * pyval)) (i : nat) (article : pyval)
    : option (option NewsItem) :=
  let orig := default (PDict []) (original_data !! i) in
  u ← Py.get orig "url" (PStr "");
  u ← Py.as_str u;
  let url := Text.strip u in
  if bool_decide (url = "") || bool_decide (url = "https://...") then
    _ ← Py.get article "title" (PStr "Unknown");
    Some None
  else
    let url := if Text.startswith url "http" then url else "https://" +:+ url in
    t0 ← Py.get article "title" (PStr "");
    let catchy_title := Py.num_dict_get catchy_map (Z.of_nat i) t0 in
    t1 ← Py.get article "title" (PStr "");
    p ← Py.get orig "publisher" (PStr "Industry Source");
    d ← Py.get orig "published_date" (PStr "2026-01-12");
    s ← Py.get orig "summary" (PStr "");
    w ← Py.get orig "why_it_matters" (PStr "");
    item ← NewsItem_new category
             (if Py.truthy catchy_title then catchy_title else t1)
             p d (PStr url) s w [category; "digital-marketing"];
    Some (if bool_decide (title item = "") then None else Some item).

(** STEP 3: the loop over [enumerate(raw_articles[:num_items])]. *)
Fixpoint merge_articles (category : string) (original_data : list pyval)
    (catchy_map : list (pyval * pyval)) (i : nat) (articles : list pyval)
    : option (list NewsItem) :=
  match articles with
  | [] => Some []
  | article :: rest =>
      r ← merged_item category original_data catchy_map i article;
      items ← merge_articles category original_data catchy_map (S i) rest;
      Some (match r with Some item => item :: items | None => items end)
  end.

(** The body of the [try] of [fetch_news_with_catchy_titles]. *)
Definition search_and_merge (category : string) (num_items : Z)
    : io (list NewsItem) :=
  search_result ← ainvoke;
  search_data ← lift (json_loads (Text.strip_fences search_result));
  raw_articles ← lift (Py.get search_data "news" (PList []));
  if negb (Py.truthy raw_articles) then
    _fetch_ai_generated_news category num_items
  else
    split ← lift (Py.iter raw_articles ≫= split_articles 0);
    titles_result ← ainvoke;
    titles_data ← lift (json_loads (Text.strip_fences titles_result));
    lift (titles ← Py.get titles_data "titles" (PList []);
          entries ← Py.iter titles;
          catchy_map ← build_catchy_map [] entries;
          sl ← Py.slice_to num_items raw_articles;
          articles ← Py.iter sl;
          merge_articles category split.1 catchy_map 0 articles).

Definition fetch_news_with_catchy_titles (category : string) (num_items : Z)
    : io (list NewsItem) :=
  try_except (search_and_merge category num_items)
             (_fetch_ai_generated_news category num_items).

(** *** Deduplicator *)

(** The fingerprint of an item:
    [hashlib.md5(item.title.lower().strip()[:50].encode()).hexdigest()]. *)
Definition title_prefix (item : NewsItem) : string :=
  Text.prefix_to 50 (Text.strip (Text.lower (title item))).

Definition title_hash (item : NewsItem) : string :=
  md5_hexdigest (title_prefix item).

(** The loop of [_dedupe_items], from a given [seen_hashes]. *)
Fixpoint dedupe_from (seen_hashes : gset string) (items : list NewsItem)
    : list NewsItem :=
  match items with
  | [] => []
  | item :: rest =>
      if bool_decide (title_hash item ∉ seen_hashes)
      then item :: dedupe_from ({[title_hash item]} ∪ seen_hashes) rest
      else dedupe_from seen_hashes rest
  end.

Definition _dedupe_items (items : list NewsItem) : list NewsItem :=
  dedupe_from ∅ items.

(** *** Section Assigner *)

(** The loop over the indices of one section: the items it appends and the
    indices used after it. [all_items[idx]] raises outside the list, which
    the test before it excludes. *)
Fixpoint assign_section (all_items : list NewsItem) (used_indices : gset Z)
    (indices : list pyval) : option (list NewsItem * gset Z) :=
  match indices with
  | [] => Some ([], used_indices)
  | idx :: rest =>
      match Py.as_int idx with
      | Some i =>
          if (0 <=? i) && (i <? Z.of_nat (length all_items))
             && bool_decide (i ∉ used_indices)
          then
            item ← all_items !! Z.to_nat i;
            r ← assign_section all_items ({[i]} ∪ used_indices) rest;
            Some (item :: r.1, r.2)
          else assign_section all_items used_indices rest
      | None => assign_section all_items used_indices rest
      end
  end.

(** The loop over [assignments.items()]. *)
Fixpoint assign_sections (all_items : list NewsItem)
    (section_items : list (string * list NewsItem)) (used_indices : gset Z)
    (assignments : list (string * pyval))
    : option (list (string * list NewsItem)) :=
  match assignments with
  | [] => Some section_items
  | (section_key, indices) :: rest =>
      idxs ← Py.iter indices;
      r ← assign_section all_items used_indices idxs;
      assign_sections all_items (Py.dict_set section_key r.1 section_items) r.2 rest
  end.

Definition _simple_distribution (items : list NewsItem)
    : list (string * list NewsItem) :=
  let n := length items in
  [ ("main-story", if (0 <? n)%nat then Text.slice 0 1 items else []);
    ("main-story-summary", if (0 <? n)%nat then Text.slice 0 1 items else []);
    ("second-story", if (1 <? n)%nat then Text.slice 1 2 items else []);
    ("third-story", if (2 <? n)%nat then Text.slice 2 3 items else []);
    ("trendsetter", if (3 <? n)%nat then Text.slice 3 5 items else []);
    ("top-news", if (5 <? n)%nat then Text.slice 5 8 items else []);
    ("links", if (8 <? n)%nat then Text.slice 8 11 items else []) ].

(** [get_current_date_context()] *)
Definition get_current_date_context : string :=
  "CURRENT DATE: " +:+ now_date +:+ " (Year: " +:+ now_year
  +:+ "). All content should be relevant to " +:+ now_year +:+ ".".

(** The system text of the ranking prompt, as its f-string evaluates: the
    date context and the year are put in, and each doubled brace of the
    source is a single brace of the text. *)
Definition ranking_head : string :=
  Template.lines
    [ ""; "";
      "You are a newsletter editor for a digital marketing publication in " ].

Definition ranking_rules : string :=
  Template.lines
    [ "."; "";
      "SECTIONS TO FILL:";
      "1. main-story: THE biggest, most impactful story (1 item)";
      "2. main-story-summary: Summary for the main story (1 item)";
      "3. second-story: Strong supporting story (1 item)";
      "4. third-story: Additional interesting story (1 item)";
      "5. trendsetter: Forward-looking, emerging trend (1-2 items)";
      "6. top-news: Top industry headlines (2-3 items)";
      "7. links: Valuable resources/guides (2-3 items)";
      "";
      "RULES:";
      "- Each item can only be used ONCE";
      "- Pick the MOST impactful story for main-story";
      "- Ensure variety across categories";
      "- Prioritize stories relevant to " ].

Definition ranking_answer : string :=
  Template.lines
    [ ""; "";
      "Return JSON: {" +:+ Template.quoted "assignments" +:+ ": {"
      +:+ Template.quoted "main-story" +:+ ": [0], "
      +:+ Template.quoted "second-story" +:+ ": [1], ...}, "
      +:+ Template.quoted "reasoning" +:+ ": " +:+ Template.quoted "..."
      +:+ "}" ].

Definition ranking_system_text : string :=
  get_current_date_context +:+ ranking_head +:+ current_year +:+ ranking_rules
  +:+ current_year +:+ ranking_answer.

(** The user text of the ranking prompt, a plain literal. *)
Definition ranking_user_text : string :=
  Template.lines
    [ "Here are {count} news stories to assign:"; ""; "{news_summary}" ].

(** [ChatPromptTemplate.from_messages([("system", ..), ("user", ..)])]: the
    input variables of the template it builds, which are the replacement
    fields of the texts; it raises where a text does not parse and where the
    library refuses one. *)
Definition from_messages (texts : list string) : option (list string) :=
  fields ← mapM Template.fields texts;
  if forallb template_accepted texts then Some (concat fields) else None.

(** [await chain.ainvoke({...})] for [chain = prompt | llm | parser]: the
    prompt is formatted first, which raises KeyError when the dict lacks one
    of its input variables; only then is the model called. [given] are the
    keys of the dict. *)
Definition invoke (input_variables given : list string) : io string :=
  if forallb (fun v => bool_decide (v ∈ given)) input_variables
  then ainvoke else lift None.

(** The body of the [try] of [rank_and_assign_to_sections]. *)
Definition rank_with_model (prompt : list string) (all_items : list NewsItem)
    : io (list (string * list NewsItem)) :=
  result ← invoke prompt ["count"; "news_summary"];
  data ← lift (json_loads (Text.strip_fences result));
  lift (assignments ← Py.get data "assignments" (PDict []);
        pairs ← Py.items assignments;
        assign_sections all_items [] ∅ pairs).

(** [all_news] is the dict of the items of each category, in insertion
    order. The prompt is built before the [try]. *)
Definition rank_and_assign_to_sections (all_news : list (string * list NewsItem))
    : io (list (string * list NewsItem)) :=
  let all_items := concat all_news.*2 in
  match all_items with
  | [] => mret []
  | _ :: _ =>
      prompt ← lift (from_messages [ranking_system_text; ranking_user_text]);
      try_except (rank_with_model prompt all_items)
                 (mret (_simple_distribution all_items))
  end.

(** [for category in [...]: all_news[category] = await fetch(category, 4)] *)
Fixpoint fetch_each (categories : list string)
    (all_news : list (string * list NewsItem))
    : io (list (string * list NewsItem)) :=
  match categories with
  | [] => mret all_news
  | category :: rest =>
      items ← fetch_news_with_catchy_titles category 4;
      fetch_each rest (Py.dict_set category items all_news)
  end.

Definition fetch_all_categories : io (list (string * list NewsItem)) :=
  fetch_each ["seo"; "ppc"; "social_media"; "website"] [].

Definition generate_newsletter_recommendations
    : io (list (string * list NewsItem)) :=
  all_news ← fetch_all_categories;
  rank_and_assign_to_sections all_news.

(** *** Related-News Searcher *)

(** One turn of the loop over the related articles. *)
Definition related_item (article : pyval) : option (option NewsItem) :=
  u ← Py.get article "url" (PStr "");
  u ← Py.as_str u;
  let url := Text.strip u in
  if negb (bool_decide (url = "")) && negb (bool_decide (url = "https://..."))
     && Text.startswith url "http"
  then
    t ← Py.get article "title" (PStr "");
    p ← Py.get article "publisher" (PStr "Industry Source");
    d ← Py.get article "published_date" (PStr "2026-01-12");
    s ← Py.get article "summary" (PStr "");
    w ← Py.get article "why_it_matters" (PStr "");
    item ← NewsItem_new "related" t p d (PStr url) s w ["related"; "digital-marketing"];
    Some (if bool_decide (title item = "") then None else Some item)
  else Some None.

(** The body of the [try] of the related search: the items it found; with
    none the caller goes on to the search by category. *)
Definition related_search (num_items : Z) : io (list NewsItem) :=
  search_result ← ainvoke;
  search_data ← lift (json_loads (Text.extract_json (Text.strip_fences search_result)));
  lift (raw_articles ← Py.get search_data "news" (PList []);
        if Py.truthy raw_articles then
          sl ← Py.slice_to num_items raw_articles;
          articles ← Py.iter sl;
          collect related_item articles
        else Some []).

(** [for cat in categories: items.extend(await fetch(cat, items_per_cat))] *)
Fixpoint fetch_categories (categories : list string) (items_per_cat : Z)
    : io (list NewsItem) :=
  match categories with
  | [] => mret []
  | cat :: rest =>
      cat_items ← fetch_news_with_catchy_titles cat items_per_cat;
      items ← fetch_categories rest items_per_cat;
      mret (cat_items ++ items)
  end.

Definition search_news_for_section (section_title section_description : string)
    (num_items : Z) : io (list NewsItem) :=
  found ← (if Text.contains section_description "Find news related to:"
           then try_except (related_search num_items) (mret [])
           else mret []);
  match found with
  | _ :: _ => mret found
  | [] =>
      let categories := ["seo"; "ppc"; "social_media"; "website"] in
      let items_per_cat := Z.max 1 (num_items `div` Z.of_nat (length categories)) in
      items ← fetch_categories categories items_per_cat;
      mret (Text.slice_to num_items (_dedupe_items items))
  end.

End Service.

(** ** A runtime to compute with

    The properties below hold for every [Runtime]. To run the service on
    concrete replies, this one reads JSON by recursive descent. It covers
    null, true, false, integers, strings, arrays and objects; it rejects what
    its values cannot hold and [json.loads] accepts: numbers with a fraction
    or an exponent, the constants NaN and Infinity, and escapes of code points
    from 256 on. *)

Module Json.

Definition is_ws (c : ascii) : bool :=
  bool_decide (c = " "%char) || bool_decide (c = "009"%char)
  || bool_decide (c = "010"%char) || bool_decide (c = "013"%char).

Definition skip_ws (l : list ascii) : list ascii := Text.drop_while is_ws l.

Definition digit (c : ascii) : option Z :=
  let n := Z.of_N (N_of_ascii c) in
  if (48 <=? n) && (n <=? 57) then Some (n - 48) else None.

Definition hex_digit (c : ascii) : option Z :=
  let n := Z.of_N (N_of_ascii c) in
  if (48 <=? n) && (n <=? 57) then Some (n - 48)
  else if (97 <=? n) && (n <=? 102) then Some (n - 87)
  else if (65 <=? n) && (n <=? 70) then Some (n - 55)
  else None.

(** The digits that follow, as the number they write after [acc]. *)
Fixpoint read_digits (acc : Z) (l : list ascii) : Z * list ascii :=
  match l with
  | c :: l' =>
      match digit c with
      | Some d => read_digits (10 * acc + d) l'
      | None => (acc, l)
      end
  | [] => (acc, l)
  end.

(** An integer without sign: a lone 0, or digits that do not start with 0;
    not followed by a fraction or an exponent. *)
Definition read_nat (l : list ascii) : option (Z * list ascii) :=
  match l with
  | c :: l' =>
      d ← digit c;
      let r := if d =? 0 then (0, l') else read_digits d l' in
      match r.2 with
      | c' :: _ =>
          if bool_decide (c' = "."%char) || bool_decide (c' = "e"%char)
             || bool_decide (c' = "E"%char)
          then None else Some r
      | [] => Some r
      end
  | [] => None
  end.

(** The characters of a string up to its closing quote. *)
Fixpoint read_string (l : list ascii) : option (list ascii * list ascii) :=
  match l with
  | [] => None
  | c :: l' =>
      if bool_decide (c = "034"%char) then Some ([], l')
      else if bool_decide (c = "\"%char) then
        match l' with
        | e :: l'' =>
            if bool_decide (e = "u"%char) then
              match l'' with
              | h1 :: h2 :: h3 :: h4 :: l3 =>
                  a ← hex_digit h1; b ← hex_digit h2;
                  c ← hex_digit h3; d ← hex_digit h4;
                  if (a =? 0) && (b =? 0) then
                    r ← read_string l3;
                    Some (ascii_of_N (Z.to_N (16 * c + d)) :: r.1, r.2)
                  else None
              | _ => None
              end
            else
              ch ← (if bool_decide (e = "034"%char) then Some "034"%char
                    else if bool_decide (e = "\"%char) then Some "\"%char
                    else if bool_decide (e = "/"%char) then Some "/"%char
                    else if bool_decide (e = "b"%char) then Some "008"%char
                    else if bool_decide (e = "f"%char) then Some "012"%char
                    else if bool_decide (e = "n"%char) then Some "010"%char
                    else if bool_decide (e = "r"%char) then Some "013"%char
                    else if bool_decide (e = "t"%char) then Some "009"%char
                    else None);
              r ← read_string l'';
              Some (ch :: r.1, r.2)
        | [] => None
        end
      else if (N_of_ascii c <? 32)%N then None
      else r ← read_string l'; Some (c :: r.1, r.2)
  end.

Fixpoint read_value (fuel : nat) (l : list ascii) : option (pyval * list ascii) :=
  match fuel with
  | O => None
  | S k =>
      match skip_ws l with
      | [] => None
      | c :: r =>
          if bool_decide (c = "n"%char) then
            r' ← Text.cut_prefix (Text.chars "ull") r; Some (PNone, r')
          else if bool_decide (c = "t"%char) then
            r' ← Text.cut_prefix (Text.chars "rue") r; Some (PBool true, r')
          else if bool_decide (c = "f"%char) then
            r' ← Text.cut_prefix (Text.chars "alse") r; Some (PBool false, r')
          else if bool_decide (c = "034"%char) then
            s ← read_string r; Some (PStr (Text.text s.1), s.2)
          else if bool_decide (c = "-"%char) then
            n ← read_nat r; Some (PInt (- n.1), n.2)
          else if bool_decide (c = "["%char) then
            match skip_ws r with
            | c' :: r' =>
                if bool_decide (c' = "]"%char) then Some (PList [], r')
                else vs ← read_elements k r; Some (PList vs.1, vs.2)
            | [] => None
            end
          else if bool_decide (c = "{"%char) then
            match skip_ws r with
            | c' :: r' =>
                if bool_decide (c' = "}"%char) then Some (PDict [], r')
                else ms ← read_members k [] r; Some (PDict ms.1, ms.2)
            | [] => None
            end
          else n ← read_nat (c :: r); Some (PInt n.1, n.2)
      end
  end
with read_elements (fuel : nat) (l : list ascii) : option (list pyval * list ascii) :=
  match fuel with
  | O => None
  | S k =>
      v ← read_value k l;
      match skip_ws v.2 with
      | c :: r =>
          if bool_decide (c = ","%char) then
            vs ← read_elements k r; Some (v.1 :: vs.1, vs.2)
          else if bool_decide (c = "]"%char) then Some ([v.1], r)
          else None
      | [] => None
      end
  end
(** An object keeps the place of the first occurrence of a key and the value
    of its last. *)
with read_members (fuel : nat) (d : list (string * pyval)) (l : list ascii)
    : option (list (string * pyval) * list ascii) :=
  match fuel with
  | O => None
  | S k =>
      match skip_ws l with
      | q :: r =>
          if bool_decide (q = "034"%char) then
            key ← read_string r;
            match skip_ws key.2 with
            | c :: r' =>
                if bool_decide (c = ":"%char) then
                  v ← read_value k r';
                  let d' := Py.dict_set (Text.text key.1) v.1 d in
                  match skip_ws v.2 with
                  | c' :: r'' =>
                      if bool_decide (c' = ","%char) then read_members k d' r''
                      else if bool_decide (c' = "}"%char) then Some (d', r'')
                      else None
                  | [] => None
                  end
                else None
            | [] => None
            end
          else None
      | [] => None
      end
  end.

(** One value, with nothing but white space after it. *)
Definition loads (s : string) : option pyval :=
  let l := Text.chars s in
  v ← read_value (S (length l)) l;
  match skip_ws v.2 with
  | [] => Some v.1
  | _ :: _ => None
  end.

End Json.

(** A text with each apostrophe turned into a double quote, to write JSON in
    a string literal. *)
Definition dq (s : string) : string :=
  Text.text ((fun c => if bool_decide (c = "'"%char) then "034"%char else c)
               <$> Text.chars s).

(** MD5 (RFC 1321) on the UTF-8 encoding of a text, in hexadecimal. *)

Module Md5.

Definition K : list Z :=
  [ 0xd76aa478; 0xe8c7b756; 0x242070db; 0xc1bdceee; 0xf57c0faf; 0x4787c62a;
    0xa8304613; 0xfd469501; 0x698098d8; 0x8b44f7af; 0xffff5bb1; 0x895cd7be;
    0x6b901122; 0xfd987193; 0xa679438e; 0x49b40821; 0xf61e2562; 0xc040b340;
    0x265e5a51; 0xe9b6c7aa; 0xd62f105d; 0x02441453; 0xd8a1e681; 0xe7d3fbc8;
    0x21e1cde6; 0xc33707d6; 0xf4d50d87; 0x455a14ed; 0xa9e3e905; 0xfcefa3f8;
    0x676f02d9; 0x8d2a4c8a; 0xfffa3942; 0x8771f681; 0x6d9d6122; 0xfde5380c;
    0xa4beea44; 0x4bdecfa9; 0xf6bb4b60; 0xbebfbc70; 0x289b7ec6; 0xeaa127fa;
    0xd4ef3085; 0x04881d05; 0xd9d4d039; 0xe6db99e5; 0x1fa27cf8; 0xc4ac5665;
    0xf4292244; 0x432aff97; 0xab9423a7; 0xfc93a039; 0x655b59c3; 0x8f0ccc92;
    0xffeff47d; 0x85845dd1; 0x6fa87e4f; 0xfe2ce6e0; 0xa3014314; 0x4e0811a1;
    0xf7537e82; 0xbd3af235; 0x2ad7d2bb; 0xeb86d391 ].

Definition shifts : list Z :=
  [ 7; 12; 17; 22; 7; 12; 17; 22; 7; 12; 17; 22; 7; 12; 17; 22;
    5; 9; 14; 20; 5; 9; 14; 20; 5; 9; 14; 20; 5; 9; 14; 20;
    4; 11; 16; 23; 4; 11; 16; 23; 4; 11; 16; 23; 4; 11; 16; 23;
    6; 10; 15; 21; 6; 10; 15; 21; 6; 10; 15; 21; 6; 10; 15; 21 ].

Definition w32 (x : Z) : Z := x mod 2 ^ 32.
Definition not32 (x : Z) : Z := Z.lxor x 0xffffffff.
Definition rotl (x c : Z) : Z :=
  w32 (Z.lor (Z.shiftl x c) (Z.shiftr x (32 - c))).

(** [str.encode()]: UTF-8, two bytes for a code point from 128 on. *)
Definition encode (s : string) : list Z :=
  List.concat ((fun c => let n := Z.of_N (N_of_ascii c) in
                   if n <? 128 then [n] else [192 + n / 64; 128 + n mod 64])
                 <$> Text.chars s).

Definition le_bytes (count : nat) (x : Z) : list Z :=
  (fun i => (x / 2 ^ (8 * Z.of_nat i)) mod 256) <$> seq 0 count.

Definition pad (msg : list Z) : list Z :=
  let n := Z.of_nat (length msg) in
  msg ++ [128] ++ replicate (Z.to_nat ((55 - n) mod 64)) 0
      ++ le_bytes 8 ((8 * n) mod 2 ^ 64).

Fixpoint le_words (fuel : nat) (bytes : list Z) : list Z :=
  match fuel, bytes with
  | S k, a :: b :: c :: d :: rest =>
      (a + 256 * b + 65536 * c + 16777216 * d) :: le_words k rest
  | _, _ => []
  end.

Definition round (M : list Z) (st : Z * Z * Z * Z) (i : nat) : Z * Z * Z * Z :=
  let '(a, b, c, d) := st in
  let iz := Z.of_nat i in
  let '(f, g) :=
    if iz <? 16 then (Z.lor (Z.land b c) (Z.land (not32 b) d), iz)
    else if iz <? 32 then (Z.lor (Z.land d b) (Z.land (not32 d) c), (5 * iz + 1) mod 16)
    else if iz <? 48 then (Z.lxor b (Z.lxor c d), (3 * iz + 5) mod 16)
    else (Z.lxor c (Z.lor b (not32 d)), (7 * iz) mod 16) in
  let f' := w32 (f + a + K !!! i + M !!! Z.to_nat g) in
  (d, w32 (b + rotl f' (shifts !!! i)), b, c).

Definition block (st : Z * Z * Z * Z) (M : list Z) : Z * Z * Z * Z :=
  let '(a, b, c, d) := st in
  let '(a', b', c', d') := foldl (round M) st (seq 0 64) in
  (w32 (a + a'), w32 (b + b'), w32 (c + c'), w32 (d + d')).

Fixpoint blocks (fuel : nat) (st : Z * Z * Z * Z) (words : list Z) : Z * Z * Z * Z :=
  match fuel, words with
  | S k, _ :: _ => blocks k (block st (take 16 words)) (drop 16 words)
  | _, _ => st
  end.

Definition hex_char (n : Z) : ascii :=
  ascii_of_N (Z.to_N (if n <? 10 then 48 + n else 87 + n)).

Definition hex (bytes : list Z) : string :=
  Text.text (List.concat ((fun b => [hex_char (b / 16); hex_char (b mod 16)]) <$> bytes)).

Definition hexdigest (s : string) : string :=
  let bytes := pad (encode s) in
  let '(a, b, c, d) :=
    blocks (length bytes) (0x67452301, 0xefcdab89, 0x98badcfe, 0x10325476)
           (le_words (length bytes) bytes) in
  hex (le_bytes 4 a ++ le_bytes 4 b ++ le_bytes 4 c ++ le_bytes 4 d).

End Md5.

Definition reference_runtime : Runtime :=
  {| json_loads := Json.loads;
     md5_hexdigest := Md5.hexdigest;
     str_field := Py.as_str |}.

(** A name made of letters, digits and underscores. *)
Definition identifier (name : string) : bool :=
  forallb (fun c => let n := N_of_ascii c in
                    ((48 <=? n) && (n <=? 57) || (65 <=? n) && (n <=? 90)
                     || (97 <=? n) && (n <=? 122) || (n =? 95))%N)
          (Text.chars name).

(** Two prompt libraries on 12 January 2026. The first builds a template from
    every text that parses, as earlier releases of langchain-core do. The
    second stands for the releases that refuse the ranking prompt when the
    template is built: it refuses a text with a replacement field that is not
    named by an identifier. *)
Definition lenient_prompting : Prompting :=
  {| now_date := "January 12, 2026";
     now_year := "2026";
     current_year := "2026";
     now_plain := eq_refl;
     template_accepted := fun _ => true |}.

Definition strict_prompting : Prompting :=
  {| now_date := "January 12, 2026";
     now_year := "2026";
     current_year := "2026";
     now_plain := eq_refl;
     template_accepted := fun text =>
       match Template.fields text with
       | Some names => forallb identifier names
       | None => false
       end |}.

(** * Notions the properties are stated with *)

(** ** URLs *)

(** The [url] of the item merged from [article]: the trimmed URL of the
    article, which is neither empty nor the placeholder, with the scheme
    before it when it does not start with http. *)
Definition gated_url (article : pyval) (url : string) : Prop :=
  exists u,
    Py.get article "url" (PStr "") = Some (PStr u)
    /\ Text.strip u <> "" /\ Text.strip u <> "https://..."
    /\ url = if Text.startswith (Text.strip u) "http"
             then Text.strip u else "https://" +:+ Text.strip u.

(** ** Fingerprints *)

(** In the words of the specification: the case-folded, whitespace-trimmed
    first 50 characters of a title. *)
Definition folded_prefix (t : string) : string :=
  Text.text (take 50 (Text.rstrip (Text.lstrip
                                     (Text.lower_char <$> Text.chars t)))).

(** ** Positions of the items in the sections *)

(** The integers a section of the assignments lists: what its value yields
    when iterated, as far as it is an int. *)
Definition claimed (indices : pyval) : list Z :=
  omap Py.as_int (default [] (Py.iter indices)).

(** The positions the loop over one section keeps. *)
Fixpoint kept_positions (n : Z) (used_indices : gset Z) (indices : list pyval)
    : list Z :=
  match indices with
  | [] => []
  | idx :: rest =>
      match Py.as_int idx with
      | Some i =>
          if (0 <=? i) && (i <? n) && bool_decide (i ∉ used_indices)
          then i :: kept_positions n ({[i]} ∪ used_indices) rest
          else kept_positions n used_indices rest
      | None => kept_positions n used_indices rest
      end
  end.

(** [items] are the items of [all_items] at [positions], one by one. *)
Definition items_at (all_items : list NewsItem) (positions : list Z)
    (items : list NewsItem) : Prop :=
  Forall2 (fun i item => 0 <= i /\ all_items !! Z.to_nat i = Some item)
          positions items.

(** [placement] names, section by section, the positions of the items of
    [result]. *)
Definition placed_at (all_items : list NewsItem)
    (placement : list (string * list Z))
    (result : list (string * list NewsItem)) : Prop :=
  Forall2 (fun p r => p.1 = r.1 /\ items_at all_items p.2 r.2) placement result.

(** No position of [all_items] is used twice in [result]. *)
Definition used_once (all_items : list NewsItem)
    (result : list (string * list NewsItem)) : Prop :=
  exists placement,
    placed_at all_items placement result /\ NoDup (concat placement.*2).

(** The positions the loop over the sections keeps, when no section key
    comes twice. *)
Fixpoint placement_of (n : Z) (used_indices : gset Z)
    (assignments : list (string * pyval)) : option (list (string * list Z)) :=
  match assignments with
  | [] => Some []
  | (section_key, indices) :: rest =>
      idxs ← Py.iter indices;
      let kept := kept_positions n used_indices idxs in
      placement ← placement_of n (list_to_set kept ∪ used_indices) rest;
      Some ((section_key, kept) :: placement)
  end.

(** ** Replies up to their clean-up *)

(** Two replies that the clean-up makes equal, two worlds of such replies,
    two runs with the same outcome that leave such worlds. *)
Definition same_reply (a b : option string) : Prop :=
  Text.strip_fences <$> a = Text.strip_fences <$> b.

Definition same_world (w1 w2 : world) : Prop := Forall2 same_reply w1 w2.

Definition same_run {A} (r1 r2 : option A * world) : Prop :=
  r1.1 = r2.1 /\ same_world r1.2 r2.2.

Definition agree {A} (c1 c2 : io A) : Prop :=
  forall w1 w2, same_world w1 w2 -> same_run (c1 w1) (c2 w2).

(** A text without white space at either end. *)
Definition trimmed (s : string) : Prop := Text.strip s = s.

Definition blank (l : list ascii) : Prop :=
  Forall (fun c => Text.isspace c = true) l.

(** [reply] is [payload] between an opening fence, with or without the word
    json, and a closing fence, with white space around each; a fence without
    the word is followed by white space. *)
Definition fenced (payload reply : string) : Prop :=
  exists ws1 tag ws2 ws3 ws4,
    blank ws1 /\ blank ws2 /\ blank ws3 /\ blank ws4
    /\ (tag = [] /\ ws2 <> [] \/ tag = Text.chars "json")
    /\ Text.chars reply
       = ws1 ++ Text.fence ++ tag ++ ws2 ++ Text.chars payload
             ++ ws3 ++ Text.fence ++ ws4.

(** [reply] is a JSON object [payload] with prose before and after it, the
    prose before without an opening brace and the prose after without a
    closing one. *)
Definition in_prose (payload reply : string) : Prop :=
  exists before inner after,
    ("{"%char ∉ before) /\ ("}"%char ∉ after)
    /\ Text.chars payload = "{"%char :: inner ++ ["}"%char]
    /\ Text.chars reply = before ++ Text.chars payload ++ after.

(** ** Replies and items to run the service on *)

Definition found_item (t u : string) : NewsItem :=
  mkNewsItem "seo" t "Industry Source" "2026-01-12" u "" ""
             ["seo"; "digital-marketing"].

Definition search_reply : string :=
  dq "{'news': [{'title': 'Core update lands', 'url': 'https://example.com/a'}]}".

Definition fallback_reply : string :=
  dq "{'news': [{'catchy_title': 'Invented story', 'url': ''}]}".

Definition no_news_reply : string := dq "{'news': []}".

Definition no_titles_reply : string := dq "{'titles': []}".

Definition refusal : string := "Sorry, I cannot help with that.".

Definition story (t : string) : NewsItem := found_item t "https://example.com".

(** Twelve items in four categories. *)
Definition twelve : list (string * list NewsItem) :=
  [ ("seo", [story "a"; story "b"; story "c"]);
    ("ppc", [story "d"; story "e"; story "f"]);
    ("social_media", [story "g"; story "h"; story "i"]);
    ("website", [story "j"; story "k"; story "l"]) ].

(** Index 2 is claimed by second-story and again by third-story; the last
    section is not one of the seven, and links is left out. *)
Definition ranking_pairs : list (string * pyval) :=
  [ ("main-story", PList [PInt 0]);
    ("second-story", PList [PInt 2]);
    ("third-story", PList [PInt 2; PInt 5]);
    ("bonus", PList [PInt 7; PInt 99; PStr "3"; PInt 5; PInt (-1); PInt 7]) ].

Definition ranking_reply : string :=
  dq "{'assignments': {'main-story': [0], 'second-story': [2], 'third-story': [2, 5], 'bonus': [7, 99, '3', 5, -1, 7]}, 'reasoning': 'none'}".

Definition ranked : list (string * list NewsItem) :=
  [ ("main-story", [story "a"]);
    ("second-story", [story "c"]);
    ("third-story", [story "f"]);
    ("bonus", [story "h"]) ].

Definition newline : string := String "010" "".

Definition fenced_reply : string :=
  "```json" +:+ newline +:+ search_reply +:+ newline +:+ "```".

Definition prose_reply : string :=
  "Here is what I found: " +:+ search_reply +:+ " I hope this helps.".

(** * Further notions *)

(** ** Calls made *)

(** A run from [w] to [w'] has made at most [k] calls: [w'] is what is left
    of [w] after at most [k] replies. *)
Definition consumes (k : nat) (w w' : world) : Prop :=
  exists used, w = used ++ w' /\ (length used <= k)%nat.

(** A computation that makes at most [k] calls, whatever the replies. *)
Definition within {A} (k : nat) (c : io A) : Prop :=
  forall w, consumes k w (c w).2.

(** ** Category and tags *)

(** An item of category [c] with the tags the service gives it. *)
Definition tagged (c : string) (item : NewsItem) : Prop :=
  category item = c /\ tags item = [c; "digital-marketing"].

(** ** Provenance *)

(** [orig] is the record that STEP 2 keeps of [article]. *)
Definition record_of (article orig : pyval) : Prop :=
  exists u p d s w,
    orig = PDict [("url", u); ("publisher", p); ("published_date", d);
                  ("summary", s); ("why_it_matters", w)]
    /\ Py.get article "url" (PStr "") = Some u
    /\ Py.get article "publisher" (PStr "Industry Source") = Some p
    /\ Py.get article "published_date" (PStr "2026-01-12") = Some d
    /\ Py.get article "summary" (PStr "") = Some s
    /\ Py.get article "why_it_matters" (PStr "") = Some w.

(** [item] has the publisher, date, summary and impact note of [article], as
    the class NewsItem takes them, and its URL: the trimmed URL of the
    article, with the scheme when it does not start with http. *)
Definition from_article `{Runtime} (article : pyval) (item : NewsItem) : Prop :=
  (exists p, Py.get article "publisher" (PStr "Industry Source") = Some p
             /\ str_field p = Some (publisher item))
  /\ (exists d, Py.get article "published_date" (PStr "2026-01-12") = Some d
                /\ str_field d = Some (published_date item))
  /\ (exists s, Py.get article "summary" (PStr "") = Some s
                /\ str_field s = Some (summary item))
  /\ (exists w, Py.get article "why_it_matters" (PStr "") = Some w
                /\ str_field w = Some (why_it_matters item))
  /\ (exists u, Py.get article "url" (PStr "") = Some (PStr u)
                /\ str_field (PStr (if Text.startswith (Text.strip u) "http"
                                    then Text.strip u
                                    else "https://" +:+ Text.strip u))
                   = Some (url item)).

(** ** Rewritten titles *)

(** The entry [entry] of the rewriter's reply is for position [i]:
    [catchy_map[entry.get("index", -1)]] is what [catchy_map.get(i, ..)]
    reads. *)
Definition names (i : nat) (entry : pyval) : Prop :=
  exists idx, Py.get entry "index" (PInt (-1)) = Some idx
              /\ Py.key_eq_int idx (Z.of_nat i) = true.

(** The title of [item], built from the article at position [i], given the
    entries of the rewriter's reply: the article's title when no entry is for
    [i], otherwise the catchy title of the last entry for [i], unless that
    is empty. *)
Definition titled_by `{Runtime} (entries : list pyval) (i : nat)
    (article : pyval) (item : NewsItem) : Prop :=
  exists t0,
    Py.get article "title" (PStr "") = Some t0
    /\ (Forall (fun e => ~ names i e) entries -> str_field t0 = Some (title item))
    /\ (forall before entry after t,
          entries = before ++ entry :: after ->
          names i entry ->
          Forall (fun e => ~ names i e) after ->
          Py.get entry "catchy_title" (PStr "") = Some t ->
          str_field (if Py.truthy t then t else t0) = Some (title item)).

(** ** Related articles and generated articles *)

(** [item] is a related article as the strict test lets it through: its URL
    is the trimmed URL of [article], which starts with http and is not the
    placeholder. *)
Definition related_to `{Runtime} (article : pyval) (item : NewsItem) : Prop :=
  exists u,
    Py.get article "url" (PStr "") = Some (PStr u)
    /\ Text.startswith (Text.strip u) "http" = true
    /\ Text.strip u <> "https://..."
    /\ str_field (PStr (Text.strip u)) = Some (url item).

(** [item] is what the Fallback Generator makes of [article]: the catchy
    title when the key is there, else the title, and the URL as it is. *)
Definition generated_from `{Runtime} (article : pyval) (item : NewsItem) : Prop :=
  exists t0 t u,
    Py.get article "title" (PStr "") = Some t0
    /\ Py.get article "catchy_title" t0 = Some t
    /\ str_field t = Some (title item)
    /\ Py.get article "url" (PStr "") = Some u
    /\ str_field u = Some (url item).

(** A world in which every call raises. *)
Definition all_fail (w : world) : Prop := Forall (fun r => r = None) w.

(** ** Further replies to run the service on *)

(** The parsed [search_reply] and its one article. *)
Definition found_article : pyval :=
  PDict [("title", PStr "Core update lands"); ("url", PStr "https://example.com/a")].

Definition search_data : pyval := PDict [("news", PList [found_article])].

(** A rewriter that names position 0 twice. *)
Definition twice_titled_reply : string :=
  dq "{'titles': [{'index': 0, 'catchy_title': 'First'}, {'index': 0, 'catchy_title': 'Last'}]}".

Definition twice_titled : list pyval :=
  [ PDict [("index", PInt 0); ("catchy_title", PStr "First")];
    PDict [("index", PInt 0); ("catchy_title", PStr "Last")] ].

Definition related_request : string :=
  dq "Find news related to: 'core update'. More.".

Definition related_found : NewsItem :=
  mkNewsItem "related" "Core update lands" "Industry Source" "2026-01-12"
             "https://example.com/a" "" "" ["related"; "digital-marketing"].

(** * Properties *)

(** ** The calls *)

Section Calls.
Context `{Runtime}.

Lemma bind_unfold {A B} (c : io A) (f : A -> io B) (w : world) :
  (c ≫= f) w = match c w with
               | (Some a, w') => f a w'
               | (None, w') => (None, w')
               end.
Proof. reflexivity. Qed.

Lemma bind_returns {A B} (c : io A) (f : A -> io B) (w w' : world) b :
  (c ≫= f) w = (Some b, w') ->
  exists a w1, c w = (Some a, w1) /\ f a w1 = (Some b, w').
Proof.
  rewrite bind_unfold. destruct (c w) as [[a|] w1]; [eauto | done].
Qed.

Lemma lift_returns {A} (o : option A) (w w' : world) a :
  lift o w = (Some a, w') -> o = Some a /\ w' = w.
Proof. unfold lift. naive_solver. Qed.

Lemma try_except_returns {A} (body handler : io A) (w w' : world) a :
  try_except body handler w = (Some a, w') ->
  body w = (Some a, w')
  \/ exists w1, body w = (None, w1) /\ handler w1 = (Some a, w').
Proof.
  unfold try_except. destruct (body w) as [[a'|] w1]; [naive_solver | eauto].
Qed.

Lemma try_except_total {A} (body handler : io A) (w : world) :
  (forall w0, is_Some (handler w0).1) ->
  is_Some (try_except body handler w).1.
Proof.
  intros Hh. unfold try_except.
  destruct (body w) as [[a|] w']; simpl; eauto.
Qed.

(** The Fallback Generator never raises. *)
Lemma fallback_total category num_items (w : world) :
  is_Some (_fetch_ai_generated_news category num_items w).1.
Proof.
  apply try_except_total. intros w0. simpl. eauto.
Qed.

(** Whenever the body of the [try] raises, the Category Searcher hands over
    to the Fallback Generator, on the replies that are left. *)
Lemma fetch_on_raise category num_items (w w' : world) :
  search_and_merge category num_items w = (None, w') ->
  fetch_news_with_catchy_titles category num_items w
  = _fetch_ai_generated_news category num_items w'.
Proof.
  intros Hb. unfold fetch_news_with_catchy_titles, try_except. by rewrite Hb.
Qed.

Lemma fetch_on_return category num_items (w w' : world) items :
  search_and_merge category num_items w = (Some items, w') ->
  fetch_news_with_catchy_titles category num_items w = (Some items, w').
Proof.
  intros Hb. unfold fetch_news_with_catchy_titles, try_except. by rewrite Hb.
Qed.

Lemma fetch_total category num_items (w : world) :
  is_Some (fetch_news_with_catchy_titles category num_items w).1.
Proof.
  apply try_except_total. intros w0. apply fallback_total.
Qed.

(** The search call raises. *)
Lemma search_call_fails category num_items (w : world) :
  search_and_merge category num_items (None :: w) = (None, w).
Proof. reflexivity. Qed.

(** The reply of the search model is not JSON. *)
Lemma search_reply_unparsed category num_items reply (w : world) :
  json_loads (Text.strip_fences reply) = None ->
  search_and_merge category num_items (Some reply :: w) = (None, w).
Proof.
  intros Hp. unfold search_and_merge. rewrite bind_unfold. simpl.
  rewrite bind_unfold. unfold lift. by rewrite Hp.
Qed.

(** The reply of the search model has no news. *)
Lemma search_reply_empty category num_items reply data raw (w : world) :
  json_loads (Text.strip_fences reply) = Some data ->
  Py.get data "news" (PList []) = Some raw ->
  Py.truthy raw = false ->
  search_and_merge category num_items (Some reply :: w)
  = _fetch_ai_generated_news category num_items w.
Proof.
  intros Hp Hg Ht. unfold search_and_merge. rewrite bind_unfold. simpl.
  rewrite bind_unfold. unfold lift at 1. rewrite Hp.
  rewrite bind_unfold. unfold lift at 1. rewrite Hg.
  by rewrite Ht.
Qed.

(** The reply of the search model has news: the search goes on to the title
    rewriter and the merge. *)
Lemma search_reply_news category num_items reply data raw (w : world) :
  json_loads (Text.strip_fences reply) = Some data ->
  Py.get data "news" (PList []) = Some raw ->
  Py.truthy raw = true ->
  search_and_merge category num_items (Some reply :: w)
  = (split ← lift (Py.iter raw ≫= split_articles 0);
     titles_result ← ainvoke;
     titles_data ← lift (json_loads (Text.strip_fences titles_result));
     lift (titles ← Py.get titles_data "titles" (PList []);
           entries ← Py.iter titles;
           catchy_map ← build_catchy_map [] entries;
           sl ← Py.slice_to num_items raw;
           articles ← Py.iter sl;
           merge_articles category split.1 catchy_map 0 articles)) w.
Proof.
  intros Hp Hg Ht. unfold search_and_merge. rewrite bind_unfold. simpl.
  rewrite bind_unfold. unfold lift at 1. rewrite Hp.
  rewrite bind_unfold. unfold lift at 1. rewrite Hg.
  by rewrite Ht.
Qed.

End Calls.

(** ** Category Searcher: what it does when something fails *)

Section Fallbacks.
Context `{Runtime}.

(** C8. When the reply of the search model parses and its news array is empty
    (or absent), the Category Searcher returns exactly what the Fallback
    Generator returns for the same category and count, on the replies that
    follow. It never raises: when the search call fails or its reply does not
    parse, the result is again the Fallback Generator's, which always
    returns. *)
Theorem empty_search_is_fallback category num_items reply data (w : world) :
  json_loads (Text.strip_fences reply) = Some data ->
  Py.get data "news" (PList []) = Some (PList []) ->
  fetch_news_with_catchy_titles category num_items (Some reply :: w)
  = _fetch_ai_generated_news category num_items w
  /\ (forall w0, is_Some (fetch_news_with_catchy_titles category num_items w0).1)
  /\ (forall w0, fetch_news_with_catchy_titles category num_items (None :: w0)
                 = _fetch_ai_generated_news category num_items w0)
  /\ (forall r w0, json_loads (Text.strip_fences r) = None ->
                   fetch_news_with_catchy_titles category num_items (Some r :: w0)
                   = _fetch_ai_generated_news category num_items w0).
Proof.
  intros Hp Hg. split; [|split; [|split]].
  - pose proof (search_reply_empty category num_items reply data (PList []) w
                  Hp Hg eq_refl) as Hb.
    pose proof (fallback_total category num_items w) as [items Hi].
    destruct (_fetch_ai_generated_news category num_items w) as [o w'] eqn:Hf.
    simpl in Hi. subst o.
    by apply fetch_on_return.
  - intros w0. apply fetch_total.
  - intros w0. apply fetch_on_raise, search_call_fails.
  - intros r w0 Hr. by apply fetch_on_raise, search_reply_unparsed.
Qed.

(** C1, as the code has it. When the search found articles and the reply of
    the title rewriter does not parse as JSON, the Category Searcher gives up
    the search results: it returns what the Fallback Generator returns for the
    same category and count on the replies that follow, without raising. *)
Theorem unparsed_titles_is_fallback category num_items
    search_reply data raw split titles_reply (w : world) :
  json_loads (Text.strip_fences search_reply) = Some data ->
  Py.get data "news" (PList []) = Some raw ->
  Py.truthy raw = true ->
  Py.iter raw ≫= split_articles 0 = Some split ->
  json_loads (Text.strip_fences titles_reply) = None ->
  fetch_news_with_catchy_titles category num_items
    (Some search_reply :: Some titles_reply :: w)
  = _fetch_ai_generated_news category num_items w
  /\ is_Some (_fetch_ai_generated_news category num_items w).1.
Proof.
  intros Hp Hg Ht Hs Hu. split; [|apply fallback_total].
  apply fetch_on_raise.
  rewrite (search_reply_news _ _ _ _ _ _ Hp Hg Ht).
  rewrite bind_unfold. unfold lift at 1. rewrite Hs.
  rewrite bind_unfold. simpl.
  rewrite bind_unfold. unfold lift at 1. by rewrite Hu.
Qed.

End Fallbacks.

(** ** The items that are built *)

(** Case analysis along the binds and tests of a pure computation that is
    known to return. *)
Ltac unbind H :=
  repeat match type of H with
         | (?o ≫= _) = _ => destruct o eqn:?; simplify_eq/=
         | (if bool_decide _ then _ else _) = _ => case_bool_decide; simplify_eq/=
         | (if ?b then _ else _) = _ => destruct b eqn:?; simplify_eq/=
         end.

Section Items.
Context `{Runtime}.

Lemma collect_Forall {A B} (P : B -> Prop) (f : A -> option (option B)) l items :
  (forall x item, f x = Some (Some item) -> P item) ->
  collect f l = Some items -> Forall P items.
Proof.
  intros Hf. revert items. induction l as [|x l IH]; intros items Hc; simpl in Hc.
  - by simplify_eq.
  - destruct (f x) as [r|] eqn:Hx; simplify_eq/=.
    destruct (collect f l) as [rest|]; simplify_eq/=.
    destruct r as [item|]; eauto.
Qed.

Lemma merge_articles_Forall (P : NewsItem -> Prop) category original_data
    catchy_map i articles items :
  (forall j article item,
     merged_item category original_data catchy_map j article = Some (Some item) ->
     P item) ->
  merge_articles category original_data catchy_map i articles = Some items ->
  Forall P items.
Proof.
  intros Hf. revert i items.
  induction articles as [|x l IH]; intros i items Hc; simpl in Hc.
  - by simplify_eq.
  - destruct (merged_item _ _ _ i x) as [r|] eqn:Hx; simplify_eq/=.
    destruct (merge_articles _ _ _ (S i) l) as [rest|] eqn:Hl; simplify_eq/=.
    destruct r as [item|]; eauto.
Qed.

Lemma NewsItem_new_fields category t p d u s w tags item :
  NewsItem_new category t p d u s w tags = Some item ->
  str_field t = Some (title item) /\ str_field u = Some (url item).
Proof.
  unfold NewsItem_new. intros Hn.
  destruct (str_field t), (str_field p), (str_field d), (str_field u),
    (str_field s), (str_field w); by simplify_eq/=.
Qed.

Lemma generated_item_titled category article item :
  generated_item category article = Some (Some item) -> title item <> "".
Proof. unfold generated_item. intros Hg. by unbind Hg. Qed.

Lemma related_item_titled article item :
  related_item article = Some (Some item) -> title item <> "".
Proof. unfold related_item. intros Hg. by unbind Hg. Qed.

Lemma merged_item_titled category original_data catchy_map i article item :
  merged_item category original_data catchy_map i article = Some (Some item) ->
  title item <> "".
Proof. unfold merged_item. intros Hg. by unbind Hg. Qed.

(** What the Fallback Generator returns has been built by its loop. *)
Lemma fallback_returns (P : NewsItem -> Prop) category num_items (w w' : world) items :
  (forall article item, generated_item category article = Some (Some item) -> P item) ->
  _fetch_ai_generated_news category num_items w = (Some items, w') ->
  Forall P items.
Proof.
  intros HP Hf. apply try_except_returns in Hf as [Hb|(w1 & _ & Hh)].
  - apply bind_returns in Hb as (r & w1 & _ & Hb).
    apply bind_returns in Hb as (data & w2 & _ & Hb).
    apply lift_returns in Hb as [Hb _]. unbind Hb.
    eapply collect_Forall; eauto.
  - injection Hh as <- _. constructor.
Qed.

(** What the body of the Category Searcher returns comes from the Fallback
    Generator when the search found nothing, and from the merge otherwise. *)
Lemma search_and_merge_returns (P : NewsItem -> Prop) category num_items
    (w w' : world) items :
  (forall article item, generated_item category article = Some (Some item) -> P item) ->
  (forall od cm j article item,
     merged_item category od cm j article = Some (Some item) -> P item) ->
  search_and_merge category num_items w = (Some items, w') ->
  Forall P items.
Proof.
  intros HPg HPm Hs. unfold search_and_merge in Hs.
  apply bind_returns in Hs as (r & w1 & _ & Hs).
  apply bind_returns in Hs as (data & w2 & _ & Hs).
  apply bind_returns in Hs as (raw & w3 & _ & Hs).
  destruct (negb (Py.truthy raw)).
  { eapply fallback_returns; eauto. }
  apply bind_returns in Hs as (split & w4 & _ & Hs).
  apply bind_returns in Hs as (tr & w5 & _ & Hs).
  apply bind_returns in Hs as (td & w6 & _ & Hs).
  apply lift_returns in Hs as [Hs _]. unbind Hs.
  eapply merge_articles_Forall; eauto.
Qed.

Lemma fetch_returns (P : NewsItem -> Prop) category num_items (w w' : world) items :
  (forall article item, generated_item category article = Some (Some item) -> P item) ->
  (forall od cm j article item,
     merged_item category od cm j article = Some (Some item) -> P item) ->
  fetch_news_with_catchy_titles category num_items w = (Some items, w') ->
  Forall P items.
Proof.
  intros HPg HPm Hf. apply try_except_returns in Hf as [Hb|(w1 & _ & Hh)].
  - eapply search_and_merge_returns; eauto.
  - eapply fallback_returns; eauto.
Qed.

End Items.

(** ** Deduplicator *)

Section Dedupe.
Context `{Runtime}.

Lemma cond_ext {A} (P Q : Prop) `{!Decision P, !Decision Q} (a b : A) :
  (P <-> Q) ->
  (if bool_decide P then a else b) = (if bool_decide Q then a else b).
Proof. intros HPQ. by rewrite (bool_decide_ext P Q HPQ). Qed.

Lemma Forall_of_sublist {A} (P : A -> Prop) (l k : list A) :
  l `sublist_of` k -> Forall P k -> Forall P l.
Proof.
  induction 1 as [|x l k _ IH|x l k _ IH]; intros Hk; [done|..].
  - apply Forall_cons in Hk as [Hx Hk]. constructor; auto.
  - apply Forall_cons in Hk as [_ Hk]. auto.
Qed.

Lemma dedupe_from_sublist seen items : dedupe_from seen items `sublist_of` items.
Proof.
  revert seen. induction items as [|x l IH]; intros seen; simpl; [done|].
  case_bool_decide; [by apply sublist_skip | by apply sublist_cons].
Qed.

Lemma dedupe_from_fresh seen items item :
  item ∈ dedupe_from seen items -> title_hash item ∉ seen.
Proof.
  revert seen. induction items as [|x l IH]; intros seen; simpl.
  - by intros ?%elem_of_nil.
  - case_bool_decide as Hx.
    + intros [->|Hin]%elem_of_cons; [done|].
      apply IH in Hin. set_solver.
    + apply IH.
Qed.

Lemma dedupe_from_NoDup seen items :
  NoDup (title_hash <$> dedupe_from seen items).
Proof.
  revert seen. induction items as [|x l IH]; intros seen; simpl; [constructor|].
  case_bool_decide as Hx; [|apply IH].
  rewrite fmap_cons. apply NoDup_cons. split; [|apply IH].
  intros (y & Hy & Hin)%list_elem_of_fmap.
  apply dedupe_from_fresh in Hin. set_solver.
Qed.

Lemma dedupe_from_snoc seen pre item :
  dedupe_from seen (pre ++ [item])
  = dedupe_from seen pre
    ++ (if bool_decide (title_hash item ∈ seen \/ title_hash item ∈ title_hash <$> pre)
        then [] else [item]).
Proof.
  revert seen. induction pre as [|x l IH]; intros seen; simpl.
  - case_bool_decide as Ha; case_bool_decide as Hb; try done; exfalso.
    + destruct Hb as [Hb|Hb%elem_of_nil]; done.
    + apply Hb. by left.
  - case_bool_decide as Hx; rewrite IH; simpl; repeat f_equal;
      apply cond_ext; rewrite ?elem_of_union, ?elem_of_singleton, elem_of_cons.
    + tauto.
    + split; [tauto|]. intros [?|[->|?]]; auto.
Qed.

Lemma seen_after_kept (seen others : gset string) h :
  {[h]} ∪ seen ∪ others = seen ∪ ({[h]} ∪ others).
Proof.
  apply set_eq. intros y. rewrite !elem_of_union, elem_of_singleton. tauto.
Qed.

Lemma seen_after_dropped (seen others : gset string) h :
  h ∈ seen -> seen ∪ others = seen ∪ ({[h]} ∪ others).
Proof.
  intros Hin. apply set_eq. intros y.
  rewrite !elem_of_union, elem_of_singleton.
  intuition (subst; auto).
Qed.

Lemma dedupe_from_app seen pre post :
  dedupe_from seen (pre ++ post)
  = dedupe_from seen pre
    ++ dedupe_from (seen ∪ list_to_set (title_hash <$> pre)) post.
Proof.
  revert seen. induction pre as [|x l IH]; intros seen; simpl.
  - by rewrite (right_id_L ∅ (∪)).
  - case_bool_decide as Hx; rewrite IH.
    + by rewrite seen_after_kept.
    + by rewrite <- seen_after_dropped.
Qed.

End Dedupe.

(** ** Titles and URLs of what is returned *)

Section Returned.
Context `{Runtime}.

Lemma fetch_categories_returns (P : NewsItem -> Prop) categories n (w w' : world) items :
  (forall category w0 w1 its,
     fetch_news_with_catchy_titles category n w0 = (Some its, w1) -> Forall P its) ->
  fetch_categories categories n w = (Some items, w') ->
  Forall P items.
Proof.
  intros HP. revert w items.
  induction categories as [|c cs IH]; intros w items Hf; simpl in Hf.
  - injection Hf as <- _. constructor.
  - apply bind_returns in Hf as (its & w1 & Hc & Hf).
    apply bind_returns in Hf as (rest & w2 & Hr & Hf).
    injection Hf as <- <-. apply Forall_app. split; [by eapply HP | by eapply IH].
Qed.

(** C10. Every item that the Fallback Generator, the Category Searcher or the
    Related-News Searcher returns has a title that is not empty: each of the
    three loops that build items appends an item only when its title is not
    the empty string. *)
Theorem returned_items_have_titles category section_title section_description
    num_items (w w' : world) items :
  _fetch_ai_generated_news category num_items w = (Some items, w')
  \/ fetch_news_with_catchy_titles category num_items w = (Some items, w')
  \/ search_news_for_section section_title section_description num_items w
     = (Some items, w') ->
  Forall (fun item => title item <> "") items.
Proof.
  intros [Hf|[Hf|Hf]].
  - eapply fallback_returns; eauto using generated_item_titled.
  - eapply fetch_returns; eauto using generated_item_titled, merged_item_titled.
  - unfold search_news_for_section in Hf.
    apply bind_returns in Hf as (found & w1 & Hfound & Hf).
    destruct found as [|x found].
    + apply bind_returns in Hf as (its & w2 & Hc & Hf).
      injection Hf as <- _. apply Forall_take.
      eapply Forall_of_sublist; [apply dedupe_from_sublist|].
      eapply fetch_categories_returns; [|done].
      intros c w0 w3 its' Hits.
      eapply fetch_returns; eauto using generated_item_titled, merged_item_titled.
    + injection Hf as <- _.
      destruct (Text.contains _ _); [|by injection Hfound].
      apply try_except_returns in Hfound as [Hb|(w2 & _ & Hh)]; [|by injection Hh].
      apply bind_returns in Hb as (r & w2 & _ & Hb).
      apply bind_returns in Hb as (data & w3 & _ & Hb).
      apply lift_returns in Hb as [Hb _]. unbind Hb.
      eapply (collect_Forall _ related_item); [apply related_item_titled | exact Hb].
Qed.

End Returned.

(** ** Section Assigner *)

Section Assigner.
Context `{Runtime} `{Prompting}.

Lemma kept_positions_elem n used idxs i :
  i ∈ kept_positions n used idxs
  <-> i ∈ omap Py.as_int idxs /\ 0 <= i < n /\ i ∉ used.
Proof.
  revert used. induction idxs as [|idx rest IH]; intros used; simpl.
  - rewrite !elem_of_nil. tauto.
  - destruct (Py.as_int idx) as [j|]; [|apply IH].
    destruct ((0 <=? j) && (j <? n) && bool_decide (j ∉ used)) eqn:Hc.
    + apply andb_true_iff in Hc as [[Hl Hu]%andb_true_iff Hf].
      apply bool_decide_eq_true in Hf.
      rewrite !elem_of_cons, IH, elem_of_union, elem_of_singleton.
      destruct (decide (i = j)) as [->|Hne]; [|tauto].
      intuition lia.
    + rewrite IH, elem_of_cons.
      destruct (decide (i = j)) as [->|Hne]; [|tauto].
      split; [tauto|]. intros (_ & Hr & Hf). exfalso.
      apply andb_false_iff in Hc as [[Hc|Hc]%andb_false_iff|Hc].
      * lia.
      * lia.
      * by apply bool_decide_eq_false in Hc.
Qed.

Lemma kept_positions_NoDup n used idxs : NoDup (kept_positions n used idxs).
Proof.
  revert used. induction idxs as [|idx rest IH]; intros used; simpl; [constructor|].
  destruct (Py.as_int idx) as [j|]; [|apply IH].
  destruct ((0 <=? j) && (j <? n) && bool_decide (j ∉ used)); [|apply IH].
  apply NoDup_cons. split; [|apply IH].
  rewrite kept_positions_elem, elem_of_union, elem_of_singleton. tauto.
Qed.

Lemma kept_positions_sublist n used idxs :
  kept_positions n used idxs `sublist_of` omap Py.as_int idxs.
Proof.
  revert used. induction idxs as [|idx rest IH]; intros used; simpl; [done|].
  destruct (Py.as_int idx) as [j|]; [|apply IH].
  destruct ((0 <=? j) && (j <? n) && bool_decide (j ∉ used)).
  - by apply sublist_skip.
  - by apply sublist_cons.
Qed.

(** The loop over one section always completes; it appends the items at the
    positions it keeps and adds these positions to the used ones. *)
Lemma assign_section_kept all_items used idxs :
  exists items,
    assign_section all_items used idxs
    = Some (items,
            list_to_set (kept_positions (Z.of_nat (length all_items)) used idxs) ∪ used)
    /\ items_at all_items
         (kept_positions (Z.of_nat (length all_items)) used idxs) items.
Proof.
  revert used. induction idxs as [|idx rest IH]; intros used; simpl.
  - exists []. split; [|constructor]. by rewrite (left_id_L ∅ (∪)).
  - destruct (Py.as_int idx) as [j|]; [|apply IH].
    destruct ((0 <=? j) && (j <? Z.of_nat (length all_items))
              && bool_decide (j ∉ used)) eqn:Hc; [|apply IH].
    apply andb_true_iff in Hc as [[Hl Hu]%andb_true_iff _].
    destruct (lookup_lt_is_Some_2 all_items (Z.to_nat j)) as [item Hitem]; [lia|].
    destruct (IH ({[j]} ∪ used)) as (items & -> & Hat).
    rewrite Hitem. simpl. exists (item :: items). split.
    + do 2 f_equal. apply set_eq. intros y.
      rewrite !elem_of_union, ?elem_of_list_to_set, ?elem_of_cons, ?elem_of_singleton.
      tauto.
    + constructor; [|done]. split; [lia|done].
Qed.

Lemma dict_set_fresh {V} k (v : V) (d : list (string * V)) :
  k ∉ d.*1 -> Py.dict_set k v d = d ++ [(k, v)].
Proof.
  induction d as [|[k' v'] d IH]; simpl; [done|].
  rewrite elem_of_cons. intros Hk. case_bool_decide as Hkk.
  - destruct Hk. by left.
  - rewrite IH; [done|]. tauto.
Qed.

Lemma dict_set_keys {V} k (v : V) (d : list (string * V)) k0 :
  k0 ∈ (Py.dict_set k v d).*1 <-> k0 = k \/ k0 ∈ d.*1.
Proof.
  induction d as [|[k' v'] d IH]; simpl.
  - rewrite list_elem_of_singleton, elem_of_nil. tauto.
  - case_bool_decide as Hkk; simpl; rewrite !elem_of_cons.
    + subst k'. tauto.
    + rewrite IH. tauto.
Qed.

Lemma dict_set_positions k (v : list Z) (d : list (string * list Z)) i :
  i ∈ concat (Py.dict_set k v d).*2 -> i ∈ v \/ i ∈ concat d.*2.
Proof.
  induction d as [|[k' v'] d IH]; simpl.
  - rewrite app_nil_r. tauto.
  - case_bool_decide; simpl; rewrite !elem_of_app; [tauto|].
    intros [?|?%IH]; tauto.
Qed.

Lemma dict_set_NoDup k (v : list Z) (d : list (string * list Z)) :
  NoDup (concat d.*2) -> NoDup v -> (forall i, i ∈ v -> i ∉ concat d.*2) ->
  NoDup (concat (Py.dict_set k v d).*2).
Proof.
  induction d as [|[k' v'] d IH]; simpl; intros Hd Hv Hfresh.
  - by rewrite app_nil_r.
  - apply NoDup_app in Hd as (Hv' & Hdisj & Hd).
    case_bool_decide; simpl; apply NoDup_app.
    + split; [done|]. split; [|done].
      intros i Hi Hin. apply (Hfresh i Hi). apply elem_of_app. by right.
    + split; [done|]. split.
      * intros i Hi [Hin|Hin]%dict_set_positions.
        -- apply (Hfresh i Hin). apply elem_of_app. by left.
        -- by apply (Hdisj i).
      * apply IH; [done..|].
        intros i Hi Hin. apply (Hfresh i Hi). apply elem_of_app. by right.
Qed.

Lemma dict_set_placed all_items k kept items placement acc :
  placed_at all_items placement acc ->
  items_at all_items kept items ->
  placed_at all_items (Py.dict_set k kept placement) (Py.dict_set k items acc).
Proof.
  intros Hp Hi. induction Hp as [|[k1 p] [k2 r] pl acc [Hk Hpr] Hp IH]; simpl.
  - by repeat constructor.
  - simpl in Hk. subst k2. case_bool_decide.
    + constructor; [done|done].
    + constructor; [done|done].
Qed.

(** Whatever the section keys are, the loop over the sections never uses a
    position twice. *)
Lemma assign_sections_used_once all_items placement acc used pairs result :
  placed_at all_items placement acc ->
  NoDup (concat placement.*2) ->
  (forall i, i ∈ concat placement.*2 -> i ∈ used) ->
  assign_sections all_items acc used pairs = Some result ->
  used_once all_items result.
Proof.
  revert placement acc used.
  induction pairs as [|[k indices] rest IH]; intros placement acc used Hp Hn Hu Ha;
    simpl in Ha.
  - injection Ha as <-. by exists placement.
  - destruct (Py.iter indices) as [idxs|]; [|done]. simpl in Ha.
    destruct (assign_section_kept all_items used idxs) as (items & Hs & Hat).
    rewrite Hs in Ha. simpl in Ha.
    set (kept := kept_positions (Z.of_nat (length all_items)) used idxs) in *.
    apply (IH (Py.dict_set k kept placement)) in Ha; [done|..].
    + by apply dict_set_placed.
    + apply dict_set_NoDup; [done|apply kept_positions_NoDup|].
      intros i [_ [_ Hi]]%kept_positions_elem Hin. by apply Hi, Hu.
    + intros i [Hi|Hi]%dict_set_positions; apply elem_of_union.
      * left. by apply elem_of_list_to_set.
      * right. by apply Hu.
Qed.

Lemma placement_of_keys n used pairs placement :
  placement_of n used pairs = Some placement -> placement.*1 = pairs.*1.
Proof.
  revert used placement.
  induction pairs as [|[k indices] rest IH]; intros used placement Hp; simpl in Hp.
  - by injection Hp as <-.
  - destruct (Py.iter indices) as [idxs|]; [|done]. simpl in Hp.
    destruct (placement_of _ _ rest) as [pl|] eqn:Hr; [|done].
    injection Hp as <-. simpl. f_equal. by eapply IH.
Qed.

Lemma placement_of_NoDup n used pairs placement :
  placement_of n used pairs = Some placement ->
  NoDup (concat placement.*2)
  /\ forall i, i ∈ concat placement.*2 -> i ∉ used.
Proof.
  revert used placement.
  induction pairs as [|[k indices] rest IH]; intros used placement Hp; simpl in Hp.
  - injection Hp as <-. split; [constructor|]. by intros i ?%elem_of_nil.
  - destruct (Py.iter indices) as [idxs|]; [|done]. simpl in Hp.
    destruct (placement_of _ _ rest) as [pl|] eqn:Hr; [|done].
    injection Hp as <-. simpl.
    apply IH in Hr as [Hn Hfresh]. split.
    + apply NoDup_app. split; [apply kept_positions_NoDup|]. split; [|done].
      intros i Hi Hin. apply (Hfresh i Hin).
      apply elem_of_union. left. by apply elem_of_list_to_set.
    + intros i [Hi|Hi]%elem_of_app.
      * by apply kept_positions_elem in Hi as (_ & _ & Hi).
      * intros Hin. apply (Hfresh i Hi). apply elem_of_union. by right.
Qed.

(** First claim wins: a section keeps the integers in range that it lists and
    that no section before it lists. *)
Lemma placement_of_first_claim n used pairs placement pre key indices post :
  placement_of n used pairs = Some placement ->
  pairs = pre ++ (key, indices) :: post ->
  exists kept,
    placement !! length pre = Some (key, kept)
    /\ kept `sublist_of` claimed indices
    /\ forall i, i ∈ kept <->
         0 <= i < n /\ i ∈ claimed indices /\ (i ∉ used)
         /\ forall earlier, earlier ∈ pre -> i ∉ claimed (earlier.2).
Proof.
  revert used pairs placement.
  induction pre as [|[k0 ind0] pre IH]; intros used pairs placement Hp ->;
    simpl in Hp.
  - destruct (Py.iter indices) as [idxs|] eqn:Hidx; [|done]. simpl in Hp.
    destruct (placement_of _ _ post) as [pl|]; [|done].
    injection Hp as <-. eexists. split; [done|].
    unfold claimed. rewrite Hidx. simpl.
    split; [apply kept_positions_sublist|].
    intros i. rewrite kept_positions_elem.
    split; [|tauto]. intros (Hc & Hr & Hu).
    split; [done|]. split; [done|]. split; [done|].
    intros earlier Hin. by apply elem_of_nil in Hin.
  - destruct (Py.iter ind0) as [idxs0|] eqn:Hidx0; [|done]. simpl in Hp.
    destruct (placement_of _ _ (pre ++ _)) as [pl|] eqn:Hr; [|done].
    injection Hp as <-.
    destruct (IH _ _ _ Hr eq_refl) as (kept & Hl & Hs & Hk).
    exists kept. split; [done|]. split; [done|].
    intros i. rewrite Hk, elem_of_union, elem_of_list_to_set, kept_positions_elem.
    assert (claimed ind0 = omap Py.as_int idxs0) as Hc0
      by (unfold claimed; by rewrite Hidx0).
    split.
    + intros (Hr1 & Hc & Hu & He).
      split; [done|]. split; [done|]. split; [tauto|].
      intros earlier [->|Hin]%elem_of_cons; [|by apply He].
      simpl. rewrite Hc0. tauto.
    + intros (Hr1 & Hc & Hu & He).
      split; [done|]. split; [done|]. split.
      * intros [(Hin & _ & _)|Hin]; [|done].
        apply (He (k0, ind0)); [by left|]. simpl. by rewrite Hc0.
      * intros earlier Hin. apply He. by right.
Qed.

(** With section keys that do not repeat, the loop over the sections adds the
    sections in the order of the assignments, each with the items at the
    positions [placement_of] names. *)
Lemma assign_sections_placement all_items acc used pairs result :
  NoDup pairs.*1 ->
  (forall k, k ∈ pairs.*1 -> k ∉ acc.*1) ->
  assign_sections all_items acc used pairs = Some result ->
  exists placement new,
    placement_of (Z.of_nat (length all_items)) used pairs = Some placement
    /\ result = acc ++ new
    /\ placed_at all_items placement new.
Proof.
  revert acc used.
  induction pairs as [|[k indices] rest IH]; intros acc used Hn Hfresh Ha;
    simpl in Ha.
  - injection Ha as <-. exists [], []. split; [done|].
    split; [by rewrite app_nil_r|constructor].
  - simpl in Hn. apply NoDup_cons in Hn as [Hk Hn].
    destruct (Py.iter indices) as [idxs|] eqn:Hidx; [|done]. simpl in Ha.
    destruct (assign_section_kept all_items used idxs) as (items & Hs & Hat).
    rewrite Hs in Ha. simpl in Ha.
    rewrite dict_set_fresh in Ha by (apply Hfresh; simpl; by left).
    apply IH in Ha as (pl & new & Hp & -> & Hpl); [|done|].
    + exists ((k, kept_positions (Z.of_nat (length all_items)) used idxs) :: pl),
        ((k, items) :: new).
      simpl. rewrite Hidx. simpl. rewrite Hp. simpl. split; [done|].
      split; [by rewrite <- app_assoc|]. by constructor.
    + intros k0 Hk0. rewrite fmap_app, elem_of_app. simpl.
      rewrite list_elem_of_singleton. intros [Hin| ->]; [|done].
      apply (Hfresh k0); [|done]. simpl. by right.
Qed.

(** The keys of the result are those of the accumulator and of the
    assignments. *)
Lemma assign_sections_keys all_items acc used pairs result k :
  assign_sections all_items acc used pairs = Some result ->
  k ∈ result.*1 <-> k ∈ acc.*1 \/ k ∈ pairs.*1.
Proof.
  revert acc used.
  induction pairs as [|[k0 indices] rest IH]; intros acc used Ha; simpl in Ha.
  - injection Ha as <-. simpl. rewrite elem_of_nil. tauto.
  - destruct (Py.iter indices) as [idxs|]; [|done]. simpl in Ha.
    destruct (assign_section all_items used idxs) as [r|]; [|done]. simpl in Ha.
    apply IH in Ha. rewrite Ha, dict_set_keys. simpl. rewrite elem_of_cons. tauto.
Qed.

(** *** The ranking prompt *)

Lemma chars_app a b : Text.chars (a +:+ b) = Text.chars a ++ Text.chars b.
Proof. induction a as [|c a IH]; simpl; [done|]. by rewrite <- IH. Qed.

(** Literal text without braces holds no field. *)
Lemma scan_plain pre l :
  forallb Template.plain pre = true ->
  Template.scan Template.Literal (pre ++ l) = Template.scan Template.Literal l.
Proof.
  induction pre as [|c pre IH]; simpl; [done|].
  intros [Hc Hpre]%andb_true_iff.
  apply andb_true_iff in Hc as [Ho Hcl].
  apply negb_true_iff in Ho, Hcl. rewrite Ho, Hcl. by apply IH.
Qed.

(** The system text of the ranking prompt has one replacement field, named
    by the word assignments between its double quotes: the object after
    "Return JSON:" opens it. *)
Lemma system_text_fields :
  Template.fields ranking_system_text = Some [Template.quoted "assignments"].
Proof.
  pose proof now_plain as Hnow.
  rewrite !forallb_app in Hnow.
  apply andb_true_iff in Hnow as [Hd [Hy Hc]%andb_true_iff].
  unfold Template.fields, ranking_system_text, get_current_date_context.
  rewrite !chars_app, <- !app_assoc.
  repeat first
    [ rewrite (scan_plain (Text.chars now_date)) by exact Hd
    | rewrite (scan_plain (Text.chars now_year)) by exact Hy
    | rewrite (scan_plain (Text.chars current_year)) by exact Hc
    | rewrite (scan_plain (Text.chars "CURRENT DATE: ")) by reflexivity
    | rewrite (scan_plain (Text.chars " (Year: ")) by reflexivity
    | rewrite (scan_plain (Text.chars "). All content should be relevant to "))
        by reflexivity
    | rewrite (scan_plain (Text.chars ".")) by reflexivity
    | rewrite (scan_plain (Text.chars ranking_head)) by reflexivity
    | rewrite (scan_plain (Text.chars ranking_rules)) by reflexivity ].
  reflexivity.
Qed.

Lemma user_text_fields :
  Template.fields ranking_user_text = Some ["count"; "news_summary"].
Proof. reflexivity. Qed.

(** What [from_messages] makes of the ranking prompt. *)
Lemma ranking_prompt_built :
  from_messages [ranking_system_text; ranking_user_text]
  = if template_accepted ranking_system_text && template_accepted ranking_user_text
    then Some [Template.quoted "assignments"; "count"; "news_summary"]
    else None.
Proof.
  unfold from_messages. cbn [mapM forallb].
  rewrite system_text_fields. simpl.
  by rewrite andb_true_r.
Qed.

(** The call is given [count] and [news_summary] only: formatting the prompt
    raises, the model is not called and no reply is read. *)
Lemma rank_with_model_raises all_items (w : world) :
  rank_with_model [Template.quoted "assignments"; "count"; "news_summary"]
    all_items w = (None, w).
Proof. reflexivity. Qed.

(** When the body of the [try] returns, the loop over some assignments has
    completed. *)
Lemma rank_with_model_returns prompt all_items (w w' : world) result :
  rank_with_model prompt all_items w = (Some result, w') ->
  exists pairs, assign_sections all_items [] ∅ pairs = Some result.
Proof.
  intros Hr. unfold rank_with_model in Hr.
  apply bind_returns in Hr as (reply & w1 & _ & Hr).
  apply bind_returns in Hr as (data & w2 & _ & Hr).
  apply lift_returns in Hr as [Hr _].
  destruct (Py.get data "assignments" (PDict [])) as [a|]; simplify_eq/=.
  destruct a; simplify_eq/=. eauto.
Qed.

(** With at least one item, the Section Assigner raises where the library
    refuses the prompt and returns the deterministic distribution where it
    builds it; the replies are left as they are. *)
Lemma rank_outcome all_news (w : world) :
  concat all_news.*2 <> [] ->
  rank_and_assign_to_sections all_news w
  = if template_accepted ranking_system_text && template_accepted ranking_user_text
    then (Some (_simple_distribution (concat all_news.*2)), w)
    else (None, w).
Proof.
  intros Hne. unfold rank_and_assign_to_sections.
  destruct (concat all_news.*2) as [|x l] eqn:Hc; [done|].
  rewrite bind_unfold. unfold lift at 1. rewrite ranking_prompt_built.
  destruct (template_accepted ranking_system_text
            && template_accepted ranking_user_text); [|done].
  unfold try_except. by rewrite rank_with_model_raises.
Qed.

(** Whatever map the Section Assigner returns is the empty map, for no item,
    or the deterministic distribution. *)
Lemma rank_returns all_news (w w' : world) result :
  rank_and_assign_to_sections all_news w = (Some result, w') ->
  w' = w
  /\ (concat all_news.*2 = [] /\ result = []
      \/ concat all_news.*2 <> []
         /\ result = _simple_distribution (concat all_news.*2)).
Proof.
  destruct (decide (concat all_news.*2 = [])) as [He|Hne].
  - unfold rank_and_assign_to_sections. rewrite He. intros [= <- <-]. eauto.
  - rewrite (rank_outcome _ _ Hne).
    destruct (template_accepted ranking_system_text
              && template_accepted ranking_user_text); [|done].
    intros [= <- <-]. eauto.
Qed.

(** The tests on the length in [_simple_distribution] change nothing: past
    the end of the list a slice is empty. *)
Lemma simple_distribution_slices items :
  _simple_distribution items
  = [ ("main-story", Text.slice 0 1 items);
      ("main-story-summary", Text.slice 0 1 items);
      ("second-story", Text.slice 1 2 items);
      ("third-story", Text.slice 2 3 items);
      ("trendsetter", Text.slice 3 5 items);
      ("top-news", Text.slice 5 8 items);
      ("links", Text.slice 8 11 items) ].
Proof.
  unfold _simple_distribution, Text.slice.
  repeat match goal with
         | |- context [(?k <? length items)%nat] =>
             destruct (Nat.ltb_spec k (length items))
         end;
    repeat f_equal;
    try done;
    try (rewrite drop_ge by lia; done).
Qed.

Lemma slice_items_at items a b :
  items_at items (Z.of_nat <$> seq a (length (Text.slice a b items)))
           (Text.slice a b items).
Proof.
  apply Forall2_same_length_lookup_2.
  { by rewrite length_fmap, length_seq. }
  intros i pos item Hpos Hitem.
  apply list_lookup_fmap_Some in Hpos as (j & -> & [-> Hj]%lookup_seq).
  split; [lia|].
  unfold Text.slice in Hitem.
  apply lookup_take_Some in Hitem as [Hitem _].
  rewrite lookup_drop in Hitem. by rewrite Nat2Z.id.
Qed.

Lemma slice_length {A} (l : list A) a b :
  length (Text.slice a b l) = (Nat.min (b - a) (length l - a))%nat.
Proof. unfold Text.slice. by rewrite length_take, length_drop. Qed.

(** Without its main-story-summary entry, the fallback distribution uses no
    position twice. *)
Lemma simple_distribution_used_once items :
  used_once items (delete 1%nat (_simple_distribution items)).
Proof.
  rewrite simple_distribution_slices. simpl.
  exists [ ("main-story", Z.of_nat <$> seq 0 (length (Text.slice 0 1 items)));
           ("second-story", Z.of_nat <$> seq 1 (length (Text.slice 1 2 items)));
           ("third-story", Z.of_nat <$> seq 2 (length (Text.slice 2 3 items)));
           ("trendsetter", Z.of_nat <$> seq 3 (length (Text.slice 3 5 items)));
           ("top-news", Z.of_nat <$> seq 5 (length (Text.slice 5 8 items)));
           ("links", Z.of_nat <$> seq 8 (length (Text.slice 8 11 items))) ].
  split.
  { repeat (constructor; [split; [done|apply slice_items_at]|]). constructor. }
  rewrite !slice_length. simpl.
  rewrite app_nil_r, <- !fmap_app.
  apply (NoDup_fmap_2 Z.of_nat).
  destruct (length items) as [|[|[|[|[|[|[|[|[|[|[|n]]]]]]]]]]];
    simpl; refine (bool_decide_unpack _ _); exact I.
Qed.

(** C2, as the code has it. In every map the Section Assigner returns, no
    position of the flattened list is used twice once the entry of
    main-story-summary is set aside. The deterministic fallback puts the
    first item, when there is one, under main-story and again under
    main-story-summary; apart from this entry it uses no position twice. *)
Theorem positions_used_once all_news (w w' : world) result :
  rank_and_assign_to_sections all_news w = (Some result, w') ->
  used_once (concat all_news.*2) (delete 1%nat result)
  /\ (forall items, used_once items (delete 1%nat (_simple_distribution items)))
  /\ (forall first rest,
        _simple_distribution (first :: rest) !! 0%nat = Some ("main-story", [first])
        /\ _simple_distribution (first :: rest) !! 1%nat
           = Some ("main-story-summary", [first])).
Proof.
  intros Hr. split; [|split].
  - apply rank_returns in Hr as [_ [[_ ->]|[_ ->]]].
    + exists []. split; constructor.
    + apply simple_distribution_used_once.
  - apply simple_distribution_used_once.
  - intros first rest. by rewrite simple_distribution_slices.
Qed.

(** C4, as the code has it. With no item at all in its input, the Section
    Assigner returns the empty map, which has none of the section keys; it
    calls no model and does not raise. It is the deterministic fallback that,
    on an empty list, maps each of the seven section keys to an empty
    sequence. *)
Theorem no_items_no_sections all_news (w : world) :
  concat all_news.*2 = [] ->
  rank_and_assign_to_sections all_news w = (Some [], w)
  /\ _simple_distribution []
     = [ ("main-story", []); ("main-story-summary", []); ("second-story", []);
         ("third-story", []); ("trendsetter", []); ("top-news", []);
         ("links", []) ].
Proof.
  intros He. split; [|done].
  unfold rank_and_assign_to_sections. by rewrite He.
Qed.

(** *** The loop over the assignments

    The loop of lines 392 to 402, run on the pairs of a dict of assignments:
    what the ranking path would hand out, were a reply read. *)

Lemma loop_first_claim_wins all_items pairs result :
  NoDup pairs.*1 ->
  assign_sections all_items [] ∅ pairs = Some result ->
  exists placement,
    placed_at all_items placement result
    /\ NoDup (concat placement.*2)
    /\ forall pre key indices post, pairs = pre ++ (key, indices) :: post ->
         exists kept,
           placement !! length pre = Some (key, kept)
           /\ kept `sublist_of` claimed indices
           /\ forall i, i ∈ kept <->
                0 <= i < Z.of_nat (length all_items)
                /\ i ∈ claimed indices
                /\ forall earlier, earlier ∈ pre -> i ∉ claimed (earlier.2).
Proof.
  intros Hn Ha.
  apply assign_sections_placement in Ha as (placement & new & Hpl & -> & Hat);
    [|done|by intros k _ ?%elem_of_nil].
  exists placement. split; [done|].
  split; [by eapply placement_of_NoDup|].
  intros pre key indices post ->.
  destruct (placement_of_first_claim _ _ _ _ pre key indices post Hpl eq_refl)
    as (kept & Hl & Hs & Hk).
  exists kept. split; [done|]. split; [done|].
  intros i. rewrite Hk. rewrite elem_of_empty. tauto.
Qed.

End Assigner.

(** ** The clean-up of replies *)

Section Cleaning.
Context `{Runtime} `{Prompting}.

Lemma agree_ret {A} (a : A) : agree (mret a) (mret a).
Proof. by intros w1 w2 Hw. Qed.

Lemma agree_lift {A} (o : option A) : agree (lift o) (lift o).
Proof. by intros w1 w2 Hw. Qed.

Lemma agree_bind {A B} (c1 c2 : io A) (f1 f2 : A -> io B) :
  agree c1 c2 -> (forall a, agree (f1 a) (f2 a)) ->
  agree (c1 ≫= f1) (c2 ≫= f2).
Proof.
  intros Hc Hf w1 w2 Hw. rewrite !bind_unfold.
  destruct (Hc w1 w2 Hw) as [Hv Hw'].
  destruct (c1 w1) as [[a|] w1'], (c2 w2) as [[b|] w2']; simplify_eq/=.
  - by apply Hf.
  - done.
Qed.

Lemma agree_try {A} (b1 b2 h1 h2 : io A) :
  agree b1 b2 -> agree h1 h2 -> agree (try_except b1 h1) (try_except b2 h2).
Proof.
  intros Hb Hh w1 w2 Hw. unfold try_except.
  destruct (Hb w1 w2 Hw) as [Hv Hw'].
  destruct (b1 w1) as [[a|] w1'], (b2 w2) as [[b|] w2']; simplify_eq/=.
  - done.
  - by apply Hh.
Qed.

(** What follows a call agrees as soon as it does on replies that are
    cleaned to the same text. *)
Lemma agree_invoke {A} (k1 k2 : string -> io A) :
  (forall r1 r2, Text.strip_fences r1 = Text.strip_fences r2 ->
                 agree (k1 r1) (k2 r2)) ->
  agree (ainvoke ≫= k1) (ainvoke ≫= k2).
Proof.
  intros Hk w1 w2 Hw. rewrite !bind_unfold.
  destruct Hw as [|a b w1 w2 Hab Hw]; simpl; [split; [done|constructor]|].
  destruct a as [r1|], b as [r2|]; try done.
  apply Hk; [|done]. by injection Hab.
Qed.

Lemma fallback_agrees category num_items :
  agree (_fetch_ai_generated_news category num_items)
        (_fetch_ai_generated_news category num_items).
Proof.
  apply agree_try; [|apply agree_ret].
  apply agree_invoke. intros r1 r2 ->.
  apply agree_bind; [apply agree_lift|]. intros data. apply agree_lift.
Qed.

Lemma fetch_agrees category num_items :
  agree (fetch_news_with_catchy_titles category num_items)
        (fetch_news_with_catchy_titles category num_items).
Proof.
  apply agree_try; [|apply fallback_agrees].
  apply agree_invoke. intros r1 r2 ->.
  apply agree_bind; [apply agree_lift|]. intros data.
  apply agree_bind; [apply agree_lift|]. intros raw.
  destruct (negb (Py.truthy raw)); [apply fallback_agrees|].
  apply agree_bind; [apply agree_lift|]. intros split.
  apply agree_invoke. intros t1 t2 ->.
  apply agree_bind; [apply agree_lift|]. intros titles. apply agree_lift.
Qed.

Lemma rank_agrees all_news :
  agree (rank_and_assign_to_sections all_news)
        (rank_and_assign_to_sections all_news).
Proof.
  unfold rank_and_assign_to_sections.
  destruct (concat all_news.*2); [apply agree_ret|].
  apply agree_bind; [apply agree_lift|]. intros prompt.
  apply agree_try; [|apply agree_ret].
  unfold rank_with_model, invoke.
  destruct (forallb _ prompt).
  - apply agree_invoke. intros r1 r2 ->.
    apply agree_bind; [apply agree_lift|]. intros data. apply agree_lift.
  - apply agree_bind; [apply agree_lift|]. intros r.
    apply agree_bind; [apply agree_lift|]. intros data. apply agree_lift.
Qed.

Lemma fetch_categories_agrees categories n :
  agree (fetch_categories categories n) (fetch_categories categories n).
Proof.
  induction categories as [|c cs IH]; simpl; [apply agree_ret|].
  apply agree_bind; [apply fetch_agrees|]. intros its.
  apply agree_bind; [apply IH|]. intros rest. apply agree_ret.
Qed.

Lemma search_for_section_agrees section_title section_description num_items :
  agree (search_news_for_section section_title section_description num_items)
        (search_news_for_section section_title section_description num_items).
Proof.
  unfold search_news_for_section.
  apply agree_bind.
  - destruct (Text.contains _ _); [|apply agree_ret].
    apply agree_try; [|apply agree_ret].
    apply agree_invoke. intros r1 r2 ->.
    apply agree_bind; [apply agree_lift|]. intros data. apply agree_lift.
  - intros [|x found]; [|apply agree_ret].
    apply agree_bind; [apply fetch_categories_agrees|]. intros its.
    apply agree_ret.
Qed.

End Cleaning.

Section TextFacts.

Import Text.

Lemma chars_text l : chars (text l) = l.
Proof. apply String.list_ascii_of_string_of_list_ascii. Qed.

Lemma text_chars s : text (chars s) = s.
Proof. apply String.string_of_list_ascii_of_string. Qed.

Lemma drop_while_blank {A} (p : A -> bool) ws l :
  Forall (fun c => p c = true) ws -> drop_while p (ws ++ l) = drop_while p l.
Proof. induction 1 as [|c ws Hc _ IH]; simpl; [done|]. by rewrite Hc. Qed.

Lemma drop_while_length {A} (p : A -> bool) l :
  (length (drop_while p l) <= length l)%nat.
Proof. induction l as [|x l IH]; simpl; [done|]. destruct (p x); simpl; lia. Qed.

Lemma drop_while_full {A} (p : A -> bool) l :
  length (drop_while p l) = length l -> drop_while p l = l.
Proof.
  destruct l as [|x l]; simpl; [done|].
  destruct (p x); [|done].
  pose proof (drop_while_length p l). lia.
Qed.

Lemma drop_while_stops {A} (p : A -> bool) l k :
  drop_while p l = l -> l <> [] -> drop_while p (l ++ k) = l ++ k.
Proof.
  destruct l as [|x l]; [done|]. simpl. intros Hd _.
  destruct (p x); [|done].
  pose proof (drop_while_length p l) as Hl. rewrite Hd in Hl. simpl in Hl. lia.
Qed.

Lemma cut_prefix_app p l : cut_prefix p (p ++ l) = Some l.
Proof.
  induction p as [|c p IH]; simpl; [by destruct l|].
  by rewrite bool_decide_eq_true_2.
Qed.

Lemma trimmed_chars s :
  trimmed s ->
  drop_while isspace (chars s) = chars s
  /\ drop_while isspace (reverse (chars s)) = reverse (chars s).
Proof.
  unfold trimmed, strip, rstrip, lstrip. intros Hs.
  apply (f_equal chars) in Hs. rewrite chars_text in Hs.
  apply (f_equal length) in Hs as Hlen. rewrite length_reverse in Hlen.
  pose proof (drop_while_length isspace (chars s)) as H1.
  pose proof (drop_while_length isspace (reverse (drop_while isspace (chars s)))) as H2.
  rewrite length_reverse in H2.
  assert (drop_while isspace (chars s) = chars s) as Hl
    by (apply drop_while_full; lia).
  split; [done|]. rewrite Hl in Hlen.
  apply drop_while_full. by rewrite Hlen, length_reverse.
Qed.

Lemma fence_stops l : drop_while isspace (fence ++ l) = fence ++ l.
Proof. reflexivity. Qed.

Lemma blank_reverse ws : blank ws -> blank (reverse ws).
Proof. apply Forall_reverse. Qed.

Lemma nonempty_chars s : s <> "" -> chars s <> [].
Proof. by destruct s. Qed.

(** The clean-up of a fenced reply is its payload. *)
Lemma fenced_cleaned payload reply :
  trimmed payload -> payload <> "" -> fenced payload reply ->
  strip_fences reply = payload.
Proof.
  intros [Hl Hr]%trimmed_chars Hne%nonempty_chars
    (ws1 & tag & ws2 & ws3 & ws4 & B1 & B2 & B3 & B4 & Htag & Hreply).
  set (cb := chars payload) in *.
  assert (strip reply = text (fence ++ tag ++ ws2 ++ cb ++ ws3 ++ fence)) as Hstrip.
  { unfold strip, lstrip, rstrip. rewrite Hreply. f_equal.
    rewrite drop_while_blank, fence_stops by done.
    replace (fence ++ tag ++ ws2 ++ cb ++ ws3 ++ fence ++ ws4)
      with ((fence ++ tag ++ ws2 ++ cb ++ ws3) ++ fence ++ ws4)
      by (by rewrite <- !app_assoc).
    rewrite (reverse_app _ (fence ++ ws4)), (reverse_app fence ws4), <- app_assoc.
    rewrite drop_while_blank by by apply blank_reverse.
    change (reverse fence) with fence. rewrite fence_stops.
    change fence with (reverse fence) at 1.
    rewrite <- reverse_app, reverse_involutive.
    by rewrite <- !app_assoc. }
  unfold strip_fences. rewrite Hstrip.
  unfold startswith. rewrite !chars_text.
  change (chars "```") with fence. rewrite cut_prefix_app.
  rewrite bool_decide_eq_true_2 by eauto.
  unfold sub_fence_open. rewrite cut_prefix_app.
  assert (lstrip (default (tag ++ ws2 ++ cb ++ ws3 ++ fence)
                    (cut_prefix (chars "json") (tag ++ ws2 ++ cb ++ ws3 ++ fence)))
          = cb ++ ws3 ++ fence) as ->.
  { unfold lstrip. destruct Htag as [[-> Hws]| ->].
    - destruct ws2 as [|c ws2]; [done|]. apply Forall_cons in B2 as [Hc B2].
      assert (cut_prefix (chars "json") ([] ++ (c :: ws2) ++ cb ++ ws3 ++ fence) = None)
        as ->.
      { simpl. case_bool_decide as Hj; [|done]. by subst c. }
      simpl. rewrite Hc. rewrite drop_while_blank by done.
      by apply drop_while_stops.
    - rewrite cut_prefix_app. simpl.
      rewrite drop_while_blank by done. by apply drop_while_stops. }
  unfold sub_fence_close.
  rewrite app_assoc, (reverse_app _ fence), (reverse_app cb ws3), <- app_assoc.
  change (reverse fence) with fence. rewrite cut_prefix_app.
  rewrite drop_while_blank by by apply blank_reverse.
  rewrite Hr, reverse_involutive. apply text_chars.
Qed.

(** A trimmed text that does not start with a fence is left as it is. *)
Lemma unfenced_cleaned payload :
  trimmed payload -> startswith payload "```" = false ->
  strip_fences payload = payload.
Proof. intros Ht Hs. unfold strip_fences. by rewrite Ht, Hs. Qed.

Lemma find_char_app c before l :
  c ∉ before -> find_char c (before ++ c :: l) = Some (length before).
Proof.
  induction before as [|x before IH]; simpl; intros Hc.
  - by rewrite bool_decide_eq_true_2.
  - apply not_elem_of_cons in Hc as [Hx Hc].
    rewrite bool_decide_eq_false_2 by done. by rewrite IH.
Qed.

Lemma drop_past {A} (l : list A) x k : drop (S (length l)) (l ++ x :: k) = k.
Proof. induction l as [|y l IH]; simpl; [by destruct k|done]. Qed.

(** The span of an object in prose is the object. *)
Lemma json_span_in_prose before inner after :
  "{"%char ∉ before -> "}"%char ∉ after ->
  json_span (before ++ "{"%char :: inner ++ "}"%char :: after)
  = "{"%char :: inner ++ ["}"%char].
Proof.
  intros Hb Ha. unfold json_span.
  rewrite find_char_app by done.
  rewrite drop_past.
  rewrite reverse_app, reverse_cons, <- app_assoc, <- cons_middle.
  rewrite find_char_app by (by rewrite elem_of_reverse).
  rewrite length_reverse, length_app. simpl.
  f_equal.
  rewrite (cons_middle "}"%char inner after), app_assoc.
  apply take_app_length'. rewrite length_app. simpl. lia.
Qed.

Lemma in_prose_extracted payload reply :
  in_prose payload reply ->
  extract_json reply = payload /\ extract_json payload = payload.
Proof.
  intros (before & inner & after & Hb & Ha & Hp & Hr).
  unfold extract_json. split.
  - rewrite Hr, Hp.
    assert (before ++ ("{"%char :: inner ++ ["}"%char]) ++ after
            = before ++ "{"%char :: inner ++ "}"%char :: after) as ->
      by (simpl; by rewrite <- app_assoc).
    rewrite json_span_in_prose by done. by rewrite <- Hp, text_chars.
  - rewrite Hp.
    pose proof (json_span_in_prose [] inner []) as Hs. simpl in Hs.
    rewrite Hs; [by rewrite <- Hp, text_chars| |]; by intros ?%elem_of_nil.
Qed.

End TextFacts.

Section CleanedReplies.
Context `{Runtime} `{Prompting}.

Lemma same_world_refl (w : world) : same_world w w.
Proof. by apply Forall2_same_length_lookup_2; [|intros i a b -> [= ->]]. Qed.

Lemma same_world_at before after r1 r2 :
  Text.strip_fences r1 = Text.strip_fences r2 ->
  same_world (before ++ Some r1 :: after) (before ++ Some r2 :: after).
Proof.
  intros Hr. apply Forall2_app; [apply same_world_refl|].
  constructor; [|apply same_world_refl]. unfold same_reply. simpl. by rewrite Hr.
Qed.

(** A JSON object is its own clean-up. *)
Lemma object_cleaned payload inner :
  Text.chars payload = "{"%char :: inner ++ ["}"%char] ->
  Text.strip_fences payload = payload.
Proof.
  intros Hp. apply unfenced_cleaned.
  - unfold trimmed, Text.strip, Text.rstrip, Text.lstrip. rewrite Hp.
    assert (reverse ("{"%char :: inner ++ ["}"%char])
            = "}"%char :: reverse inner ++ ["{"%char]) as Hrev
      by (by rewrite reverse_cons, reverse_app).
    change (Text.drop_while Text.isspace ("{"%char :: inner ++ ["}"%char]))
      with ("{"%char :: inner ++ ["}"%char]).
    rewrite Hrev.
    change (Text.drop_while Text.isspace ("}"%char :: reverse inner ++ ["{"%char]))
      with ("}"%char :: reverse inner ++ ["{"%char]).
    by rewrite <- Hrev, reverse_involutive, <- Hp, text_chars.
  - unfold Text.startswith. by rewrite Hp.
Qed.

Lemma related_search_extracts num_items r1 r2 (w : world) :
  Text.extract_json (Text.strip_fences r1) = Text.extract_json (Text.strip_fences r2) ->
  related_search num_items (Some r1 :: w) = related_search num_items (Some r2 :: w).
Proof.
  intros Hr. unfold related_search. rewrite !bind_unfold. simpl. by rewrite Hr.
Qed.

(** C7, as the code has it. Every component cleans a reply before it parses
    it: a reply that wraps its payload in code fences (with or without the
    word json, with white space around the fences) is cleaned to the payload,
    so that each of the Category Searcher with its Title Rewriter, the
    Fallback Generator, the Section Assigner and the Related-News Searcher
    returns for it what it returns for the bare payload, wherever the reply
    comes among the replies. The Related-News Searcher alone then takes, from
    its search reply, the text from the first opening brace to the last
    closing brace: for an object inside prose that has no opening brace
    before the object and no closing brace after it, it returns what it
    returns for the object alone. *)
Theorem replies_are_cleaned payload reply :
  trimmed payload -> payload <> "" -> Text.startswith payload "```" = false ->
  fenced payload reply ->
  Text.strip_fences reply = payload
  /\ (forall before after category num_items all_news section_title
             section_description,
        let w1 := before ++ Some reply :: after in
        let w2 := before ++ Some payload :: after in
        (fetch_news_with_catchy_titles category num_items w1).1
        = (fetch_news_with_catchy_titles category num_items w2).1
        /\ (_fetch_ai_generated_news category num_items w1).1
           = (_fetch_ai_generated_news category num_items w2).1
        /\ (rank_and_assign_to_sections all_news w1).1
           = (rank_and_assign_to_sections all_news w2).1
        /\ (search_news_for_section section_title section_description num_items w1).1
           = (search_news_for_section section_title section_description num_items w2).1)
  /\ (forall object prose section_title section_description num_items (w : world),
        in_prose object prose ->
        trimmed prose -> Text.startswith prose "```" = false ->
        Text.contains section_description "Find news related to:" = true ->
        Text.extract_json (Text.strip_fences prose) = object
        /\ search_news_for_section section_title section_description num_items
             (Some prose :: w)
           = search_news_for_section section_title section_description num_items
               (Some object :: w)).
Proof.
  intros Ht Hne Hs Hf.
  pose proof (fenced_cleaned _ _ Ht Hne Hf) as Hclean.
  pose proof (unfenced_cleaned _ Ht Hs) as Hbare.
  split; [done|]. split.
  - intros before after category num_items all_news st sd w1 w2.
    assert (same_world w1 w2) as Hw
      by (apply same_world_at; by rewrite Hclean, Hbare).
    split; [by apply fetch_agrees|].
    split; [by apply fallback_agrees|].
    split; [by apply rank_agrees|].
    by apply search_for_section_agrees.
  - intros object prose st sd num_items w Hin Htp Hsp Hd.
    pose proof (unfenced_cleaned _ Htp Hsp) as Hprose.
    pose proof (in_prose_extracted _ _ Hin) as [Hex Hobj].
    destruct Hin as (b & inner & a & _ & _ & Hp & _).
    pose proof (object_cleaned _ _ Hp) as Hoc.
    split; [by rewrite Hprose|].
    unfold search_news_for_section. rewrite Hd, !bind_unfold.
    unfold try_except.
    rewrite (related_search_extracts num_items prose object); [done|].
    by rewrite Hprose, Hoc, Hex, Hobj.
Qed.

End CleanedReplies.

(** * Runs on concrete replies *)

Section Runs.
Local Existing Instance reference_runtime.
Local Existing Instance lenient_prompting.

(** C1, counterexample. The search finds an article and the title rewriter
    answers with prose. Had the mapping been taken as empty, the article would
    come back under its own title, as it does for an empty list of titles;
    the code returns the invented story of the Fallback Generator instead. *)
Lemma unparsed_titles_counterexample :
  json_loads (Text.strip_fences refusal) = None
  /\ fetch_news_with_catchy_titles "seo" 4
       [Some search_reply; Some no_titles_reply; Some fallback_reply]
     = (Some [found_item "Core update lands" "https://example.com/a"],
        [Some fallback_reply])
  /\ fetch_news_with_catchy_titles "seo" 4
       [Some search_reply; Some refusal; Some fallback_reply]
     = (Some [found_item "Invented story" ""], []).
Proof. repeat split; vm_compute; reflexivity. Qed.

(** The theorem of C1 on this run. *)
Lemma unparsed_titles_is_fallback_witness :
  json_loads (Text.strip_fences refusal) = None
  /\ fetch_news_with_catchy_titles "seo" 4
       [Some search_reply; Some refusal; Some fallback_reply]
     = _fetch_ai_generated_news "seo" 4 [Some fallback_reply].
Proof.
  split; [vm_compute; reflexivity|].
  refine (proj1 (unparsed_titles_is_fallback "seo" 4 search_reply
    (PDict [("news", PList [PDict [("title", PStr "Core update lands");
                                   ("url", PStr "https://example.com/a")]])])
    (PList [PDict [("title", PStr "Core update lands");
                   ("url", PStr "https://example.com/a")]])
    _ refusal [Some fallback_reply] _ _ _ _ _)); vm_compute; reflexivity.
Defined.

(** The theorem of C8 on a search without news. *)
Lemma empty_search_is_fallback_witness :
  json_loads (Text.strip_fences no_news_reply) = Some (PDict [("news", PList [])])
  /\ fetch_news_with_catchy_titles "seo" 4 [Some no_news_reply; Some fallback_reply]
     = _fetch_ai_generated_news "seo" 4 [Some fallback_reply].
Proof.
  split; [vm_compute; reflexivity|].
  refine (proj1 (empty_search_is_fallback "seo" 4 no_news_reply
    (PDict [("news", PList [])]) [Some fallback_reply] _ _));
    vm_compute; reflexivity.
Defined.

(** C3, counterexample. The search finds nothing, the Category Searcher
    returns the item of its internal fallback, and this item has an empty
    URL. *)
Lemma url_gate_counterexample :
  exists item,
    fetch_news_with_catchy_titles "seo" 4 [Some no_news_reply; Some fallback_reply]
    = (Some [item], [])
    /\ url item = "".
Proof. exists (found_item "Invented story" ""). split; vm_compute; reflexivity. Qed.

(** The theorem of C10 on the same search. *)
Lemma returned_items_have_titles_witness :
  Forall (fun item => title item <> "")
         [found_item "Core update lands" "https://example.com/a"].
Proof.
  refine (returned_items_have_titles "seo" "" "" 4
            [Some search_reply; Some no_titles_reply] [] _ _).
  right. left. vm_compute. reflexivity.
Defined.

Example ranking_reply_parsed :
  json_loads (Text.strip_fences ranking_reply)
  = Some (PDict [("assignments", PDict ranking_pairs); ("reasoning", PStr "none")]).
Proof. vm_compute. reflexivity. Qed.

(** The loop over the assignments of [ranking_reply], on the twelve items. *)
Example twelve_ranked :
  assign_sections (concat twelve.*2) [] ∅ ranking_pairs = Some ranked.
Proof. vm_compute. reflexivity. Qed.

(** C2, counterexample. The deterministic fallback puts its single item under
    main-story and under main-story-summary: the position of the item is used
    twice in the map. *)
Lemma fallback_uses_first_twice_counterexample :
  _simple_distribution [story "a"]
  = [ ("main-story", [story "a"]); ("main-story-summary", [story "a"]);
      ("second-story", []); ("third-story", []); ("trendsetter", []);
      ("top-news", []); ("links", []) ]
  /\ ~ used_once [story "a"] (_simple_distribution [story "a"]).
Proof.
  split; [vm_compute; reflexivity|].
  intros (placement & Hp & Hn).
  apply Forall2_cons_inv_r in Hp as ([k1 p1] & pl1 & [_ H1] & Hp & ->).
  apply Forall2_cons_inv_r in Hp as ([k2 p2] & pl2 & [_ H2] & Hp & ->).
  simpl in H1, H2.
  apply Forall2_cons_inv_r in H1 as (i1 & r1 & [Hi1 Hl1] & Hr1 & ->).
  apply Forall2_cons_inv_r in H2 as (i2 & r2 & [Hi2 Hl2] & Hr2 & ->).
  apply Forall2_nil_inv_r in Hr1 as ->. apply Forall2_nil_inv_r in Hr2 as ->.
  assert (i1 = 0) as -> by (destruct (Z.to_nat i1) eqn:E; [lia|done]).
  assert (i2 = 0) as -> by (destruct (Z.to_nat i2) eqn:E; [lia|done]).
  simpl in Hn. apply NoDup_cons in Hn as [Hin _]. apply Hin. by left.
Qed.

(** The theorem of C2 on the twelve items, with a library that builds the
    prompt: the map returned is the deterministic distribution. *)
Lemma positions_used_once_witness :
  rank_and_assign_to_sections twelve [Some ranking_reply]
  = (Some (_simple_distribution (concat twelve.*2)), [Some ranking_reply])
  /\ used_once (concat twelve.*2)
       (delete 1%nat (_simple_distribution (concat twelve.*2))).
Proof.
  split; [vm_compute; reflexivity|].
  refine (proj1 (positions_used_once twelve [Some ranking_reply]
                   [Some ranking_reply] _ _)).
  vm_compute. reflexivity.
Defined.

(** C4, counterexample. With no item in any category the returned map is
    empty: it is not the map of the seven section keys to empty sequences. *)
Lemma no_items_counterexample :
  rank_and_assign_to_sections [("seo", []); ("ppc", [])] [Some ranking_reply]
  = (Some [], [Some ranking_reply])
  /\ ([] : list (string * list NewsItem))
     <> [ ("main-story", []); ("main-story-summary", []); ("second-story", []);
          ("third-story", []); ("trendsetter", []); ("top-news", []);
          ("links", []) ].
Proof. split; [vm_compute; reflexivity|discriminate]. Qed.

(** The theorem of C4 on two categories without items. *)
Lemma no_items_no_sections_witness :
  concat [("seo", @nil NewsItem); ("ppc", [])].*2 = []
  /\ rank_and_assign_to_sections [("seo", []); ("ppc", [])] [Some ranking_reply]
     = (Some [], [Some ranking_reply]).
Proof.
  split; [reflexivity|].
  refine (proj1 (no_items_no_sections [("seo", []); ("ppc", [])]
                   [Some ranking_reply] _)).
  reflexivity.
Defined.

(** Three titles, the second a copy of the first but for case and white
    space around it. *)
Example three_deduped :
  _dedupe_items [story "Core Update"; story "  core update "; story "Ads"]
  = [story "Core Update"; story "Ads"].
Proof. vm_compute. reflexivity. Qed.

(** C7, counterexample. The Category Searcher does not look for an object in
    prose: for a search reply that puts the object between two sentences it
    returns the result of its fallback, not the article of the object. And
    where an object is looked for, in the Related-News Searcher, the text
    taken runs to the last closing brace, past the end of the first balanced
    object. *)
Lemma object_in_prose_counterexample :
  fetch_news_with_catchy_titles "seo" 4 [Some search_reply; Some no_titles_reply]
  = (Some [found_item "Core update lands" "https://example.com/a"], [])
  /\ fetch_news_with_catchy_titles "seo" 4 [Some prose_reply; Some no_titles_reply]
     = (Some [], [])
  /\ Text.extract_json (dq "First {'a': 1} and then {'b': 2}.")
     = dq "{'a': 1} and then {'b': 2}".
Proof. repeat split; vm_compute; reflexivity. Qed.

(** The theorem of C7 on a fenced search reply. *)
Lemma replies_are_cleaned_witness :
  fenced search_reply fenced_reply
  /\ Text.strip_fences fenced_reply = search_reply.
Proof.
  assert (fenced search_reply fenced_reply) as Hf.
  { exists [], (Text.chars "json"), ["010"%char], ["010"%char], [].
    split; [constructor|]. split; [by repeat constructor|].
    split; [by repeat constructor|]. split; [constructor|].
    split; [by right|reflexivity]. }
  split; [done|].
  refine (proj1 (replies_are_cleaned search_reply fenced_reply _ _ _ Hf)).
  - vm_compute. reflexivity.
  - discriminate.
  - vm_compute. reflexivity.
Defined.

Example related_search_in_prose :
  search_news_for_section "Top" (dq "Find news related to: 'core update'. More.") 3
    [Some prose_reply]
  = (Some [mkNewsItem "related" "Core update lands" "Industry Source" "2026-01-12"
             "https://example.com/a" "" "" ["related"; "digital-marketing"]], []).
Proof. vm_compute. reflexivity. Qed.

(** Three articles and a rewriter that covers the first and the third: the
    second keeps its own title. *)
Example partial_title_mapping :
  fetch_news_with_catchy_titles "seo" 4
    [ Some (dq "{'news': [{'title': 'One', 'url': 'http://x/1'}, {'title': 'Two', 'url': 'http://x/2'}, {'title': 'Three', 'url': 'http://x/3'}]}");
      Some (dq "{'titles': [{'index': 0, 'catchy_title': 'ONE!'}, {'index': 2, 'catchy_title': 'THREE!'}]}") ]
  = (Some [ found_item "ONE!" "http://x/1"; found_item "Two" "http://x/2";
            found_item "THREE!" "http://x/3" ], []).
Proof. vm_compute. reflexivity. Qed.

(** A search URL made of three dots passes the test on the URL and then
    receives the scheme. *)
Example dots_receive_the_scheme :
  fetch_news_with_catchy_titles "seo" 4
    [ Some (dq "{'news': [{'title': 'One', 'url': '...'}]}"); Some no_titles_reply ]
  = (Some [found_item "One" "https://..."], []).
Proof. vm_compute. reflexivity. Qed.

(** [true] in a list of indices is the int 1. *)
Example true_is_index_one :
  assign_sections (concat twelve.*2) [] ∅
    [("main-story", PList [PBool true; PInt 1])]
  = Some [("main-story", [story "b"])].
Proof. vm_compute. reflexivity. Qed.

(** Prose around the object sends the Title Rewriter's caller and the
    Fallback Generator to their fallbacks too. *)
Example prose_is_not_searched :
  fetch_news_with_catchy_titles "seo" 4
    [Some search_reply; Some ("Here you are: " +:+ no_titles_reply)]
  = (Some [], [])
  /\ _fetch_ai_generated_news "seo" 4 [Some ("Here you are: " +:+ fallback_reply)]
     = (Some [], []).
Proof. repeat split; vm_compute; reflexivity. Qed.

End Runs.

(** * Further properties *)

(** ** The number of calls *)

Section Budget.
Context `{Runtime} `{Prompting}.

Lemma consumes_le k k' (w w' : world) :
  (k <= k')%nat -> consumes k w w' -> consumes k' w w'.
Proof. intros Hk (used & -> & Hl). exists used. split; [done|lia]. Qed.

Lemma consumes_trans k1 k2 (w1 w2 w3 : world) :
  consumes k1 w1 w2 -> consumes k2 w2 w3 -> consumes (k1 + k2) w1 w3.
Proof.
  intros (u1 & -> & H1) (u2 & -> & H2). exists (u1 ++ u2).
  split; [by rewrite <- app_assoc|]. rewrite length_app. lia.
Qed.

Lemma within_le {A} k k' (c : io A) : (k <= k')%nat -> within k c -> within k' c.
Proof. intros Hk Hc w. eapply consumes_le; [done|apply Hc]. Qed.

Lemma within_ret {A} (a : A) : within 0 (mret a).
Proof. intros w. by exists []. Qed.

Lemma within_lift {A} (o : option A) : within 0 (lift o).
Proof. intros w. by exists []. Qed.

Lemma within_invoke : within 1 ainvoke.
Proof.
  intros [|r w]; simpl.
  - exists []. split; [done|simpl; lia].
  - exists [r]. split; [done|simpl; lia].
Qed.

Lemma within_bind {A B} k1 k2 (c : io A) (f : A -> io B) :
  within k1 c -> (forall a, within k2 (f a)) -> within (k1 + k2) (c ≫= f).
Proof.
  intros Hc Hf w. rewrite bind_unfold.
  pose proof (Hc w) as H1. destruct (c w) as [[a|] w1]; simpl in *.
  - eapply consumes_trans; [done|apply Hf].
  - eapply consumes_le; [|done]. lia.
Qed.

Lemma within_try {A} k1 k2 (body handler : io A) :
  within k1 body -> within k2 handler -> within (k1 + k2) (try_except body handler).
Proof.
  intros Hb Hh w. unfold try_except.
  pose proof (Hb w) as H1. destruct (body w) as [[a|] w1]; simpl in *.
  - eapply consumes_le; [|done]. lia.
  - eapply consumes_trans; [done|apply Hh].
Qed.

Lemma fallback_within category num_items :
  within 1 (_fetch_ai_generated_news category num_items).
Proof.
  apply (within_try 1 0); [|apply within_ret].
  apply (within_bind 1 0); [apply within_invoke|]. intros r.
  apply (within_bind 0 0); [apply within_lift|]. intros data. apply within_lift.
Qed.

Lemma search_and_merge_within category num_items :
  within 2 (search_and_merge category num_items).
Proof.
  apply (within_bind 1 1); [apply within_invoke|]. intros r.
  apply (within_bind 0 1); [apply within_lift|]. intros data.
  apply (within_bind 0 1); [apply within_lift|]. intros raw.
  destruct (negb (Py.truthy raw)); [apply fallback_within|].
  apply (within_bind 0 1); [apply within_lift|]. intros split.
  apply (within_bind 1 0); [apply within_invoke|]. intros t.
  apply (within_bind 0 0); [apply within_lift|]. intros td. apply within_lift.
Qed.

Lemma fetch_within category num_items :
  within 3 (fetch_news_with_catchy_titles category num_items).
Proof.
  apply (within_try 2 1); [apply search_and_merge_within|apply fallback_within].
Qed.

Lemma rank_within all_news : within 1 (rank_and_assign_to_sections all_news).
Proof.
  unfold rank_and_assign_to_sections.
  destruct (concat all_news.*2); [apply (within_le 0); [lia|apply within_ret]|].
  apply (within_bind 0 1); [apply within_lift|]. intros prompt.
  apply (within_try 1 0); [|apply within_ret].
  apply (within_bind 1 0).
  { unfold invoke. destruct (forallb _ prompt); [apply within_invoke|].
    apply (within_le 0); [lia|apply within_lift]. }
  intros r.
  apply (within_bind 0 0); [apply within_lift|]. intros data. apply within_lift.
Qed.

Lemma fetch_each_within categories all_news :
  within (3 * length categories) (fetch_each categories all_news).
Proof.
  revert all_news. induction categories as [|c cs IH]; intros all_news; simpl.
  - apply within_ret.
  - replace (S (length cs + S (length cs + S (length cs + 0))))%nat
      with (3 + 3 * length cs)%nat by lia.
    apply within_bind; [apply fetch_within|]. intros items. apply IH.
Qed.

Lemma fetch_categories_within categories n :
  within (3 * length categories) (fetch_categories categories n).
Proof.
  induction categories as [|c cs IH]; simpl.
  - apply within_ret.
  - replace (S (length cs + S (length cs + S (length cs + 0))))%nat
      with (3 + (3 * length cs + 0))%nat by lia.
    apply within_bind; [apply fetch_within|]. intros items.
    apply within_bind; [apply IH|]. intros rest. apply within_ret.
Qed.

(** X1. No entry point calls the models more often than its steps allow,
    whatever they reply: the Fallback Generator once, the Category Searcher
    three times (search, titles, fallback), the Section Assigner once and not
    at all without items, the fetch of all categories twelve times, the whole
    recommendation thirteen times, and the search for a section thirteen times
    (the related search and four categories). The replies it has not used are
    left for the calls that follow. *)
Theorem calls_are_bounded category num_items all_news section_title
    section_description (w : world) :
  consumes 1 w (_fetch_ai_generated_news category num_items w).2
  /\ consumes 3 w (fetch_news_with_catchy_titles category num_items w).2
  /\ consumes 1 w (rank_and_assign_to_sections all_news w).2
  /\ (concat all_news.*2 = [] -> (rank_and_assign_to_sections all_news w).2 = w)
  /\ consumes 12 w (fetch_all_categories w).2
  /\ consumes 13 w (generate_newsletter_recommendations w).2
  /\ consumes 13 w
       (search_news_for_section section_title section_description num_items w).2.
Proof.
  split; [apply fallback_within|]. split; [apply fetch_within|].
  split; [apply rank_within|]. split.
  { intros He. unfold rank_and_assign_to_sections. by rewrite He. }
  split; [apply (fetch_each_within ["seo"; "ppc"; "social_media"; "website"])|].
  split.
  - apply (within_bind 12 1);
      [apply (fetch_each_within ["seo"; "ppc"; "social_media"; "website"])|].
    intros all. apply rank_within.
  - unfold search_news_for_section. apply (within_bind 1 12).
    + destruct (Text.contains _ _); [|apply (within_le 0); [lia|apply within_ret]].
      apply (within_try 1 0); [|apply within_ret].
      apply (within_bind 1 0); [apply within_invoke|]. intros r.
      apply (within_bind 0 0); [apply within_lift|]. intros data. apply within_lift.
    + intros [|x found]; [|apply (within_le 0); [lia|apply within_ret]].
      apply (within_bind 12 0); [|intros its; apply within_ret].
      apply (fetch_categories_within ["seo"; "ppc"; "social_media"; "website"]).
Qed.

End Budget.

(** ** How many items are returned *)

Section Counts.
Context `{Runtime}.

Lemma collect_length {A B} (f : A -> option (option B)) l items :
  collect f l = Some items -> (length items <= length l)%nat.
Proof.
  revert items. induction l as [|x l IH]; intros items Hc; simpl in Hc.
  - by simplify_eq.
  - destruct (f x) as [r|]; simplify_eq/=.
    destruct (collect f l) as [rest|]; simplify_eq/=.
    specialize (IH rest eq_refl). destruct r; simpl; lia.
Qed.

Lemma merge_articles_length category original_data catchy_map i articles items :
  merge_articles category original_data catchy_map i articles = Some items ->
  (length items <= length articles)%nat.
Proof.
  revert i items. induction articles as [|x l IH]; intros i items Hc; simpl in Hc.
  - by simplify_eq.
  - destruct (merged_item _ _ _ i x) as [r|]; simplify_eq/=.
    destruct (merge_articles _ _ _ (S i) l) as [rest|] eqn:Hl; simplify_eq/=.
    apply IH in Hl. destruct r; simpl; lia.
Qed.

(** What a loop over [v[:n]] runs through has at most [n] elements. *)
Lemma sliced_length n v sl articles :
  0 <= n -> Py.slice_to n v = Some sl -> Py.iter sl = Some articles ->
  (Z.of_nat (length articles) <= n).
Proof.
  intros Hn Hs Hi.
  assert (forall {A} (l : list A), Z.of_nat (length (Text.slice_to n l)) <= n) as Hl.
  { intros A l. unfold Text.slice_to. rewrite length_take.
    destruct (n <? 0) eqn:E; lia. }
  destruct v; simplify_eq/=.
  - rewrite length_fmap, chars_text. apply Hl.
  - apply Hl.
Qed.

Lemma fallback_count category num_items (w w' : world) items :
  0 <= num_items ->
  _fetch_ai_generated_news category num_items w = (Some items, w') ->
  Z.of_nat (length items) <= num_items.
Proof.
  intros Hn Hf. apply try_except_returns in Hf as [Hb|(w1 & _ & Hh)].
  - apply bind_returns in Hb as (r & w1 & _ & Hb).
    apply bind_returns in Hb as (data & w2 & _ & Hb).
    apply lift_returns in Hb as [Hb _]. unbind Hb.
    apply collect_length in Hb.
    pose proof (sliced_length _ _ _ _ Hn Heqo0 Heqo1). lia.
  - injection Hh as <- _. simpl. lia.
Qed.

Lemma fetch_count category num_items (w w' : world) items :
  0 <= num_items ->
  fetch_news_with_catchy_titles category num_items w = (Some items, w') ->
  Z.of_nat (length items) <= num_items.
Proof.
  intros Hn Hf. apply try_except_returns in Hf as [Hs|(w1 & _ & Hh)];
    [|by eapply fallback_count].
  unfold search_and_merge in Hs.
  apply bind_returns in Hs as (r & w1 & _ & Hs).
  apply bind_returns in Hs as (data & w2 & _ & Hs).
  apply bind_returns in Hs as (raw & w3 & _ & Hs).
  destruct (negb (Py.truthy raw)); [by eapply fallback_count|].
  apply bind_returns in Hs as (split & w4 & _ & Hs).
  apply bind_returns in Hs as (tr & w5 & _ & Hs).
  apply bind_returns in Hs as (td & w6 & _ & Hs).
  apply lift_returns in Hs as [Hs _]. unbind Hs.
  apply merge_articles_length in Hs.
  pose proof (sliced_length _ _ _ _ Hn Heqo2 Heqo3). lia.
Qed.

(** X2. Asked for [num_items >= 0] items, the Fallback Generator, the
    Category Searcher and the search for a section never return more than
    [num_items]: each cuts what the model sent, or what the categories gave,
    to that length. With [num_items = 0] the result is empty. *)
Theorem returned_items_are_bounded category section_title section_description
    num_items (w w' : world) items :
  0 <= num_items ->
  _fetch_ai_generated_news category num_items w = (Some items, w')
  \/ fetch_news_with_catchy_titles category num_items w = (Some items, w')
  \/ search_news_for_section section_title section_description num_items w
     = (Some items, w') ->
  Z.of_nat (length items) <= num_items.
Proof.
  intros Hn [Hf|[Hf|Hf]].
  - by eapply fallback_count.
  - by eapply fetch_count.
  - unfold search_news_for_section in Hf.
    apply bind_returns in Hf as (found & w1 & Hfound & Hf).
    destruct found as [|x found].
    + apply bind_returns in Hf as (its & w2 & Hc & Hf).
      injection Hf as <- _. unfold Text.slice_to. rewrite length_take.
      destruct (num_items <? 0) eqn:E; lia.
    + injection Hf as <- _.
      destruct (Text.contains _ _); [|by injection Hfound].
      apply try_except_returns in Hfound as [Hb|(w2 & _ & Hh)]; [|by injection Hh].
      apply bind_returns in Hb as (r & w2 & _ & Hb).
      apply bind_returns in Hb as (data & w3 & _ & Hb).
      apply lift_returns in Hb as [Hb _]. unbind Hb.
      apply collect_length in Hb.
      pose proof (sliced_length _ _ _ _ Hn Heqo0 Heqo1). simpl in *. lia.
Qed.

End Counts.

(** ** Category and tags *)

Section Tags.
Context `{Runtime}.

Lemma NewsItem_new_meta c t p d u s w tg item :
  NewsItem_new c t p d u s w tg = Some item ->
  category item = c /\ tags item = tg.
Proof.
  unfold NewsItem_new. intros Hn.
  destruct (str_field t), (str_field p), (str_field d), (str_field u),
    (str_field s), (str_field w); by simplify_eq/=.
Qed.

Lemma generated_item_tagged c article item :
  generated_item c article = Some (Some item) -> tagged c item.
Proof.
  unfold generated_item. intros Hg.
  repeat match type of Hg with
         | (?o ≫= _) = _ =>
             lazymatch o with
             | NewsItem_new _ _ _ _ _ _ _ _ => fail
             | _ => destruct o eqn:?; simplify_eq/=
             end
         end.
  destruct (NewsItem_new _ _ _ _ _ _ _ _) as [it|] eqn:Hnew; simplify_eq/=.
  apply NewsItem_new_meta in Hnew. case_bool_decide; by simplify_eq/=.
Qed.

Lemma merged_item_tagged c od cm i article item :
  merged_item c od cm i article = Some (Some item) -> tagged c item.
Proof.
  unfold merged_item. intros Hg.
  repeat match type of Hg with
         | (?o ≫= _) = _ =>
             lazymatch o with
             | NewsItem_new _ _ _ _ _ _ _ _ => fail
             | _ => destruct o eqn:?; simplify_eq/=
             end
         | (if ?b then _ else _) = _ => destruct b eqn:?; simplify_eq/=
         end.
  destruct (NewsItem_new _ _ _ _ _ _ _ _) as [it|] eqn:Hnew; simplify_eq/=.
  apply NewsItem_new_meta in Hnew. case_bool_decide; by simplify_eq/=.
Qed.

Lemma related_item_tagged article item :
  related_item article = Some (Some item) -> tagged "related" item.
Proof.
  unfold related_item. intros Hg.
  repeat match type of Hg with
         | (?o ≫= _) = _ =>
             lazymatch o with
             | NewsItem_new _ _ _ _ _ _ _ _ => fail
             | _ => destruct o eqn:?; simplify_eq/=
             end
         | (if ?b then _ else _) = _ => destruct b eqn:?; simplify_eq/=
         end.
  destruct (NewsItem_new _ _ _ _ _ _ _ _) as [it|] eqn:Hnew; simplify_eq/=.
  apply NewsItem_new_meta in Hnew. case_bool_decide; by simplify_eq/=.
Qed.

Lemma fetch_categories_tagged categories n (w w' : world) items :
  fetch_categories categories n w = (Some items, w') ->
  Forall (fun item => exists c, c ∈ categories /\ tagged c item) items.
Proof.
  revert w items. induction categories as [|c cs IH]; intros w items Hf;
    simpl in Hf.
  - injection Hf as <- _. constructor.
  - apply bind_returns in Hf as (its & w1 & Hc & Hf).
    apply bind_returns in Hf as (rest & w2 & Hr & Hf).
    injection Hf as <- <-. apply Forall_app. split.
    + eapply Forall_impl.
      * eapply (fetch_returns (tagged c)); [| |exact Hc].
        -- apply generated_item_tagged.
        -- intros od cm j article item. apply merged_item_tagged.
      * intros item Ht. exists c. split; [by left|done].
    + eapply Forall_impl; [by eapply IH|].
      intros item (c' & Hin & Ht). exists c'. split; [by right|done].
Qed.

(** X3. Every item the Category Searcher returns, from the merge or from its
    fallback, carries the category it was asked for and the two tags
    [category, "digital-marketing"]; so does every item of the Fallback
    Generator. Every item of the search for a section is tagged in this way
    with "related" or with one of the four fixed categories. *)
Theorem items_are_tagged category section_title section_description num_items
    (w w' : world) items :
  (_fetch_ai_generated_news category num_items w = (Some items, w')
   \/ fetch_news_with_catchy_titles category num_items w = (Some items, w') ->
   Forall (tagged category) items)
  /\ (search_news_for_section section_title section_description num_items w
      = (Some items, w') ->
      Forall (fun item =>
                exists c, c ∈ ["related"; "seo"; "ppc"; "social_media"; "website"]
                          /\ tagged c item) items).
Proof.
  split.
  - intros [Hf|Hf].
    + eapply fallback_returns; [|done]. apply generated_item_tagged.
    + eapply fetch_returns; [| |done].
      * apply generated_item_tagged.
      * intros od cm j article item. apply merged_item_tagged.
  - intros Hf. unfold search_news_for_section in Hf.
    apply bind_returns in Hf as (found & w1 & Hfound & Hf).
    destruct found as [|x found].
    + apply bind_returns in Hf as (its & w2 & Hc & Hf).
      injection Hf as <- _. apply Forall_take.
      eapply Forall_of_sublist; [apply dedupe_from_sublist|].
      eapply Forall_impl; [by eapply fetch_categories_tagged|].
      intros item (c & Hin & Ht). exists c. split; [by right|done].
    + injection Hf as <- _.
      destruct (Text.contains _ _); [|by injection Hfound].
      apply try_except_returns in Hfound as [Hb|(w2 & _ & Hh)]; [|by injection Hh].
      apply bind_returns in Hb as (r & w2 & _ & Hb).
      apply bind_returns in Hb as (data & w3 & _ & Hb).
      apply lift_returns in Hb as [Hb _]. unbind Hb.
      eapply Forall_impl.
      * eapply (collect_Forall (tagged "related") related_item);
          [apply related_item_tagged|exact Hb].
      * intros item Ht. exists "related". split; [by left|done].
Qed.

End Tags.

(** ** Provenance of the merged items *)

Section Provenance.
Context `{Runtime}.

Lemma split_articles_records i articles split :
  split_articles i articles = Some split -> Forall2 record_of articles split.1.
Proof.
  revert i split. induction articles as [|a l IH]; intros i split Hs; simpl in Hs.
  - injection Hs as <-. constructor.
  - destruct (split_article i a) as [r|] eqn:Ha; simplify_eq/=.
    destruct (split_articles (S i) l) as [rs|] eqn:Hl; simplify_eq/=.
    constructor; [|by eapply IH].
    unfold split_article in Ha.
    repeat match type of Ha with
           | (?o ≫= _) = _ => destruct o eqn:?; simplify_eq/=
           end.
    unfold record_of. eauto 12.
Qed.

Lemma NewsItem_new_all c t p d u s w tg item :
  NewsItem_new c t p d u s w tg = Some item ->
  str_field p = Some (publisher item)
  /\ str_field d = Some (published_date item)
  /\ str_field s = Some (summary item)
  /\ str_field w = Some (why_it_matters item)
  /\ str_field u = Some (url item).
Proof.
  unfold NewsItem_new. intros Hn.
  destruct (str_field t), (str_field p), (str_field d), (str_field u),
    (str_field s), (str_field w); by simplify_eq/=.
Qed.

Lemma merged_item_from c od cm i article orig item :
  od !! i = Some orig -> record_of article orig ->
  merged_item c od cm i article = Some (Some item) ->
  from_article article item.
Proof.
  intros Ho (u & p & d & s & w & -> & Hu & Hp & Hd & Hs & Hw) Hm.
  unfold merged_item in Hm. rewrite Ho in Hm. simpl in Hm.
  destruct (Py.as_str u) as [us|] eqn:Hus; simplify_eq/=.
  destruct u; simplify_eq/=.
  destruct (bool_decide (Text.strip us = "") || bool_decide (Text.strip us = "https://...")).
  { destruct (Py.get article "title" (PStr "Unknown")); simplify_eq/=. }
  destruct (Py.get article "title" (PStr "")) as [t0|]; simplify_eq/=.
  destruct (NewsItem_new _ _ _ _ _ _ _ _) as [it|] eqn:Hnew; simplify_eq/=.
  apply NewsItem_new_all in Hnew as (Np & Nd & Ns & Nw & Nu).
  case_bool_decide; simplify_eq/=.
  split; [by exists p|]. split; [by exists d|]. split; [by exists s|].
  split; [by exists w|]. by exists us.
Qed.

Lemma merge_articles_from c od cm i articles items :
  (forall j a, articles !! j = Some a ->
               exists o, od !! (i + j)%nat = Some o /\ record_of a o) ->
  merge_articles c od cm i articles = Some items ->
  exists picked, picked `sublist_of` articles /\ Forall2 from_article picked items.
Proof.
  revert i items. induction articles as [|a l IH]; intros i items Hod Hm;
    simpl in Hm.
  - injection Hm as <-. exists []. split; [done|constructor].
  - destruct (merged_item c od cm i a) as [r|] eqn:Ha; simplify_eq/=.
    destruct (merge_articles c od cm (S i) l) as [rest|] eqn:Hl; simplify_eq/=.
    apply IH in Hl as (picked & Hsub & Hall).
    2:{ intros j a' Hj. destruct (Hod (S j) a' Hj) as (o & Ho & Hr).
        exists o. split; [|done]. by replace (S i + j)%nat with (i + S j)%nat by lia. }
    destruct r as [item|].
    + destruct (Hod 0%nat a eq_refl) as (o & Ho & Hr).
      rewrite Nat.add_0_r in Ho.
      exists (a :: picked). split; [by apply sublist_skip|].
      constructor; [|done]. by eapply merged_item_from.
    + exists picked. split; [by apply sublist_cons|done].
Qed.

(** X4. When the search found a list of articles and the Category Searcher
    returns from its merge, the items are, in the order of the search, those
    of some of the first articles: each has the publisher, date, summary and
    impact note of its article and the article's trimmed URL (with the scheme
    when that is missing), whatever the title rewriter replied. *)
Theorem merged_items_keep_provenance category num_items reply data articles
    (w w' : world) items :
  json_loads (Text.strip_fences reply) = Some data ->
  Py.get data "news" (PList []) = Some (PList articles) ->
  articles <> [] ->
  search_and_merge category num_items (Some reply :: w) = (Some items, w') ->
  exists picked,
    picked `sublist_of` Text.slice_to num_items articles
    /\ Forall2 from_article picked items.
Proof.
  intros Hp Hg Hne Hs.
  rewrite (search_reply_news _ _ _ _ _ _ Hp Hg) in Hs
    by (simpl; by rewrite bool_decide_eq_false_2).
  apply bind_returns in Hs as (split & w4 & [Hsplit ->]%lift_returns & Hs).
  apply bind_returns in Hs as (tr & w5 & _ & Hs).
  apply bind_returns in Hs as (td & w6 & _ & Hs).
  apply lift_returns in Hs as [Hs _]. unbind Hs. simpl in Hsplit.
  apply split_articles_records in Hsplit.
  eapply merge_articles_from; [|done].
  intros j a Hj. simpl. unfold Text.slice_to in Hj.
  apply lookup_take_Some in Hj as [Hj _].
  destruct (Forall2_lookup_l _ _ _ _ _ Hsplit Hj) as (o & Ho & Hr). eauto.
Qed.

End Provenance.

(** ** The titles of the merged items *)

Section Titles.
Context `{Runtime}.

(** A key that equals a position is not negative, so its entry is kept. *)
Lemma key_of_position idx (i : nat) :
  Py.key_eq_int idx (Z.of_nat i) = true -> Py.ge0 idx = Some true.
Proof.
  destruct idx as [|b|z|f|s|l|d]; simpl; try done.
  - intros ->%Z.eqb_eq. f_equal. apply Z.leb_le. lia.
  - destruct f as [s|s| |s m e]; simpl; try done.
    destruct s; [|done]. intros Hf. exfalso.
    destruct (Z.leb_spec 0 e) as [He|He].
    + apply Z.eqb_eq in Hf.
      assert (0 < 2 ^ e) by (apply Z.pow_pos_nonneg; lia). nia.
    + apply andb_true_iff in Hf as [Hm%Z.eqb_eq Hq%Z.eqb_eq].
      assert (0 < 2 ^ (- e)) as Hpos by (apply Z.pow_pos_nonneg; lia).
      pose proof (Z.div_mod (Z.pos m) (2 ^ (- e)) ltac:(lia)) as Hdm.
      rewrite Hm in Hdm. nia.
Qed.

Lemma build_catchy_map_skips cm entries cm' i dflt :
  build_catchy_map cm entries = Some cm' ->
  Forall (fun e => ~ names i e) entries ->
  Py.num_dict_get cm' (Z.of_nat i) dflt = Py.num_dict_get cm (Z.of_nat i) dflt.
Proof.
  revert cm. induction entries as [|e l IH]; intros cm Hb Hn; simpl in Hb.
  { by injection Hb as <-. }
  apply Forall_cons in Hn as [He Hl].
  destruct (Py.get e "index" (PInt (-1))) as [idx|] eqn:Hidx; simplify_eq/=.
  destruct (Py.ge0 idx) as [[|]|]; simplify_eq/=; [|by apply IH].
  destruct (Py.get e "catchy_title" (PStr "")) as [t|]; simplify_eq/=.
  rewrite (IH _ Hb Hl). simpl.
  destruct (Py.key_eq_int idx (Z.of_nat i)) eqn:Hk; [|done].
  exfalso. apply He. by exists idx.
Qed.

Lemma build_catchy_map_last cm before entry after cm' i t dflt :
  build_catchy_map cm (before ++ entry :: after) = Some cm' ->
  names i entry ->
  Forall (fun e => ~ names i e) after ->
  Py.get entry "catchy_title" (PStr "") = Some t ->
  Py.num_dict_get cm' (Z.of_nat i) dflt = t.
Proof.
  intros Hb (idx & Hidx & Hk) Hn Ht. revert cm Hb.
  induction before as [|e l IH]; intros cm Hb; simpl in Hb.
  - rewrite Hidx in Hb. simpl in Hb.
    rewrite (key_of_position _ _ Hk) in Hb. simpl in Hb.
    rewrite Ht in Hb. simpl in Hb.
    rewrite (build_catchy_map_skips _ _ _ _ _ Hb Hn). simpl. by rewrite Hk.
  - destruct (Py.get e "index" (PInt (-1))) as [idx'|]; simplify_eq/=.
    destruct (Py.ge0 idx') as [[|]|]; simplify_eq/=; [|by eapply IH].
    destruct (Py.get e "catchy_title" (PStr "")) as [t'|]; simplify_eq/=.
    by eapply IH.
Qed.

Lemma merged_item_titled_by c od entries cm i article item :
  build_catchy_map [] entries = Some cm ->
  merged_item c od cm i article = Some (Some item) ->
  titled_by entries i article item.
Proof.
  intros Hb Hm. unfold merged_item in Hm.
  destruct (Py.get (default (PDict []) (od !! i)) "url" (PStr "")) as [u|];
    simplify_eq/=.
  destruct (Py.as_str u) as [us|]; simplify_eq/=.
  destruct (bool_decide (Text.strip us = "") || bool_decide (Text.strip us = "https://...")).
  { destruct (Py.get article "title" (PStr "Unknown")); simplify_eq/=. }
  destruct (Py.get article "title" (PStr "")) as [t0|] eqn:Ht0; simplify_eq/=.
  repeat match type of Hm with
         | (Py.get ?o ?k ?v ≫= _) = _ => destruct (Py.get o k v); simplify_eq/=
         end.
  destruct (NewsItem_new _ _ _ _ _ _ _ _) as [it|] eqn:Hnew; simplify_eq/=.
  apply NewsItem_new_fields in Hnew as [Hnew _].
  case_bool_decide; simplify_eq/=.
  exists t0. split; [done|]. split.
  - intros Hn.
    rewrite (build_catchy_map_skips _ _ _ _ _ Hb Hn) in Hnew. simpl in Hnew.
    by destruct (Py.truthy t0).
  - intros before entry after t -> He Hn Ht.
    by rewrite (build_catchy_map_last _ _ _ _ _ _ _ _ Hb He Hn Ht) in Hnew.
Qed.

Lemma merge_articles_turns c od cm i articles items :
  merge_articles c od cm i articles = Some items ->
  Forall (fun item => exists j article,
            articles !! j = Some article
            /\ merged_item c od cm (i + j) article = Some (Some item)) items.
Proof.
  revert i items. induction articles as [|a l IH]; intros i items Hm; simpl in Hm.
  { injection Hm as <-. constructor. }
  destruct (merged_item c od cm i a) as [r|] eqn:Ha; simplify_eq/=.
  destruct (merge_articles c od cm (S i) l) as [rest|] eqn:Hl; simplify_eq/=.
  apply IH in Hl.
  assert (Forall (fun item => exists j article,
            (a :: l) !! j = Some article
            /\ merged_item c od cm (i + j) article = Some (Some item)) rest) as Hrest.
  { eapply Forall_impl; [done|]. intros item (j & article & Hj & Hi).
    exists (S j), article. split; [done|].
    by replace (i + S j)%nat with (S i + j)%nat by lia. }
  destruct r as [item|]; [|done].
  constructor; [|done]. exists 0%nat, a. split; [done|]. by rewrite Nat.add_0_r.
Qed.

(** X5. When the search found a list of articles and the rewriter's reply
    holds a list of entries, each item the merge returns comes from an
    article among the first of the search, at some position: it has the
    article's own title when no entry of the reply is for that position (its
    index missing, negative or another one), and otherwise the catchy title
    of the last entry for the position, or the article's title when that
    catchy title is empty. *)
Theorem titles_follow_last_entry category num_items reply data articles
    titles_reply titles_data entries (w w' : world) items :
  json_loads (Text.strip_fences reply) = Some data ->
  Py.get data "news" (PList []) = Some (PList articles) ->
  articles <> [] ->
  json_loads (Text.strip_fences titles_reply) = Some titles_data ->
  Py.get titles_data "titles" (PList []) = Some (PList entries) ->
  search_and_merge category num_items (Some reply :: Some titles_reply :: w)
  = (Some items, w') ->
  Forall (fun item => exists i article,
            Text.slice_to num_items articles !! i = Some article
            /\ titled_by entries i article item) items.
Proof.
  intros Hp Hg Hne Htp Htg Hs.
  rewrite (search_reply_news _ _ _ _ _ _ Hp Hg) in Hs
    by (simpl; by rewrite bool_decide_eq_false_2).
  apply bind_returns in Hs as (split & w4 & [Hsplit ->]%lift_returns & Hs).
  apply bind_returns in Hs as (tr & w5 & Hi & Hs).
  injection Hi as <- <-.
  apply bind_returns in Hs as (td & w6 & [Htd ->]%lift_returns & Hs).
  apply lift_returns in Hs as [Hs _]. simplify_eq/=.
  rewrite Htg in Hs. simpl in Hs.
  destruct (build_catchy_map [] entries) as [cm|] eqn:Hb; simplify_eq/=.
  apply merge_articles_turns in Hs.
  eapply Forall_impl; [done|]. intros item (j & article & Hj & Hm).
  exists j, article. split; [done|]. by eapply merged_item_titled_by.
Qed.

End Titles.

(** ** What the Section Assigner hands out *)

Section Distribution.
Context `{Runtime} `{Prompting}.

Lemma slice_app {A} (l : list A) (a b c : nat) :
  (a <= b)%nat -> (b <= c)%nat ->
  Text.slice a b l ++ Text.slice b c l = Text.slice a c l.
Proof.
  intros Hab Hbc. unfold Text.slice.
  replace (drop b l) with (drop (b - a) (drop a l))
    by (rewrite drop_drop; f_equal; lia).
  rewrite take_take_drop. f_equal. lia.
Qed.

Lemma slice_subseteq {A} (l : list A) (a b : nat) x :
  x ∈ Text.slice a b l -> x ∈ l.
Proof.
  unfold Text.slice. intros Hx. by apply subseteq_take, subseteq_drop in Hx.
Qed.

Lemma items_at_elem all_items positions items :
  items_at all_items positions items -> Forall (fun item => item ∈ all_items) items.
Proof.
  intros Hat. apply Forall_forall. intros item [j Hj]%list_elem_of_lookup_1.
  destruct (Forall2_lookup_r _ _ _ _ _ Hat Hj) as (i & _ & _ & Hi).
  by eapply list_elem_of_lookup_2.
Qed.

Lemma placed_at_concat all_items placement result :
  placed_at all_items placement result ->
  items_at all_items (concat placement.*2) (concat result.*2).
Proof.
  induction 1 as [|p r pl res [_ Hat] _ IH]; [constructor|].
  rewrite !fmap_cons. simpl. by apply Forall2_app.
Qed.

Lemma used_once_capacity all_items result :
  used_once all_items result ->
  Forall (fun sec => Forall (fun item => item ∈ all_items) sec.2) result
  /\ (length (concat result.*2) <= length all_items)%nat.
Proof.
  intros (placement & Hp & Hn). split.
  - clear Hn. induction Hp as [|p r pl res [_ Hat] _ IH]; constructor; [|done].
    by eapply items_at_elem.
  - apply placed_at_concat in Hp.
    rewrite <- (Forall2_length _ _ _ Hp).
    assert (Forall (fun i => 0 <= i /\ (Z.to_nat i < length all_items)%nat)
                   (concat placement.*2)) as Hin.
    { apply Forall_forall. intros i [j Hj]%list_elem_of_lookup_1.
      destruct (Forall2_lookup_l _ _ _ _ _ Hp Hj) as (item & _ & Hi0 & Hi).
      split; [done|]. by eapply lookup_lt_Some. }
    rewrite Forall_forall in Hin.
    assert (length (Z.to_nat <$> concat placement.*2)
            <= length (seq 0 (length all_items)))%nat as Hle.
    { apply submseteq_length, NoDup_submseteq.
      - apply NoDup_fmap_2_strong; [|done].
        intros x y Hx%Hin Hy%Hin Hxy. lia.
      - intros n (i & -> & Hi%Hin)%list_elem_of_fmap.
        apply elem_of_seq. lia. }
    by rewrite length_fmap, length_seq in Hle.
Qed.

(** X6. The system text of the ranking prompt has a replacement field, named
    by the word assignments between its double quotes, and the call gives the
    prompt only count and news_summary. So with at least one item the Section
    Assigner calls no model and reads no reply: where the library builds the
    prompt it returns the deterministic distribution, and where the library
    refuses the prompt it raises, before its try; the replies are left as
    they were. *)
Theorem ranking_reply_is_never_read all_news (w : world) :
  concat all_news.*2 <> [] ->
  Template.fields ranking_system_text = Some [Template.quoted "assignments"]
  /\ Template.fields ranking_user_text = Some ["count"; "news_summary"]
  /\ (template_accepted ranking_system_text
       && template_accepted ranking_user_text = true ->
      rank_and_assign_to_sections all_news w
      = (Some (_simple_distribution (concat all_news.*2)), w))
  /\ (template_accepted ranking_system_text
       && template_accepted ranking_user_text = false ->
      rank_and_assign_to_sections all_news w = (None, w)).
Proof.
  intros Hne.
  split; [apply system_text_fields|]. split; [apply user_text_fields|].
  rewrite (rank_outcome _ _ Hne).
  split; by intros ->.
Qed.

(** X7. The deterministic distribution always has the seven section keys, in
    a fixed order. Its sections other than main-story-summary, one after the
    other, are the first eleven items of the list in their order (all of them
    when there are fewer), and main-story-summary repeats main-story: an item
    past the eleventh is in no section. *)
Theorem simple_distribution_partitions items :
  (_simple_distribution items).*1
  = ["main-story"; "main-story-summary"; "second-story"; "third-story";
     "trendsetter"; "top-news"; "links"]
  /\ concat (delete 1%nat (_simple_distribution items)).*2 = take 11 items
  /\ _simple_distribution items !! 1%nat = Some ("main-story-summary", take 1 items)
  /\ _simple_distribution items !! 0%nat = Some ("main-story", take 1 items).
Proof.
  rewrite simple_distribution_slices. split; [done|]. split; [|done].
  change (Text.slice 0 1 items ++ Text.slice 1 2 items ++ Text.slice 2 3 items
          ++ Text.slice 3 5 items ++ Text.slice 5 8 items
          ++ Text.slice 8 11 items ++ [] = take 11 items).
  rewrite app_nil_r.
  rewrite (slice_app items 5 8 11), (slice_app items 3 5 11),
    (slice_app items 2 3 11), (slice_app items 1 2 11),
    (slice_app items 0 1 11) by lia.
  done.
Qed.

(** X8. The Section Assigner only hands out items of its input: whatever the
    model replied, every item of every section it returns is one of the
    flattened list, and the map is either the deterministic distribution or
    holds no more items than the list has. *)
Theorem sections_hold_input_items all_news (w w' : world) result :
  rank_and_assign_to_sections all_news w = (Some result, w') ->
  Forall (fun sec => Forall (fun item => item ∈ concat all_news.*2) sec.2) result
  /\ (result = _simple_distribution (concat all_news.*2)
      \/ (length (concat result.*2) <= length (concat all_news.*2))%nat).
Proof.
  unfold rank_and_assign_to_sections.
  destruct (concat all_news.*2) as [|x l] eqn:Hc.
  { intros [= <- <-]. split; [constructor|]. right. simpl. lia. }
  intros (prompt & w0 & _ & Hr)%bind_returns.
  apply try_except_returns in Hr as [Hr|(w1 & _ & [= <- <-])].
  - apply rank_with_model_returns in Hr as (pairs & Ha).
    apply (assign_sections_used_once _ []) in Ha;
      [|constructor|constructor|by intros i ?%elem_of_nil].
    apply used_once_capacity in Ha as [Hin Hlen]. split; [done|by right].
  - split; [|by left]. rewrite simple_distribution_slices.
    repeat (constructor;
            [apply Forall_forall; intros item Hi; by eapply slice_subseteq|]).
    constructor.
Qed.

End Distribution.

(** ** More on the Deduplicator *)

Section DedupeAgain.
Context `{Runtime}.

Lemma dedupe_from_distinct seen items :
  NoDup (title_hash <$> items) ->
  (forall item, item ∈ items -> title_hash item ∉ seen) ->
  dedupe_from seen items = items.
Proof.
  revert seen. induction items as [|x l IH]; intros seen Hn Hs; simpl; [done|].
  rewrite fmap_cons in Hn. apply NoDup_cons in Hn as [Hx Hl].
  rewrite bool_decide_eq_true_2 by (apply Hs; by left).
  f_equal. apply IH; [done|].
  intros item Hin. rewrite elem_of_union, elem_of_singleton.
  intros [Heq|Hseen].
  - apply Hx. rewrite <- Heq. apply list_elem_of_fmap. by exists item.
  - apply (Hs item); [by right|done].
Qed.

(** X9. The Deduplicator changes nothing exactly when the fingerprints of
    the items are pairwise distinct, and a second pass changes nothing:
    it is idempotent. *)
Theorem dedupe_is_idempotent items :
  (NoDup (title_hash <$> items) <-> _dedupe_items items = items)
  /\ _dedupe_items (_dedupe_items items) = _dedupe_items items.
Proof.
  assert (forall l, NoDup (title_hash <$> l) -> _dedupe_items l = l) as Hid.
  { intros l Hn. apply dedupe_from_distinct; [done|].
    intros item _. apply not_elem_of_empty. }
  split; [split|].
  - apply Hid.
  - intros <-. apply dedupe_from_NoDup.
  - apply Hid, dedupe_from_NoDup.
Qed.

End DedupeAgain.

(** ** The whole run *)

Section WholeRun.
Context `{Runtime} `{Prompting}.

Lemma fetch_tagged c n (w w' : world) items :
  fetch_news_with_catchy_titles c n w = (Some items, w') ->
  Forall (tagged c) items.
Proof.
  apply fetch_returns.
  - apply generated_item_tagged.
  - intros od cm j article item. apply merged_item_tagged.
Qed.

Lemma fetch_step c n (w : world) :
  exists items w',
    fetch_news_with_catchy_titles c n w = (Some items, w')
    /\ Forall (tagged c) items
    /\ (0 <= n -> Z.of_nat (length items) <= n).
Proof.
  destruct (fetch_total c n w) as [items Hi].
  destruct (fetch_news_with_catchy_titles c n w) as [[its|] w'] eqn:Hf;
    simplify_eq/=.
  exists items, w'. split; [done|]. split.
  - by eapply fetch_tagged.
  - intros Hn. by eapply fetch_count.
Qed.

Lemma fetch_all_fail c n (w : world) :
  all_fail w -> fetch_news_with_catchy_titles c n w = (Some [], drop 2 w).
Proof.
  intros Hw. destruct Hw as [|r w -> Hw]; [done|].
  destruct Hw as [|r w -> Hw]; done.
Qed.

Lemma fetch_all_steps (w : world) :
  exists seo ppc social website w',
    fetch_all_categories w
    = (Some [("seo", seo); ("ppc", ppc); ("social_media", social);
             ("website", website)], w')
    /\ Forall (fun kv => (length kv.2 <= 4)%nat /\ Forall (tagged kv.1) kv.2)
              [("seo", seo); ("ppc", ppc); ("social_media", social);
               ("website", website)].
Proof.
  unfold fetch_all_categories, fetch_each.
  destruct (fetch_step "seo" 4 w) as (i1 & w1 & H1 & T1 & L1).
  destruct (fetch_step "ppc" 4 w1) as (i2 & w2 & H2 & T2 & L2).
  destruct (fetch_step "social_media" 4 w2) as (i3 & w3 & H3 & T3 & L3).
  destruct (fetch_step "website" 4 w3) as (i4 & w4 & H4 & T4 & L4).
  exists i1, i2, i3, i4, w4. split.
  - rewrite bind_unfold, H1, bind_unfold, H2, bind_unfold, H3, bind_unfold, H4.
    done.
  - repeat (constructor; [split; [simpl; lia|done]|]). constructor.
Qed.

(** X10. Fetching all categories never raises, whatever the models reply:
    its map has the four categories as keys, in the order seo, ppc,
    social_media, website, each with at most four items, all of that
    category. Generating the recommendations hands this map to the Section
    Assigner and reads no further reply: a map it returns is the empty map,
    when nothing was fetched, or the deterministic distribution of the
    fetched items. When every call to a model raises it makes eight calls and
    returns the empty map. *)
Theorem all_categories_are_fetched (w : world) :
  (exists all_news w',
      fetch_all_categories w = (Some all_news, w')
      /\ all_news.*1 = ["seo"; "ppc"; "social_media"; "website"]
      /\ Forall (fun kv => (length kv.2 <= 4)%nat /\ Forall (tagged kv.1) kv.2)
                all_news
      /\ forall result w'',
           generate_newsletter_recommendations w = (Some result, w'') ->
           w'' = w'
           /\ (concat all_news.*2 = [] /\ result = []
               \/ concat all_news.*2 <> []
                  /\ result = _simple_distribution (concat all_news.*2)))
  /\ (all_fail w -> generate_newsletter_recommendations w = (Some [], drop 8 w)).
Proof.
  destruct (fetch_all_steps w) as (i1 & i2 & i3 & i4 & w4 & Hf & Hall).
  split.
  - eexists _, _. split; [exact Hf|]. split; [done|]. split; [exact Hall|].
    intros result w'' Hg. unfold generate_newsletter_recommendations in Hg.
    rewrite bind_unfold, Hf in Hg. by apply rank_returns in Hg.
  - intros Hw. unfold generate_newsletter_recommendations, fetch_all_categories,
      fetch_each.
    rewrite bind_unfold, bind_unfold, (fetch_all_fail _ _ _ Hw).
    rewrite bind_unfold, (fetch_all_fail _ _ _ (Forall_drop _ _ _ Hw)).
    rewrite drop_drop.
    rewrite bind_unfold, (fetch_all_fail _ _ _ (Forall_drop _ _ _ Hw)).
    rewrite drop_drop.
    rewrite bind_unfold, (fetch_all_fail _ _ _ (Forall_drop _ _ _ Hw)).
    rewrite drop_drop. done.
Qed.

Lemma related_item_gate article item :
  related_item article = Some (Some item) -> related_to article item.
Proof.
  unfold related_item. intros Hr.
  destruct (Py.get article "url" (PStr "")) as [u|] eqn:Hu; simplify_eq/=.
  destruct u as [| | | |us| |]; simplify_eq/=.
  case_bool_decide as He; simplify_eq/=.
  case_bool_decide as Hp; simplify_eq/=.
  destruct (Text.startswith (Text.strip us) "http") eqn:Hs; simplify_eq/=.
  repeat match type of Hr with
         | (Py.get ?o ?k ?v ≫= _) = _ => destruct (Py.get o k v); simplify_eq/=
         end.
  destruct (NewsItem_new _ _ _ _ _ _ _ _) as [it|] eqn:Hnew; simplify_eq/=.
  apply NewsItem_new_fields in Hnew as [_ Hnew].
  case_bool_decide; simplify_eq/=.
  by exists us.
Qed.

Lemma collect_picks {A B} (P : A -> B -> Prop) (f : A -> option (option B)) l items :
  (forall x item, f x = Some (Some item) -> P x item) ->
  collect f l = Some items ->
  exists picked, picked `sublist_of` l /\ Forall2 P picked items.
Proof.
  intros Hf. revert items. induction l as [|x l IH]; intros items Hc; simpl in Hc.
  { injection Hc as <-. exists []. split; [done|constructor]. }
  destruct (f x) as [r|] eqn:Hx; simplify_eq/=.
  destruct (collect f l) as [rest|] eqn:Hl; simplify_eq/=.
  destruct (IH _ eq_refl) as (picked & Hsub & Hall).
  destruct r as [item|].
  - exists (x :: picked). split; [by apply sublist_skip|]. constructor; auto.
  - exists picked. split; [by apply sublist_cons|done].
Qed.

(** X11. When the description asks for related news and the related search
    finds items, they are what the search for a section returns, without any
    search by category. They are, in the order of the reply, those of some of
    its first articles, each in the category related with the trimmed URL of
    its article, which starts with http and is not the placeholder: here a
    URL without the scheme is dropped, not completed. *)
Theorem related_items_pass_strict_gate section_title section_description
    num_items reply data articles (w w' : world) first rest :
  Text.contains section_description "Find news related to:" = true ->
  json_loads (Text.extract_json (Text.strip_fences reply)) = Some data ->
  Py.get data "news" (PList []) = Some (PList articles) ->
  related_search num_items (Some reply :: w) = (Some (first :: rest), w') ->
  search_news_for_section section_title section_description num_items
    (Some reply :: w) = (Some (first :: rest), w')
  /\ exists picked,
       picked `sublist_of` Text.slice_to num_items articles
       /\ Forall2 (fun article item => related_to article item
                                       /\ tagged "related" item)
                  picked (first :: rest).
Proof.
  intros Hc Hp Hg Hr. unfold related_search in Hr.
  rewrite bind_unfold in Hr. simpl in Hr.
  rewrite bind_unfold in Hr. unfold lift at 1 in Hr. rewrite Hp in Hr.
  unfold lift in Hr. rewrite Hg in Hr. simpl in Hr.
  injection Hr as Hr <-.
  split.
  - unfold search_news_for_section. rewrite Hc.
    rewrite bind_unfold. unfold try_except, related_search.
    rewrite bind_unfold. simpl. rewrite bind_unfold. unfold lift at 1.
    rewrite Hp. unfold lift. rewrite Hg. simpl.
    by rewrite Hr.
  - destruct (negb (bool_decide (articles = []))); simplify_eq/=.
    eapply collect_picks; [|done].
    intros article item Hi. split.
    + by apply related_item_gate.
    + by eapply related_item_tagged.
Qed.



(** X13. The Fallback Generator returns no item, and does not raise, when its
    call to the model raises (or no reply is left), when the reply does not
    parse, when the parsed value is no dict and when that has no news or an
    empty list of them. *)
Theorem fallback_failures_give_no_items category num_items (w : world) :
  _fetch_ai_generated_news category num_items [] = (Some [], [])
  /\ _fetch_ai_generated_news category num_items (None :: w) = (Some [], w)
  /\ forall reply,
       (json_loads (Text.strip_fences reply) = None ->
        _fetch_ai_generated_news category num_items (Some reply :: w)
        = (Some [], w))
       /\ forall data,
            json_loads (Text.strip_fences reply) = Some data ->
            (Py.get data "news" (PList []) = None
             \/ Py.get data "news" (PList []) = Some (PList []) ->
             _fetch_ai_generated_news category num_items (Some reply :: w)
             = (Some [], w)).
Proof.
  split; [done|]. split; [done|]. intros reply. split.
  - intros Hp. unfold _fetch_ai_generated_news, try_except.
    rewrite bind_unfold. simpl. rewrite bind_unfold. unfold lift at 1.
    by rewrite Hp.
  - intros data Hp Hg. unfold _fetch_ai_generated_news, try_except.
    rewrite bind_unfold. simpl. rewrite bind_unfold. unfold lift at 1.
    rewrite Hp. unfold lift. destruct Hg as [-> | ->]; [done|].
    simpl. unfold Text.slice_to. by rewrite take_nil.
Qed.

Lemma generated_item_from category article item :
  generated_item category article = Some (Some item) ->
  generated_from article item.
Proof.
  unfold generated_item. intros Hg.
  destruct (Py.get article "title" (PStr "")) as [t0|] eqn:Ht0; simplify_eq/=.
  destruct (Py.get article "catchy_title" t0) as [t|] eqn:Ht; simplify_eq/=.
  destruct (Py.get article "publisher" _) as [p|]; simplify_eq/=.
  destruct (Py.get article "published_date" _) as [d|]; simplify_eq/=.
  destruct (Py.get article "url" (PStr "")) as [u|] eqn:Hu; simplify_eq/=.
  destruct (Py.get article "summary" _) as [s|]; simplify_eq/=.
  destruct (Py.get article "why_it_matters" _) as [y|]; simplify_eq/=.
  destruct (NewsItem_new _ _ _ _ _ _ _ _) as [it|] eqn:Hnew; simplify_eq/=.
  apply NewsItem_new_fields in Hnew as [Hnt Hnu].
  case_bool_decide; simplify_eq/=.
  by exists t0, t, u.
Qed.

(** X14. When the reply to the Fallback Generator holds a list of articles,
    its items are, in the order of the reply, those of some of the first
    articles: each has the catchy title of its article when the key is there,
    else its title, and the article's URL as it is given, with no test on
    it. *)
Theorem generated_items_follow_reply category num_items reply data articles
    (w w' : world) items :
  json_loads (Text.strip_fences reply) = Some data ->
  Py.get data "news" (PList []) = Some (PList articles) ->
  _fetch_ai_generated_news category num_items (Some reply :: w) = (Some items, w') ->
  exists picked,
    picked `sublist_of` Text.slice_to num_items articles
    /\ Forall2 generated_from picked items.
Proof.
  intros Hp Hg Hf. unfold _fetch_ai_generated_news, try_except in Hf.
  rewrite bind_unfold in Hf. simpl in Hf.
  rewrite bind_unfold in Hf. unfold lift at 1 in Hf. rewrite Hp in Hf.
  unfold lift in Hf. rewrite Hg in Hf. simpl in Hf.
  destruct (collect (generated_item category) (Text.slice_to num_items articles))
    as [its|] eqn:Hc; simplify_eq/=.
  - eapply collect_picks; [|done]. apply generated_item_from.
  - unfold mret, io_ret in Hf. injection Hf as <- <-.
    exists []. split; [apply sublist_nil_l|constructor].
Qed.

End WholeRun.

(** ** The URL gate of the merge *)

Section Gate.
Context `{Runtime}.

Lemma merge_articles_picks (P : pyval -> NewsItem -> Prop) c od cm i articles items :
  (forall j a, articles !! j = Some a ->
               exists o, od !! (i + j)%nat = Some o /\ record_of a o) ->
  (forall j a o item,
     od !! j = Some o -> record_of a o ->
     merged_item c od cm j a = Some (Some item) -> P a item) ->
  merge_articles c od cm i articles = Some items ->
  exists picked, picked `sublist_of` articles /\ Forall2 P picked items.
Proof.
  intros Hod HP. revert i items Hod.
  induction articles as [|a l IH]; intros i items Hod Hm; simpl in Hm.
  - injection Hm as <-. exists []. split; [done|constructor].
  - destruct (merged_item c od cm i a) as [r|] eqn:Ha; simplify_eq/=.
    destruct (merge_articles c od cm (S i) l) as [rest|] eqn:Hl; simplify_eq/=.
    apply IH in Hl as (picked & Hsub & Hall).
    2:{ intros j a' Hj. destruct (Hod (S j) a' Hj) as (o & Ho & Hr).
        exists o. split; [|done]. by replace (S i + j)%nat with (i + S j)%nat by lia. }
    destruct r as [item|].
    + destruct (Hod 0%nat a eq_refl) as (o & Ho & Hr).
      rewrite Nat.add_0_r in Ho.
      exists (a :: picked). split; [by apply sublist_skip|].
      constructor; [|done]. by eapply HP.
    + exists picked. split; [by apply sublist_cons|done].
Qed.

Lemma merged_item_gated c od cm i article orig item :
  (forall s, str_field (PStr s) = Some s) ->
  od !! i = Some orig -> record_of article orig ->
  merged_item c od cm i article = Some (Some item) ->
  gated_url article (url item)
  /\ url item <> "" /\ Text.startswith (url item) "http" = true.
Proof.
  intros Hid Ho (u & p & d & s & w & -> & Hu & Hp & Hd & Hs & Hw) Hm.
  unfold merged_item in Hm. rewrite Ho in Hm. simpl in Hm.
  destruct (Py.as_str u) as [us|] eqn:Hus; simplify_eq/=.
  destruct u; simplify_eq/=.
  destruct (bool_decide (Text.strip us = "")
            || bool_decide (Text.strip us = "https://...")) eqn:Hgate.
  { destruct (Py.get article "title" (PStr "Unknown")); simplify_eq/=. }
  apply orb_false_iff in Hgate as [Hne Hnp].
  apply bool_decide_eq_false in Hne. apply bool_decide_eq_false in Hnp.
  destruct (Py.get article "title" (PStr "")) as [t0|]; simplify_eq/=.
  destruct (NewsItem_new _ _ _ _ _ _ _ _) as [it|] eqn:Hnew; simplify_eq/=.
  apply NewsItem_new_fields in Hnew as [_ Hurl]. rewrite Hid in Hurl.
  case_bool_decide; simplify_eq/=.
  rewrite <- Hurl.
  split; [by exists us|].
  destruct (Text.startswith (Text.strip us) "http") eqn:Hst; [|done].
  split; [done|exact Hst].
Qed.

(** What the merge is given for the articles is a list. *)
Lemma split_needs_list raw split :
  Py.truthy raw = true ->
  Py.iter raw ≫= split_articles 0 = Some split ->
  exists articles, raw = PList articles.
Proof.
  destruct raw as [|b|z|f|t|l|d]; simpl; try done.
  - destruct t as [|c t]; [done|]. intros _ Hs. simpl in Hs. done.
  - intros _ _. by exists l.
  - destruct d as [|[k v] d]; [done|]. intros _ Hs. simpl in Hs. done.
Qed.

(** C3, as the code has it. The items the Category Searcher returns from the
    merge of a search that found articles are, in the order of the search,
    those of some of its first articles, and each carries the trimmed URL of
    its own article, which is neither empty nor the placeholder, with
    https:// put before it when it does not start with http: a URL that is
    not empty and starts with http. (The class NewsItem is taken to keep a
    string it is given.) *)
Theorem merged_items_pass_url_gate category num_items reply data raw
    (w w' : world) items :
  (forall s, str_field (PStr s) = Some s) ->
  json_loads (Text.strip_fences reply) = Some data ->
  Py.get data "news" (PList []) = Some raw ->
  Py.truthy raw = true ->
  search_and_merge category num_items (Some reply :: w) = (Some items, w') ->
  fetch_news_with_catchy_titles category num_items (Some reply :: w) = (Some items, w')
  /\ exists articles picked,
       raw = PList articles
       /\ picked `sublist_of` Text.slice_to num_items articles
       /\ Forall2 (fun article item =>
                     gated_url article (url item)
                     /\ url item <> ""
                     /\ Text.startswith (url item) "http" = true)
                  picked items.
Proof.
  intros Hid Hp Hg Ht Hs. split; [by apply fetch_on_return|].
  rewrite (search_reply_news _ _ _ _ _ _ Hp Hg Ht) in Hs.
  apply bind_returns in Hs as (split & w4 & [Hsplit ->]%lift_returns & Hs).
  destruct (split_needs_list _ _ Ht Hsplit) as [articles ->].
  apply bind_returns in Hs as (tr & w5 & _ & Hs).
  apply bind_returns in Hs as (td & w6 & _ & Hs).
  apply lift_returns in Hs as [Hs _]. unbind Hs. simpl in Hsplit.
  apply split_articles_records in Hsplit.
  exists articles.
  eapply (merge_articles_picks
            (fun article item => gated_url article (url item)
                                 /\ url item <> ""
                                 /\ Text.startswith (url item) "http" = true))
    in Hs as (picked & Hsub & Hall).
  - by exists picked.
  - intros j a Hj. simpl. unfold Text.slice_to in Hj.
    apply lookup_take_Some in Hj as [Hj _].
    destruct (Forall2_lookup_l _ _ _ _ _ Hsplit Hj) as (o & Ho & Hr). eauto.
  - intros j a o item Ho Hr Hm. by eapply merged_item_gated.
Qed.

End Gate.

(** ** The fingerprint of the Deduplicator *)

Section Fingerprints.
Context `{Runtime}.

Import Text.

Lemma isspace_lower c : isspace (lower_char c) = isspace c.
Proof. destruct c as [[] [] [] [] [] [] [] []]; reflexivity. Qed.

Lemma blank_lower ws : blank ws -> blank (lower_char <$> ws).
Proof.
  intros Hb. apply Forall_fmap. eapply Forall_impl; [exact Hb|].
  intros c Hc. simpl. by rewrite isspace_lower.
Qed.

Lemma lstrip_lower l : lstrip (lower_char <$> l) = lower_char <$> lstrip l.
Proof.
  unfold lstrip. induction l as [|c l IH]; simpl; [done|].
  rewrite isspace_lower. by destruct (isspace c).
Qed.

(** White space after a text goes with the trimming. *)
Lemma strip_blank_after l ws :
  blank ws -> rstrip (lstrip (l ++ ws)) = rstrip (lstrip l).
Proof.
  intros Hb. unfold lstrip. induction l as [|c l IH]; simpl.
  - rewrite <- (app_nil_r ws), drop_while_blank by done. done.
  - destruct (isspace c); [done|].
    unfold rstrip. rewrite app_comm_cons, reverse_app.
    rewrite drop_while_blank by (by apply blank_reverse). done.
Qed.

Lemma drop_while_keeps {A} (p : A -> bool) x y :
  drop_while p y = y -> exists z, drop_while p (x ++ y) = z ++ y.
Proof.
  intros Hy. induction x as [|c x IH]; simpl; [by exists []|].
  destruct (p c); [done|]. by exists (c :: x).
Qed.

Lemma title_prefix_folded item : title_prefix item = folded_prefix (title item).
Proof.
  unfold title_prefix, folded_prefix, prefix_to, strip, lower.
  by rewrite !chars_text.
Qed.

Lemma folded_case a b : lower a = lower b -> folded_prefix a = folded_prefix b.
Proof.
  unfold lower, folded_prefix. intros Hl.
  apply (f_equal chars) in Hl. rewrite !chars_text in Hl. by rewrite Hl.
Qed.

Lemma folded_blank a ws1 ws2 :
  blank ws1 -> blank ws2 ->
  folded_prefix (text (ws1 ++ chars a ++ ws2)) = folded_prefix a.
Proof.
  intros H1 H2. unfold folded_prefix. rewrite chars_text, !fmap_app.
  do 2 f_equal.
  unfold lstrip at 1. rewrite drop_while_blank by (by apply blank_lower).
  apply strip_blank_after. by apply blank_lower.
Qed.

Lemma folded_cut a s :
  trimmed a -> (50 <= length (chars a))%nat ->
  folded_prefix (a +:+ s) = folded_prefix a.
Proof.
  intros [Hl Hr]%trimmed_chars Hlen. unfold folded_prefix.
  rewrite chars_app, fmap_app.
  set (la := lower_char <$> chars a). set (ls := lower_char <$> chars s).
  assert (length la = length (chars a)) as Hla by apply length_fmap.
  assert (lstrip la = la) as Hll.
  { unfold la. rewrite lstrip_lower. unfold lstrip. by rewrite Hl. }
  assert (drop_while isspace (reverse la) = reverse la) as Hrr.
  { unfold la. rewrite <- fmap_reverse.
    pose proof (lstrip_lower (reverse (chars a))) as Hx. unfold lstrip in Hx.
    by rewrite Hx, Hr. }
  assert (la <> []) as Hne by (intros Hnil; rewrite Hnil in Hla; simpl in Hla; lia).
  assert (lstrip (la ++ ls) = la ++ ls) as ->
    by (by apply drop_while_stops).
  unfold rstrip. rewrite Hll, Hrr, reverse_involutive, reverse_app.
  destruct (drop_while_keeps isspace (reverse ls) (reverse la) Hrr) as [z ->].
  rewrite reverse_app, reverse_involutive.
  f_equal. apply take_app_le. lia.
Qed.

(** C6. The Deduplicator returns a subsequence of its input, in the input's
    order. An item is dropped exactly when an earlier item of the input has
    its fingerprint, so that the first item of each fingerprint stays and the
    later ones go. The fingerprint is the MD5 digest of the case-folded,
    whitespace-trimmed first 50 characters of the title: titles that differ
    only in case, only in white space around them, or only after the first 50
    characters of a trimmed title, have the same fingerprint. No two items of
    the output have the same folded prefix, and where the digest does not
    collide on the input, an item is dropped only if an earlier one has its
    folded prefix. *)
Theorem dedupe_keeps_first_seen items :
  _dedupe_items items `sublist_of` items
  /\ NoDup ((fun item => folded_prefix (title item)) <$> _dedupe_items items)
  /\ (forall pre item post, items = pre ++ item :: post ->
        let dropped := title_hash item ∈ title_hash <$> pre in
        (exists after,
            after `sublist_of` post
            /\ _dedupe_items items
               = _dedupe_items pre
                 ++ (if bool_decide dropped then [] else [item]) ++ after)
        /\ (folded_prefix (title item)
            ∈ (fun earlier => folded_prefix (title earlier)) <$> pre -> dropped)
        /\ ((forall earlier, earlier ∈ pre ->
                title_hash earlier = title_hash item ->
                folded_prefix (title earlier) = folded_prefix (title item)) ->
            dropped ->
            folded_prefix (title item)
            ∈ (fun earlier => folded_prefix (title earlier)) <$> pre))
  /\ (forall item, title_hash item = md5_hexdigest (folded_prefix (title item)))
  /\ (forall a b, Text.lower a = Text.lower b -> folded_prefix a = folded_prefix b)
  /\ (forall a ws1 ws2, blank ws1 -> blank ws2 ->
        folded_prefix (Text.text (ws1 ++ Text.chars a ++ ws2)) = folded_prefix a)
  /\ (forall a s, trimmed a -> (50 <= length (Text.chars a))%nat ->
        folded_prefix (a +:+ s) = folded_prefix a).
Proof.
  assert (forall item, title_hash item = md5_hexdigest (folded_prefix (title item)))
    as Hhash.
  { intros item. unfold title_hash. by rewrite title_prefix_folded. }
  split; [apply dedupe_from_sublist|]. split.
  { apply (NoDup_fmap_1 md5_hexdigest). rewrite <- list_fmap_compose.
    rewrite (list_fmap_ext _ title_hash); [apply dedupe_from_NoDup|].
    intros i item _. simpl. by rewrite Hhash. }
  split; [|split; [exact Hhash|]].
  - intros pre item post -> dropped. split; [|split].
    + exists (dedupe_from (∅ ∪ list_to_set (title_hash <$> pre ++ [item])) post).
      split; [apply dedupe_from_sublist|].
      unfold _dedupe_items.
      replace (pre ++ item :: post) with ((pre ++ [item]) ++ post)
        by (by rewrite <- app_assoc).
      rewrite dedupe_from_app, dedupe_from_snoc, <- app_assoc.
      do 2 f_equal.
      apply cond_ext. unfold dropped. rewrite elem_of_empty. tauto.
    + intros (earlier & Heq & Hin)%list_elem_of_fmap.
      apply list_elem_of_fmap. exists earlier. split; [|done].
      by rewrite !Hhash, Heq.
    + intros Hinj (earlier & Heq & Hin)%list_elem_of_fmap.
      apply list_elem_of_fmap. exists earlier. split; [|done].
      symmetry. by apply Hinj.
  - split; [apply folded_case|]. split; [apply folded_blank|apply folded_cut].
Qed.

End Fingerprints.

(** * Further runs on concrete replies *)

Section FurtherRuns.
Local Existing Instance reference_runtime.
Local Existing Instance lenient_prompting.

(** X1 on a search that finds an article: two calls, within the three. *)
Lemma calls_are_bounded_witness :
  consumes 3 [Some search_reply; Some no_titles_reply]
    (fetch_news_with_catchy_titles "seo" 4
       [Some search_reply; Some no_titles_reply]).2.
Proof.
  exact (proj1 (proj2 (calls_are_bounded "seo" 4 [] "" ""
                         [Some search_reply; Some no_titles_reply]))).
Defined.

(** X2 on the same search. *)
Lemma returned_items_are_bounded_witness :
  Z.of_nat (length [found_item "Core update lands" "https://example.com/a"]) <= 4.
Proof.
  refine (returned_items_are_bounded "seo" "" "" 4
            [Some search_reply; Some no_titles_reply] [] _ _ _); [lia|].
  right. left. vm_compute. reflexivity.
Defined.

(** X3 on the same search. *)
Lemma items_are_tagged_witness :
  Forall (tagged "seo") [found_item "Core update lands" "https://example.com/a"].
Proof.
  refine (proj1 (items_are_tagged "seo" "" "" 4
                   [Some search_reply; Some no_titles_reply] [] _) _).
  right. vm_compute. reflexivity.
Defined.

(** X4 on the same search. *)
Lemma merged_items_keep_provenance_witness :
  exists picked,
    picked `sublist_of` Text.slice_to 4 [found_article]
    /\ Forall2 from_article picked
         [found_item "Core update lands" "https://example.com/a"].
Proof.
  refine (merged_items_keep_provenance "seo" 4 search_reply search_data
            [found_article] [Some no_titles_reply] [] _ _ _ _ _);
    [vm_compute; reflexivity|vm_compute; reflexivity|discriminate
    |vm_compute; reflexivity].
Defined.

(** Two entries for position 0: the article comes back under the catchy title
    of the second. *)
Example last_title_wins :
  search_and_merge "seo" 4 [Some search_reply; Some twice_titled_reply]
  = (Some [found_item "Last" "https://example.com/a"], []).
Proof. vm_compute. reflexivity. Qed.

(** X5 on this run. *)
Lemma titles_follow_last_entry_witness :
  Forall (fun item => exists i article,
            Text.slice_to 4 [found_article] !! i = Some article
            /\ titled_by twice_titled i article item)
         [found_item "Last" "https://example.com/a"].
Proof.
  refine (titles_follow_last_entry "seo" 4 search_reply search_data
            [found_article] twice_titled_reply
            (PDict [("titles", PList twice_titled)]) twice_titled [] [] _
            _ _ _ _ _ _);
    [vm_compute; reflexivity|vm_compute; reflexivity|discriminate
    |vm_compute; reflexivity|vm_compute; reflexivity|vm_compute; reflexivity].
Defined.

(** X6 on twelve items and a library that builds the prompt. *)
Lemma ranking_reply_is_never_read_witness :
  rank_and_assign_to_sections twelve [Some ranking_reply]
  = (Some (_simple_distribution (concat twelve.*2)), [Some ranking_reply]).
Proof.
  refine (proj1 (proj2 (proj2 (ranking_reply_is_never_read twelve
                                 [Some ranking_reply] _))) _).
  - discriminate.
  - reflexivity.
Defined.

(** X8 on the same run. *)
Lemma sections_hold_input_items_witness :
  Forall (fun sec => Forall (fun item => item ∈ concat twelve.*2) sec.2)
         (_simple_distribution (concat twelve.*2))
  /\ (_simple_distribution (concat twelve.*2)
      = _simple_distribution (concat twelve.*2)
      \/ (length (concat (_simple_distribution (concat twelve.*2)).*2)
          <= length (concat twelve.*2))%nat).
Proof.
  refine (sections_hold_input_items twelve [Some ranking_reply]
            [Some ranking_reply] (_simple_distribution (concat twelve.*2)) _).
  vm_compute. reflexivity.
Defined.

(** X9 on three items, the second a duplicate of the first by its
    fingerprint. *)
Lemma dedupe_is_idempotent_witness :
  _dedupe_items (_dedupe_items [story "a"; story " A"; story "b"])
  = _dedupe_items [story "a"; story " A"; story "b"].
Proof.
  exact (proj2 (dedupe_is_idempotent [story "a"; story " A"; story "b"])).
Defined.

(** X10 on two calls that raise. *)
Lemma all_categories_are_fetched_witness :
  generate_newsletter_recommendations [None; None] = (Some [], []).
Proof.
  refine (proj2 (all_categories_are_fetched [None; None]) _).
  repeat constructor.
Defined.

(** X11 on a reply with the object in prose. *)
Lemma related_items_pass_strict_gate_witness :
  search_news_for_section "Top" related_request 3 [Some prose_reply]
  = (Some [related_found], [])
  /\ exists picked,
       picked `sublist_of` Text.slice_to 3 [found_article]
       /\ Forall2 (fun article item => related_to article item
                                       /\ tagged "related" item)
                  picked [related_found].
Proof.
  refine (related_items_pass_strict_gate "Top" related_request 3 prose_reply
            search_data [found_article] [] [] related_found [] _ _ _ _);
    vm_compute; reflexivity.
Defined.


(** X13 on a reply that is no JSON. *)
Lemma fallback_failures_give_no_items_witness :
  _fetch_ai_generated_news "seo" 4 [Some refusal] = (Some [], []).
Proof.
  refine (proj1 (proj2 (proj2 (fallback_failures_give_no_items "seo" 4 []))
                   refusal) _).
  vm_compute. reflexivity.
Defined.

(** X14 on the invented story. *)
Lemma generated_items_follow_reply_witness :
  exists picked,
    picked `sublist_of`
      Text.slice_to 4 [PDict [("catchy_title", PStr "Invented story");
                              ("url", PStr "")]]
    /\ Forall2 generated_from picked [found_item "Invented story" ""].
Proof.
  refine (generated_items_follow_reply "seo" 4 fallback_reply
            (PDict [("news", PList [PDict [("catchy_title", PStr "Invented story");
                                           ("url", PStr "")]])])
            _ [] [] _ _ _ _);
    vm_compute; reflexivity.
Defined.

(** The theorem of C3 on a search that finds an article. *)
Lemma merged_items_pass_url_gate_witness :
  search_and_merge "seo" 4 [Some search_reply; Some no_titles_reply]
  = (Some [found_item "Core update lands" "https://example.com/a"], [])
  /\ exists articles picked,
       PList [found_article] = PList articles
       /\ picked `sublist_of` Text.slice_to 4 articles
       /\ Forall2 (fun article item =>
                     gated_url article (url item)
                     /\ url item <> ""
                     /\ Text.startswith (url item) "http" = true)
                  picked [found_item "Core update lands" "https://example.com/a"].
Proof.
  split; [vm_compute; reflexivity|].
  refine (proj2 (merged_items_pass_url_gate "seo" 4 search_reply search_data
                   (PList [found_article]) [Some no_titles_reply] [] _ _ _ _ _ _));
    vm_compute; reflexivity.
Defined.

(** The theorem of C6 at the second of the three items of [three_deduped]:
    its title has the folded prefix of the first, so it is dropped. *)
Lemma dedupe_keeps_first_seen_witness :
  folded_prefix "  core update " = "core update"
  /\ folded_prefix "Core Update" = "core update"
  /\ title_hash (story "  core update ") ∈ title_hash <$> [story "Core Update"].
Proof.
  split; [vm_compute; reflexivity|]. split; [vm_compute; reflexivity|].
  refine (proj1 (proj2 (proj1 (proj2 (proj2 (dedupe_keeps_first_seen
            [story "Core Update"; story "  core update "; story "Ads"])))
            [story "Core Update"] (story "  core update ") [story "Ads"]
            eq_refl)) _).
  vm_compute. left.
Defined.

(** C5, at the failing input: twelve items and a ranking model that would
    answer [ranking_reply], which lists index 2 under second-story and again
    under third-story. The loop over these assignments would put the item at
    index 2 under second-story only. The Section Assigner does not read the
    reply: with a library that builds the prompt it returns the deterministic
    distribution, in which second-story has the item at index 1 and the item
    at index 2 is under third-story, and with a library that refuses the
    prompt it raises. *)
Lemma index_two_lands_under_third_story :
  assign_sections (concat twelve.*2) [] ∅ ranking_pairs
  = Some [ ("main-story", [story "a"]); ("second-story", [story "c"]);
           ("third-story", [story "f"]); ("bonus", [story "h"]) ]
  /\ @rank_and_assign_to_sections reference_runtime lenient_prompting twelve
       [Some ranking_reply]
     = (Some [ ("main-story", [story "a"]); ("main-story-summary", [story "a"]);
               ("second-story", [story "b"]); ("third-story", [story "c"]);
               ("trendsetter", [story "d"; story "e"]);
               ("top-news", [story "f"; story "g"; story "h"]);
               ("links", [story "i"; story "j"; story "k"]) ],
        [Some ranking_reply])
  /\ @rank_and_assign_to_sections reference_runtime strict_prompting twelve
       [Some ranking_reply]
     = (None, [Some ranking_reply]).
Proof. repeat split; vm_compute; reflexivity. Qed.

(** C9, at the failing input: the same twelve items and reply, whose
    assignments have the key bonus and lack links. The keys of the map the
    Section Assigner returns are the seven fixed keys, links among them and
    bonus not, since the reply is not read; with a library that refuses the
    prompt there is no map at all. *)
Lemma section_keys_ignore_the_reply :
  ranking_pairs.*1 = ["main-story"; "second-story"; "third-story"; "bonus"]
  /\ (exists result,
        @rank_and_assign_to_sections reference_runtime lenient_prompting twelve
          [Some ranking_reply] = (Some result, [Some ranking_reply])
        /\ result.*1
           = ["main-story"; "main-story-summary"; "second-story"; "third-story";
              "trendsetter"; "top-news"; "links"])
  /\ (@rank_and_assign_to_sections reference_runtime strict_prompting twelve
        [Some ranking_reply]).1 = None.
Proof.
  split; [reflexivity|]. split; [|vm_compute; reflexivity].
  eexists. split; vm_compute; reflexivity.
Qed.

End FurtherRuns.
